(** * TerminalRewind: command ledger, file-change tracker and rollback engine

    A shallow embedding of [terminalrewind.py].

    - The SQLite store is a record of tables: lists of rows in rowid order,
      the [sessions] table keyed by its primary key.  Every method of
      [TerminalRewindDB] is a function from the store to a result and a new
      store; SQL comparisons are three-valued.
    - What the program reads from its environment (the clock, the user and
      host names, the working directory) is an explicit [Env] argument.
    - The filesystem is a type class [FileSystem] of the [pathlib], [os] and
      [shutil] calls that [FileTracker] and [RollbackManager] make; the
      methods take the filesystem state and return the new one.  [MemFS] is
      an in-memory instance on which the methods run.
    - The FTS5 engine is a parameter of [get_commands]; [SimpleFTS] is an
      instance for plain queries.
    - Python floats are [spec_float] at binary64, with [round] to decimals.

    Definitions come first, then the properties, grouped by component. *)

From Stdlib Require Import ZArith Lia SpecFloat Ascii String Sorted DecimalString.
From Stdlib Require Import QArith Qabs Qpower Lqa.
From stdpp Require Import gmap strings list.

Local Open Scope Z_scope.
Local Open Scope string_scope.
Local Open Scope list_scope.

(** ** Python truthiness *)

Module Py.

(** [if s:] for an [Optional[str]]: [None] and the empty string are false. *)
Definition truthy (o : option string) : bool :=
  match o with
  | Some s => negb (String.eqb s "")
  | None => false
  end.

(** The string held by a truthy [Optional[str]]. *)
Definition if_str (o : option string) : option string :=
  match o with
  | Some s => if String.eqb s "" then None else Some s
  | None => None
  end.

(** [x or d] for an [Optional[str]]. *)
Definition or_else (o : option string) (d : string) : string :=
  match o with
  | Some s => if String.eqb s "" then d else s
  | None => d
  end.

(** [x if x else None] for a list (or dict) argument. *)
Definition nonempty {A : Type} (o : option (list A)) : option (list A) :=
  match o with
  | Some (x :: l) => Some (x :: l)
  | _ => None
  end.

(** What a call either returns or raises. *)
Inductive result (A : Type) : Type :=
| Returns (a : A)
| Raises (exc : string).

Arguments Returns {A} a.
Arguments Raises {A} exc.

Definition bind {A B : Type} (r : result A) (k : A -> result B) : result B :=
  match r with
  | Returns a => k a
  | Raises e => Raises e
  end.

End Py.

(** ** The ledger store ([class TerminalRewindDB]) *)

(** What the process environment supplies to a call. *)
Record Env := {
  env_now : string;            (* datetime.datetime.now().isoformat() *)
  env_sql_now : string;        (* SQLite's CURRENT_TIMESTAMP *)
  env_platform : string;       (* platform.system() *)
  env_shell : string;          (* SHELL, else COMSPEC, else "unknown" *)
  env_user : string;           (* USER, else USERNAME, else "unknown" *)
  env_hostname : string;       (* platform.node() *)
  env_cwd : string             (* os.getcwd() *)
}.

(** A row of table [commands]. *)
Record command := {
  cmd_id : Z;
  cmd_session_id : string;
  cmd_timestamp : string;
  cmd_command : string;
  cmd_cwd : string;
  cmd_exit_code : option Z;
  cmd_output : option string;
  cmd_error_output : option string;
  cmd_duration_ms : option Z;
  cmd_platform : string;
  cmd_shell : string;
  cmd_user : string;
  cmd_hostname : string;
  cmd_tags : option (list string);    (* the list that json.dumps serialises *)
  cmd_notes : option string;
  cmd_created_at : string
}.

(** A row of table [file_changes]; [change_type] is free text in the schema. *)
Record file_change := {
  fc_id : Z;
  fc_command_id : Z;
  fc_file_path : string;
  fc_change_type : string;
  fc_old_hash : option string;
  fc_new_hash : option string;
  fc_old_size : option Z;
  fc_new_size : option Z;
  fc_backup_path : option string;
  fc_created_at : string
}.

(** A row of table [sessions]. *)
Record session := {
  s_id : string;
  s_name : option string;
  s_description : option string;
  s_started_at : string;
  s_ended_at : option string;
  s_command_count : Z;
  s_success_count : Z;
  s_error_count : Z;
  s_cwd_start : option string;
  s_agent_name : option string;
  s_metadata : option (list (string * string))
}.

(** A row of the full-text index [commands_fts]. *)
Record fts_row := {
  fts_rowid : Z;
  fts_command : string;
  fts_output : string
}.

(** The store: rows are kept in insertion (rowid) order; the two [_seq]
    fields are the AUTOINCREMENT counters. *)
Record DB := {
  commands : list command;
  commands_seq : Z;
  commands_fts : list fts_row;
  file_changes : list file_change;
  file_changes_seq : Z;
  sessions : gmap string session
}.

(** The store that [_init_schema] creates. *)
Definition empty_db : DB :=
  {| commands := []; commands_seq := 0; commands_fts := [];
     file_changes := []; file_changes_seq := 0; sessions := ∅ |}.

(** SQL comparisons are three-valued: a NULL operand gives NULL. *)
Definition sql_eq (a b : option Z) : option bool :=
  match a, b with
  | Some x, Some y => Some (Z.eqb x y)
  | _, _ => None
  end.

Definition sql_ne (a b : option Z) : option bool :=
  match a, b with
  | Some x, Some y => Some (negb (Z.eqb x y))
  | _, _ => None
  end.

(** A WHERE clause or a CASE WHEN keeps a row only when its condition is
    true; NULL counts as not true. *)
Definition sql_true (v : option bool) : bool :=
  match v with
  | Some true => true
  | _ => false
  end.

(** [CASE WHEN ? = 0 THEN 1 ELSE 0 END]. *)
Definition case_eq_zero (exit_code : option Z) : Z :=
  if sql_true (sql_eq exit_code (Some 0)) then 1 else 0.

(** [CASE WHEN ? != 0 THEN 1 ELSE 0 END]. *)
Definition case_ne_zero (exit_code : option Z) : Z :=
  if sql_true (sql_ne exit_code (Some 0)) then 1 else 0.

(** The [UPDATE sessions SET ... WHERE id = ?] of [record_command], on one row. *)
Definition update_session_stats (exit_code : option Z) (s : session) : session :=
  {| s_id := s_id s;
     s_name := s_name s;
     s_description := s_description s;
     s_started_at := s_started_at s;
     s_ended_at := s_ended_at s;
     s_command_count := s_command_count s + 1;
     s_success_count := s_success_count s + case_eq_zero exit_code;
     s_error_count := s_error_count s + case_ne_zero exit_code;
     s_cwd_start := s_cwd_start s;
     s_agent_name := s_agent_name s;
     s_metadata := s_metadata s |}.

(** The arguments of [record_command] after [session_id]. *)
Record command_args := {
  arg_command : string;
  arg_cwd : string;
  arg_exit_code : option Z;
  arg_output : option string;
  arg_error_output : option string;
  arg_duration_ms : option Z;
  arg_tags : option (list string);
  arg_notes : option string
}.

(** [TerminalRewindDB.record_command]: insert the row, index it, update the
    session counters; returns the new command id. *)
Definition record_command (env : Env) (db : DB) (session_id : string)
    (a : command_args) : Z * DB :=
  let command_id := commands_seq db + 1 in
  let row :=
    {| cmd_id := command_id;
       cmd_session_id := session_id;
       cmd_timestamp := env_now env;
       cmd_command := arg_command a;
       cmd_cwd := arg_cwd a;
       cmd_exit_code := arg_exit_code a;
       cmd_output := arg_output a;
       cmd_error_output := arg_error_output a;
       cmd_duration_ms := arg_duration_ms a;
       cmd_platform := env_platform env;
       cmd_shell := env_shell env;
       cmd_user := env_user env;
       cmd_hostname := env_hostname env;
       cmd_tags := Py.nonempty (arg_tags a);
       cmd_notes := arg_notes a;
       cmd_created_at := env_sql_now env |} in
  let idx :=
    {| fts_rowid := command_id;
       fts_command := arg_command a;
       fts_output := Py.or_else (arg_output a) "" |} in
  (command_id,
   {| commands := commands db ++ [row];
      commands_seq := command_id;
      commands_fts := commands_fts db ++ [idx];
      file_changes := file_changes db;
      file_changes_seq := file_changes_seq db;
      sessions := alter (update_session_stats (arg_exit_code a)) session_id (sessions db) |}).

(** [TerminalRewindDB.record_file_change]. *)
Definition record_file_change (env : Env) (db : DB) (command_id : Z)
    (file_path change_type : string) (old_hash new_hash : option string)
    (old_size new_size : option Z) (backup_path : option string) : DB :=
  let id := file_changes_seq db + 1 in
  {| commands := commands db;
     commands_seq := commands_seq db;
     commands_fts := commands_fts db;
     file_changes := file_changes db ++
       [{| fc_id := id; fc_command_id := command_id; fc_file_path := file_path;
           fc_change_type := change_type; fc_old_hash := old_hash;
           fc_new_hash := new_hash; fc_old_size := old_size;
           fc_new_size := new_size; fc_backup_path := backup_path;
           fc_created_at := env_sql_now env |}];
     file_changes_seq := id;
     sessions := sessions db |}.

(** [TerminalRewindDB.start_session]: INSERT OR REPLACE names seven columns;
    the replaced row is deleted first, so every other column takes its
    default ([ended_at] NULL, the three counters 0). *)
Definition start_session (env : Env) (db : DB) (session_id : string)
    (name description agent_name : option string)
    (metadata : option (list (string * string))) : string * DB :=
  let row :=
    {| s_id := session_id;
       s_name := name;
       s_description := description;
       s_started_at := env_now env;
       s_ended_at := None;
       s_command_count := 0;
       s_success_count := 0;
       s_error_count := 0;
       s_cwd_start := Some (env_cwd env);
       s_agent_name := agent_name;
       s_metadata := Py.nonempty metadata |} in
  (session_id,
   {| commands := commands db;
      commands_seq := commands_seq db;
      commands_fts := commands_fts db;
      file_changes := file_changes db;
      file_changes_seq := file_changes_seq db;
      sessions := <[session_id := row]> (sessions db) |}).

(** [TerminalRewindDB.end_session]. *)
Definition end_session (env : Env) (db : DB) (session_id : string) : DB :=
  let close s :=
    {| s_id := s_id s; s_name := s_name s; s_description := s_description s;
       s_started_at := s_started_at s; s_ended_at := Some (env_now env);
       s_command_count := s_command_count s;
       s_success_count := s_success_count s;
       s_error_count := s_error_count s;
       s_cwd_start := s_cwd_start s; s_agent_name := s_agent_name s;
       s_metadata := s_metadata s |} in
  {| commands := commands db;
     commands_seq := commands_seq db;
     commands_fts := commands_fts db;
     file_changes := file_changes db;
     file_changes_seq := file_changes_seq db;
     sessions := alter close session_id (sessions db) |}.

(** [TerminalRewindDB.get_session]. *)
Definition get_session (db : DB) (session_id : string) : option session :=
  sessions db !! session_id.

(** [TerminalRewindDB.get_file_changes]: the statement has no ORDER BY;
    rows come in rowid order. *)
Definition get_file_changes (db : DB) (command_id : Z) : list file_change :=
  filter (fun fc => fc_command_id fc = command_id) (file_changes db).

(** [TerminalRewindDB.get_command_by_id]. *)
Definition get_command_by_id (db : DB) (command_id : Z) : option command :=
  head (filter (fun c => cmd_id c = command_id) (commands db)).

(** The row with the greater id. *)
Definition max_by_id (best : option command) (c : command) : option command :=
  match best with
  | None => Some c
  | Some b => if Z.ltb (cmd_id b) (cmd_id c) then Some c else Some b
  end.

(** [TerminalRewindDB.get_last_command]: [ORDER BY id DESC LIMIT 1]. *)
Definition get_last_command (db : DB) : option command :=
  foldl max_by_id None (commands db).

(** ** Querying commands ([TerminalRewindDB.get_commands]) *)

(** The conditions that [get_commands] appends to its WHERE clause. *)
Inductive cond : Type :=
| SessionIdEq (s : string)       (* AND session_id = ? *)
| TimestampGe (t : string)       (* AND timestamp >= ? *)
| ExitCodeNonZero.               (* AND exit_code != 0 *)

(** The two statements that [get_commands] can end up with. *)
Inductive query : Type :=
| SelectCommands (conds : list cond)
    (* SELECT * FROM commands WHERE 1=1 ... *)
| SelectSearch (pattern : string) (conds : list cond).
    (* SELECT c.* FROM commands c JOIN commands_fts fts ON c.id = fts.rowid
       WHERE commands_fts MATCH ? ... *)

(** [query += " AND ..."]. *)
Definition and_cond (q : query) (c : cond) : query :=
  match q with
  | SelectCommands cs => SelectCommands (cs ++ [c])
  | SelectSearch pat cs => SelectSearch pat (cs ++ [c])
  end.

(** Text columns compare bytewise (BINARY collation). *)
Definition eval_cond (c : cond) (row : command) : bool :=
  match c with
  | SessionIdEq s => String.eqb (cmd_session_id row) s
  | TimestampGe t => String.leb t (cmd_timestamp row)
  | ExitCodeNonZero => sql_true (sql_ne (cmd_exit_code row) (Some 0))
  end.

Definition eval_conds (cs : list cond) (row : command) : bool :=
  forallb (fun c => eval_cond c row) cs.

(** [ORDER BY timestamp DESC]: an insertion sort that keeps rows with equal
    timestamps in table order.  SQL leaves the order of such rows open, and
    the engine's choice depends on the plan it takes for the statement. *)
Fixpoint insert_desc (c : command) (l : list command) : list command :=
  match l with
  | [] => [c]
  | x :: l' =>
      if String.leb (cmd_timestamp x) (cmd_timestamp c)
      then c :: x :: l'
      else x :: insert_desc c l'
  end.

Definition order_by_timestamp_desc (l : list command) : list command :=
  foldr insert_desc [] l.

(** [LIMIT ?]: a negative limit means no limit in SQLite. *)
Definition sql_limit {A : Type} (limit : Z) (l : list A) : list A :=
  if Z.ltb limit 0 then l else take (Z.to_nat limit) l.

(** [FROM commands c JOIN commands_fts fts ON c.id = fts.rowid WHERE
    commands_fts MATCH ?]: one copy of a command per index row with its id
    that matches. *)
Definition joined_rows (matches : string -> string -> bool) (db : DB)
    : list command :=
  flat_map (fun c =>
    List.map (fun _ => c)
      (List.filter
         (fun f => Z.eqb (cmd_id c) (fts_rowid f)
                   && matches (fts_command f) (fts_output f))
         (commands_fts db)))
    (commands db).

Section FullText.

(** SQLite's FTS5 engine: [fts5 pattern] is [None] when the engine rejects the
    pattern (a [sqlite3.OperationalError]), otherwise the test that a row
    indexed with the given [command] and [output] texts matches it. *)
Variable fts5 : string -> option (string -> string -> bool).

(** The rows that the FROM and WHERE clauses of a statement select. *)
Definition select_rows (db : DB) (q : query) : Py.result (list command) :=
  match q with
  | SelectCommands cs =>
      Py.Returns (List.filter (eval_conds cs) (commands db))
  | SelectSearch pat cs =>
      match fts5 pat with
      | None => Py.Raises "sqlite3.OperationalError"
      | Some matches =>
          Py.Returns (List.filter (eval_conds cs) (joined_rows matches db))
      end
  end.

(** [TerminalRewindDB.get_commands]. *)
Definition get_commands (db : DB) (session_id : option string) (limit : Z)
    (since : option string) (with_errors : bool) (search : option string)
    : Py.result (list command) :=
  let query := SelectCommands [] in
  let query :=
    match Py.if_str session_id with
    | Some s => and_cond query (SessionIdEq s)
    | None => query
    end in
  let query :=
    match Py.if_str since with
    | Some t => and_cond query (TimestampGe t)
    | None => query
    end in
  let query := if with_errors then and_cond query ExitCodeNonZero else query in
  let query :=
    match Py.if_str search with
    | Some pat =>
        let query := SelectSearch pat [] in
        match Py.if_str session_id with
        | Some s => and_cond query (SessionIdEq s)
        | None => query
        end
    | None => query
    end in
  Py.bind (select_rows db query) (fun rows =>
  Py.Returns (sql_limit limit (order_by_timestamp_desc rows))).

End FullText.

(** ** Python floats ([float] is IEEE 754 binary64) *)

Module PyFloat.

Definition prec : Z := 53.
Definition emax : Z := 1024.

(** [float(n)] for an [int]. *)
Definition of_int (n : Z) : spec_float := binary_normalize prec emax n 0 false.

(** [a / b] for two [int]s: the quotient rounded once to the nearest float. *)
Definition truediv_int (a b : Z) : Py.result spec_float :=
  match a, b with
  | _, Z0 => Py.Raises "ZeroDivisionError: division by zero"
  | Z0, Zpos _ => Py.Returns (S754_zero false)
  | Z0, Zneg _ => Py.Returns (S754_zero true)
  | Zpos p, Zpos q =>
      Py.Returns (SFdiv prec emax (S754_finite false p 0) (S754_finite false q 0))
  | Zpos p, Zneg q =>
      Py.Returns (SFdiv prec emax (S754_finite false p 0) (S754_finite true q 0))
  | Zneg p, Zpos q =>
      Py.Returns (SFdiv prec emax (S754_finite true p 0) (S754_finite false q 0))
  | Zneg p, Zneg q =>
      Py.Returns (SFdiv prec emax (S754_finite true p 0) (S754_finite true q 0))
  end.

(** [x * n] for a [float] and an [int]. *)
Definition mul_int (x : spec_float) (n : Z) : spec_float :=
  SFmul prec emax x (of_int n).

(** The integer nearest to [num / den] ([den > 0]), ties to the even one. *)
Definition round_half_even (num den : Z) : Z :=
  let q := num / den in
  let r := num mod den in
  match Z.compare (2 * r) den with
  | Lt => q
  | Gt => q + 1
  | Eq => if Z.even q then q else q + 1
  end.

(** The integer nearest to [m * 2^e], ties to even. *)
Definition nearest_integer (m e : Z) : Z :=
  if Z.leb 0 e then m * 2 ^ e else round_half_even m (2 ^ (- e)).

(** The float nearest to [n / 10^ndigits] for [n >= 0], with sign [s]. *)
Definition of_decimal (s : bool) (n : Z) (ndigits : nat) : spec_float :=
  match n with
  | Zpos p =>
      SFdiv prec emax (S754_finite s p 0)
        (S754_finite false (Z.to_pos (10 ^ Z.of_nat ndigits)) 0)
  | _ => S754_zero s
  end.

(** [round(x, ndigits)] for [0 <= ndigits]: the value of [x] is rounded
    exactly to [ndigits] decimals (ties to even), and the decimal is converted
    back to the nearest float.  Infinities and NaN round to themselves. *)
Definition round (x : spec_float) (ndigits : nat) : spec_float :=
  match x with
  | S754_finite s m e =>
      of_decimal s (nearest_integer (Zpos m * 10 ^ Z.of_nat ndigits) e) ndigits
  | _ => x
  end.

End PyFloat.

(** ** Statistics ([TerminalRewindDB.get_stats]) *)

(** A Python number: [get_stats] returns the [int] 0 or a [float]. *)
Inductive number : Type :=
| Int (n : Z)
| Float (x : spec_float).

Record stats := {
  total_commands : Z;
  successful_commands : Z;
  failed_commands : Z;
  success_rate : number;
  total_sessions : Z;
  total_file_changes : Z;
  database_path : string;
  database_size_kb : number
}.

(** The store file as [get_stats] sees it. *)
Record db_file := {
  db_path : string;            (* str(self.db_path) *)
  db_size : option Z           (* st_size, None when the file does not exist *)
}.

(** [SELECT COUNT( * ) FROM commands WHERE exit_code = 0]. *)
Definition count_exit_zero (db : DB) : Z :=
  Z.of_nat (length (List.filter
    (fun c => sql_true (sql_eq (cmd_exit_code c) (Some 0))) (commands db))).

(** [SELECT COUNT( * ) FROM commands WHERE exit_code != 0]. *)
Definition count_exit_nonzero (db : DB) : Z :=
  Z.of_nat (length (List.filter
    (fun c => sql_true (sql_ne (cmd_exit_code c) (Some 0))) (commands db))).

(** [TerminalRewindDB.get_stats]. *)
Definition get_stats (f : db_file) (db : DB) : Py.result stats :=
  let total_commands := Z.of_nat (length (commands db)) in
  let successful_commands := count_exit_zero db in
  let failed_commands := count_exit_nonzero db in
  let total_sessions := Z.of_nat (size (sessions db)) in
  let total_file_changes := Z.of_nat (length (file_changes db)) in
  Py.bind
    (if Z.ltb 0 total_commands
     then Py.bind (PyFloat.truediv_int successful_commands total_commands)
            (fun q => Py.Returns (Float (PyFloat.round (PyFloat.mul_int q 100) 1)))
     else Py.Returns (Int 0))
    (fun rate =>
  Py.bind
    (match db_size f with
     | Some sz =>
         Py.bind (PyFloat.truediv_int sz 1024)
           (fun q => Py.Returns (Float (PyFloat.round q 2)))
     | None => Py.Returns (Int 0)
     end)
    (fun size_kb =>
  Py.Returns
    {| total_commands := total_commands;
       successful_commands := successful_commands;
       failed_commands := failed_commands;
       success_rate := rate;
       total_sessions := total_sessions;
       total_file_changes := total_file_changes;
       database_path := db_path f;
       database_size_kb := size_kb |})).

(** ** The numbers that floats stand for *)

(** [2^e] as a rational, for any integer [e]. *)
Definition pow2 (e : Z) : Q := (2 ^ e)%Q.

(** The number that a finite float stands for; the zeros stand for 0 (and
    so do, for want of a number, the infinities and NaN). *)
Definition float_value (x : spec_float) : Q :=
  match x with
  | S754_finite s m e =>
      ((if s then -1 else 1) * inject_Z (Zpos m) * pow2 e)%Q
  | _ => 0%Q
  end.

(** [x] is a correct rounding of the number [r >= 0]: the zero [0.0] when
    [r] is 0, and otherwise a positive normal float (53 significant bits,
    an exponent in range) that is within half a unit in its last place of
    [r]. *)
Definition rounds (r : Q) (x : spec_float) : Prop :=
  match x with
  | S754_zero s => s = false /\ (r == 0)%Q
  | S754_finite s m e =>
      s = false /\ (0 < r)%Q /\ 2 ^ 52 <= Zpos m < 2 ^ 53 /\
      -1074 <= e <= 971 /\
      (Qabs (r - float_value x) <= pow2 (e - 1))%Q
  | _ => False
  end.

(** Where the number [x] lies from [m * 2^e] up to the next multiple of
    [2^e]: on [m * 2^e], below the middle, on it, or above it. *)
Definition inbetween (x : Q) (m e : Z) (l : location) : Prop :=
  match l with
  | loc_Exact => (x == inject_Z m * pow2 e)%Q
  | loc_Inexact Lt =>
      (inject_Z m * pow2 e < x < inject_Z m * pow2 e + (1 # 2) * pow2 e)%Q
  | loc_Inexact Eq => (x == inject_Z m * pow2 e + (1 # 2) * pow2 e)%Q
  | loc_Inexact Gt =>
      (inject_Z m * pow2 e + (1 # 2) * pow2 e < x < inject_Z (m + 1) * pow2 e)%Q
  end.

(** ** The filesystem as the program sees it *)

(** What a filesystem operation leaves behind: the new state, or the message
    of the [OSError] it raised together with the state at that point. *)
Inductive outcome (FS : Type) : Type :=
| Done (fs : FS)
| OSError (msg : string) (fs : FS).

Arguments Done {FS} fs.
Arguments OSError {FS} msg fs.

(** The [pathlib], [os] and [shutil] calls of the program, over an abstract
    filesystem state.  Paths are the strings that [str(Path(...))] gives.
    [has_entry] is no call of the program: it says whether anything is at
    the path, a symbolic link whose target is gone included, where
    [Path(p).exists()] follows links and says no. *)
Class FileSystem (FS : Type) := {
  path_exists : FS -> string -> bool;          (* Path(p).exists() *)
  has_entry : FS -> string -> bool;            (* os.path.lexists(p) *)
  path_is_file : FS -> string -> bool;         (* Path(p).is_file() *)
  path_str : string -> string;                 (* str(Path(p)) *)
  path_parent : string -> string;              (* str(Path(p).parent) *)
  path_join : string -> string -> string;      (* str(Path(d) / rel) *)
  path_relative_to : string -> string -> string;
                                               (* str(Path(p).relative_to(d)) *)
  rglob : FS -> string -> list string;
      (* the items that Path(d).rglob("*") yields, up to where it stops *)
  file_md5 : FS -> string -> option string;
      (* hexdigest of the bytes of the file; None when open or read raises *)
  stat_size : FS -> string -> option Z;
      (* Path(p).stat().st_size; None when stat raises *)
  unlink : FS -> string -> outcome FS;         (* Path(p).unlink() *)
  mkdir_parents : FS -> string -> outcome FS;
      (* Path(p).mkdir(parents=True, exist_ok=True) *)
  copy2 : FS -> string -> string -> outcome FS;  (* shutil.copy2(src, dst) *)
  (* unlink of a path with nothing at it raises FileNotFoundError and
     changes nothing *)
  unlink_missing : forall fs p,
    has_entry fs p = false -> exists msg, unlink fs p = OSError msg fs
}.

(** ** Python dictionaries: insertion-ordered, one entry per key *)

Definition dict (V : Type) : Type := list (string * V).

Fixpoint dict_get {V : Type} (k : string) (d : dict V) : option V :=
  match d with
  | [] => None
  | (k', v) :: d' => if String.eqb k' k then Some v else dict_get k d'
  end.

(** [k in d]. *)
Definition dict_mem {V : Type} (k : string) (d : dict V) : bool :=
  match dict_get k d with
  | Some _ => true
  | None => false
  end.

(** [d[k] = v]: an existing key keeps its position. *)
Fixpoint dict_set {V : Type} (k : string) (v : V) (d : dict V) : dict V :=
  match d with
  | [] => [(k, v)]
  | (k', v') :: d' =>
      if String.eqb k' k then (k, v) :: d' else (k', v') :: dict_set k v d'
  end.

Definition dict_keys {V : Type} (d : dict V) : list string := List.map fst d.

(** ** The file change tracker ([class FileTracker]) *)

(** A snapshot maps a path to its digest and size. *)
Definition snapshot : Type := dict (option string * option Z).

(** A change descriptor; each constructor carries the keys that
    [detect_changes] puts in the dictionary of that type. *)
Inductive change : Type :=
| Modified (path : string) (old_hash new_hash : option string)
           (old_size new_size : option Z)
| Deleted (path : string) (old_hash : option string) (old_size : option Z)
| Created (path : string) (new_hash : option string) (new_size : option Z).

(** [change["type"]]. *)
Definition change_type (c : change) : string :=
  match c with
  | Modified _ _ _ _ _ => "modified"
  | Deleted _ _ _ => "deleted"
  | Created _ _ _ => "created"
  end.

(** [change["path"]]. *)
Definition change_path (c : change) : string :=
  match c with
  | Modified p _ _ _ _ => p
  | Deleted p _ _ => p
  | Created p _ _ => p
  end.

Section Tracker.

Context {FS : Type} `{FileSystem FS}.

(** [FileTracker.get_file_hash]. *)
Definition get_file_hash (fs : FS) (file_path : string) : option string :=
  if negb (path_exists fs file_path) || negb (path_is_file fs file_path)
  then None
  else file_md5 fs file_path.

(** [FileTracker.get_file_size]. *)
Definition get_file_size (fs : FS) (file_path : string) : option Z :=
  if path_exists fs file_path then stat_size fs file_path else None.

(** [FileTracker.snapshot_directory]. *)
Definition snapshot_directory (fs : FS) (directory : string) : snapshot :=
  if negb (path_exists fs directory) then []
  else
    foldl (fun snap item =>
             if path_is_file fs item
             then dict_set (path_relative_to item directory)
                    (get_file_hash fs item, get_file_size fs item) snap
             else snap)
      [] (rglob fs directory).

(** [FileTracker.watch_files]: the new value of [_watched_files]. *)
Definition watch_files (fs : FS) (file_paths : list string) : snapshot :=
  foldl (fun watched file_path =>
           dict_set (path_str file_path)
             (get_file_hash fs file_path, get_file_size fs file_path) watched)
    [] file_paths.

(** [FileTracker.watch_directory]. *)
Definition watch_directory (fs : FS) (directory : string) : snapshot :=
  snapshot_directory fs directory.

(** The first loop of directory mode, on one baseline entry. *)
Definition check_watched (directory : string) (current_snapshot : snapshot)
    (entry : string * (option string * option Z)) : list change :=
  let '(rel_path, (old_hash, old_size)) := entry in
  let full_path := path_join directory rel_path in
  match dict_get rel_path current_snapshot with
  | Some (new_hash, new_size) =>
      if decide (old_hash = new_hash) then []
      else [Modified full_path old_hash new_hash old_size new_size]
  | None => [Deleted full_path old_hash old_size]
  end.

(** The second loop of directory mode, on one live entry. *)
Definition check_created (directory : string) (watched : snapshot)
    (entry : string * (option string * option Z)) : list change :=
  let '(rel_path, (new_hash, new_size)) := entry in
  if dict_mem rel_path watched then []
  else [Created (path_join directory rel_path) new_hash new_size].

(** The loop of individual-file mode, on one watched entry. *)
Definition check_individual (fs : FS)
    (entry : string * (option string * option Z)) : list change :=
  let '(path_s, (old_hash, old_size)) := entry in
  let new_hash := get_file_hash fs path_s in
  let new_size := get_file_size fs path_s in
  match old_hash, new_hash with
  | None, Some _ => [Created path_s new_hash new_size]
  | Some _, None => [Deleted path_s old_hash old_size]
  | _, _ =>
      if decide (old_hash = new_hash) then []
      else [Modified path_s old_hash new_hash old_size new_size]
  end.

(** [FileTracker.detect_changes], with [_watched_files] as an argument. *)
Definition detect_changes (fs : FS) (watched : snapshot)
    (directory : option string) : list change :=
  let current_snapshot :=
    match directory with
    | Some d => snapshot_directory fs d
    | None => []
    end in
  match directory with
  | Some d =>
      flat_map (check_watched d current_snapshot) watched
      ++ flat_map (check_created d watched) current_snapshot
  | None => flat_map (check_individual fs) watched
  end.

(** [FileTracker.restore_file]: the boolean it returns and the filesystem
    it leaves. *)
Definition restore_file (fs : FS) (backup_path original_path : string)
    : bool * FS :=
  if negb (path_exists fs backup_path) then (false, fs)
  else
    match mkdir_parents fs (path_parent original_path) with
    | OSError _ fs1 => (false, fs1)
    | Done fs1 =>
        match copy2 fs1 backup_path original_path with
        | OSError _ fs2 => (false, fs2)
        | Done fs2 => (true, fs2)
        end
    end.

End Tracker.

(** ** The rollback engine ([class RollbackManager]) *)

(** One entry of the [actions] list; the optional fields are the keys that
    are only set on some paths. *)
Record action := {
  act_file : string;
  act_type : string;
  act_status : string;
  act_action : option string;
  act_backup : option (option string);
  act_error : option string
}.

Definition set_status (v : string) (a : action) : action :=
  {| act_file := act_file a; act_type := act_type a; act_status := v;
     act_action := act_action a; act_backup := act_backup a;
     act_error := act_error a |}.

Definition set_action (v : string) (a : action) : action :=
  {| act_file := act_file a; act_type := act_type a;
     act_status := act_status a; act_action := Some v;
     act_backup := act_backup a; act_error := act_error a |}.

Definition set_backup (v : option string) (a : action) : action :=
  {| act_file := act_file a; act_type := act_type a;
     act_status := act_status a; act_action := act_action a;
     act_backup := Some v; act_error := act_error a |}.

Definition set_error (v : string) (a : action) : action :=
  {| act_file := act_file a; act_type := act_type a;
     act_status := act_status a; act_action := act_action a;
     act_backup := act_backup a; act_error := Some v |}.

(** The dictionary that [rollback_command] returns; [error] is set on the
    refusal path, [dry_run] and [command_id] on the other. *)
Record rollback_result := {
  r_success : bool;
  r_error : option string;
  r_dry_run : option bool;
  r_command_id : option Z;
  r_actions : list action
}.

(** [fc['change_type'] in ('modified', 'deleted')]. *)
Definition modified_or_deleted (fc : file_change) : bool :=
  String.eqb (fc_change_type fc) "modified"
  || String.eqb (fc_change_type fc) "deleted".

Section Rollback.

Context {FS : Type} `{FileSystem FS}.

(** The body of the loop of [can_rollback] on one record: the reason it
    returns with, or [None] when it goes on to the next record. *)
Definition check_backup (fs : FS) (fc : file_change) : option string :=
  if modified_or_deleted fc then
    match Py.if_str (fc_backup_path fc) with
    | None => Some ("No backup available for " +:+ fc_file_path fc)
    | Some b =>
        if negb (path_exists fs b)
        then Some ("Backup file missing for " +:+ fc_file_path fc)
        else None
    end
  else None.

(** The loop of [can_rollback]. *)
Fixpoint check_backups (fs : FS) (fcs : list file_change) : bool * string :=
  match fcs with
  | [] => (true, "Rollback is possible")
  | fc :: rest =>
      match check_backup fs fc with
      | Some reason => (false, reason)
      | None => check_backups fs rest
      end
  end.

(** [RollbackManager.can_rollback]. *)
Definition can_rollback (fs : FS) (db : DB) (command_id : Z) : bool * string :=
  let file_changes := get_file_changes db command_id in
  match file_changes with
  | [] => (false, "No file changes recorded for this command")
  | _ => check_backups fs file_changes
  end.

(** The body of the loop of [rollback_command] on one record: the action it
    appends and the filesystem it leaves.  [Path(None)] raises. *)
Definition rollback_one (fs : FS) (dry_run : bool) (fc : file_change)
    : Py.result (action * FS) :=
  let action :=
    {| act_file := fc_file_path fc; act_type := fc_change_type fc;
       act_status := "pending"; act_action := None; act_backup := None;
       act_error := None |} in
  if String.eqb (fc_change_type fc) "created" then
    let action := set_action "delete" action in
    if negb dry_run then
      match unlink fs (fc_file_path fc) with
      | Done fs' => Py.Returns (set_status "success" action, fs')
      | OSError msg fs' =>
          Py.Returns (set_error msg (set_status "failed" action), fs')
      end
    else Py.Returns (action, fs)
  else if modified_or_deleted fc then
    let action := set_action "restore" action in
    let action := set_backup (fc_backup_path fc) action in
    if negb dry_run then
      match fc_backup_path fc with
      | None => Py.Raises "TypeError"
      | Some b =>
          let '(success, fs') := restore_file fs b (fc_file_path fc) in
          Py.Returns
            (set_status (if success then "success" else "failed") action, fs')
      end
    else Py.Returns (action, fs)
  else Py.Returns (action, fs).

(** The loop of [rollback_command]. *)
Fixpoint rollback_loop (fs : FS) (dry_run : bool) (fcs : list file_change)
    : Py.result (list action * FS) :=
  match fcs with
  | [] => Py.Returns ([], fs)
  | fc :: rest =>
      Py.bind (rollback_one fs dry_run fc) (fun '(a, fs1) =>
      Py.bind (rollback_loop fs1 dry_run rest) (fun '(actions, fs2) =>
      Py.Returns (a :: actions, fs2)))
  end.

(** [all(a["status"] != "failed" for a in actions)]. *)
Definition none_failed (actions : list action) : bool :=
  forallb (fun a => negb (String.eqb (act_status a) "failed")) actions.

(** [RollbackManager.rollback_command]: the result dictionary and the
    filesystem after the call. *)
Definition rollback_command (fs : FS) (db : DB) (command_id : Z)
    (dry_run : bool) : Py.result (rollback_result * FS) :=
  let '(can_rb, reason) := can_rollback fs db command_id in
  if negb can_rb then
    Py.Returns
      ({| r_success := false; r_error := Some reason; r_dry_run := None;
          r_command_id := None; r_actions := [] |}, fs)
  else
    let file_changes := get_file_changes db command_id in
    Py.bind (rollback_loop fs dry_run file_changes) (fun '(actions, fs') =>
    Py.Returns
      ({| r_success := none_failed actions; r_error := None;
          r_dry_run := Some dry_run; r_command_id := Some command_id;
          r_actions := actions |}, fs')).

End Rollback.

(** ** An in-memory filesystem

    A small POSIX-like instance of [FileSystem] on which the functions above
    can be run: a finite map from absolute paths to files and directories.
    A file that is not [writable] refuses to be removed or overwritten.  The
    digest of a file stands for its MD5: equal contents, equal digests.
    There are no symbolic links, so something is at a path exactly when the
    path exists. *)

Module MemFS.

Inductive node : Type :=
| File (content : string) (writable : bool)
| Dir.

Definition t : Type := gmap string node.

(** [s] cut at its last slash. *)
Fixpoint rsplit (s : string) : option (string * string) :=
  match s with
  | EmptyString => None
  | String c r =>
      match rsplit r with
      | Some (d, b) => Some (String c d, b)
      | None => if Ascii.eqb c "/"%char then Some (EmptyString, r) else None
      end
  end.

Definition parent (p : string) : string :=
  match rsplit p with
  | Some (EmptyString, _) => "/"
  | Some (d, _) => d
  | None => "."
  end.

Definition basename (p : string) : string :=
  match rsplit p with
  | Some (_, b) => b
  | None => p
  end.

Definition is_root (p : string) : bool :=
  String.eqb p "/" || String.eqb p ".".

Definition exists_ (fs : t) (p : string) : bool :=
  is_root p || bool_decide (is_Some (fs !! p)).

Definition is_file (fs : t) (p : string) : bool :=
  match fs !! p with
  | Some (File _ _) => true
  | _ => false
  end.

Definition is_dir (fs : t) (p : string) : bool :=
  is_root p ||
  match fs !! p with
  | Some Dir => true
  | _ => false
  end.

Definition join (d rel : string) : string :=
  if String.prefix "/" rel then rel
  else if String.eqb d "/" then "/" +:+ rel
  else d +:+ "/" +:+ rel.

Definition relative_to (p d : string) : string :=
  String.substring (S (String.length d)) (String.length p) p.

Definition rglob_ (fs : t) (d : string) : list string :=
  List.filter (String.prefix (d +:+ "/")) (List.map fst (map_to_list fs)).

Definition md5 (fs : t) (p : string) : option string :=
  match fs !! p with
  | Some (File c _) => Some ("md5:" +:+ c)
  | _ => None
  end.

Definition size_of (fs : t) (p : string) : option Z :=
  match fs !! p with
  | Some (File c _) => Some (Z.of_nat (String.length c))
  | Some Dir => Some 4096
  | None => None
  end.

Definition unlink_ (fs : t) (p : string) : outcome t :=
  match fs !! p with
  | None => OSError ("[Errno 2] No such file or directory: '" +:+ p +:+ "'") fs
  | Some Dir => OSError ("[Errno 21] Is a directory: '" +:+ p +:+ "'") fs
  | Some (File _ false) =>
      OSError ("[Errno 13] Permission denied: '" +:+ p +:+ "'") fs
  | Some (File _ true) => Done (delete p fs)
  end.

(** The path and its ancestors below the root, outermost first. *)
Fixpoint ancestors (fuel : nat) (p : string) : list string :=
  match fuel with
  | O => []
  | S n => if is_root p then [] else ancestors n (parent p) ++ [p]
  end.

Fixpoint mkdirs (fs : t) (dirs : list string) : outcome t :=
  match dirs with
  | [] => Done fs
  | d :: rest =>
      match fs !! d with
      | Some Dir => mkdirs fs rest
      | Some (File _ _) =>
          OSError ("[Errno 17] File exists: '" +:+ d +:+ "'") fs
      | None => mkdirs (<[d := Dir]> fs) rest
      end
  end.

Definition mkdir_p (fs : t) (p : string) : outcome t :=
  mkdirs fs (ancestors (S (String.length p)) p).

Definition copy2_ (fs : t) (src dst : string) : outcome t :=
  match fs !! src with
  | None =>
      OSError ("[Errno 2] No such file or directory: '" +:+ src +:+ "'") fs
  | Some Dir => OSError ("[Errno 21] Is a directory: '" +:+ src +:+ "'") fs
  | Some (File c _) =>
      let target := if is_dir fs dst then join dst (basename src) else dst in
      if String.eqb src target
      then OSError ("'" +:+ src +:+ "' and '" +:+ target
                    +:+ "' are the same file") fs
      else
        match fs !! target with
        | Some Dir =>
            OSError ("[Errno 21] Is a directory: '" +:+ target +:+ "'") fs
        | Some (File _ false) =>
            OSError ("[Errno 13] Permission denied: '" +:+ target +:+ "'") fs
        | _ =>
            if is_dir fs (parent target)
            then Done (<[target := File c true]> fs)
            else OSError ("[Errno 2] No such file or directory: '"
                          +:+ target +:+ "'") fs
        end
  end.

End MemFS.

#[export] Instance memfs : FileSystem MemFS.t.
Proof.
  refine {|
    path_exists := MemFS.exists_;
    has_entry := MemFS.exists_;
    path_is_file := MemFS.is_file;
    path_str := fun p => p;
    path_parent := MemFS.parent;
    path_join := MemFS.join;
    path_relative_to := MemFS.relative_to;
    rglob := MemFS.rglob_;
    file_md5 := MemFS.md5;
    stat_size := MemFS.size_of;
    unlink := MemFS.unlink_;
    mkdir_parents := MemFS.mkdir_p;
    copy2 := MemFS.copy2_ |}.
  intros fs p Hp. unfold MemFS.exists_ in Hp.
  apply orb_false_iff in Hp as [_ Hp].
  apply bool_decide_eq_false in Hp.
  unfold MemFS.unlink_.
  destruct (fs !! p) as [n|] eqn:E.
  - exfalso. apply Hp. eauto.
  - eauto.
Defined.

(** ** A full-text matcher for plain queries

    An instance of the [fts5] parameter for ASCII text and queries made of
    bare words separated by blanks: a text is cut into tokens at every
    character that is not a letter or a digit, tokens compare without case,
    and a row matches when every word of the query is a token of its command
    or of its output.  Any other query is rejected. *)

Module SimpleFTS.

Definition is_alnum (c : ascii) : bool :=
  let n := nat_of_ascii c in
  ((48 <=? n) && (n <=? 57) || (65 <=? n) && (n <=? 90)
   || (97 <=? n) && (n <=? 122))%nat.

Definition lower (c : ascii) : ascii :=
  let n := nat_of_ascii c in
  if ((65 <=? n) && (n <=? 90))%nat then ascii_of_nat (n + 32) else c.

Definition flush (acc : string) : list string :=
  if String.eqb acc "" then [] else [acc].

(** The maximal runs of letters and digits of [s], each character mapped by
    [f]; [acc] is the run being read. *)
Fixpoint runs (f : ascii -> ascii) (acc : string) (s : string) : list string :=
  match s with
  | EmptyString => flush acc
  | String c r =>
      if is_alnum c then runs f (acc +:+ String (f c) EmptyString) r
      else flush acc ++ runs f "" r
  end.

Definition tokens (s : string) : list string := runs lower "" s.

Definition words (s : string) : list string := runs (fun c => c) "" s.

Fixpoint all_chars (p : ascii -> bool) (s : string) : bool :=
  match s with
  | EmptyString => true
  | String c r => p c && all_chars p r
  end.

Definition is_keyword (w : string) : bool :=
  String.eqb w "AND" || String.eqb w "OR" || String.eqb w "NOT"
  || String.eqb w "NEAR".

Definition fts5 (pattern : string) : option (string -> string -> bool) :=
  if all_chars (fun c => is_alnum c || Ascii.eqb c " "%char) pattern
     && negb (existsb is_keyword (words pattern))
     && negb (bool_decide (words pattern = []))
  then Some (fun command output =>
               forallb (fun w => existsb (String.eqb w)
                                   (tokens command ++ tokens output))
                 (tokens pattern))
  else None.

End SimpleFTS.

(** ** Runs of calls *)

(** Recording a list of commands into one session, each call with the
    environment it runs in. *)
Definition record_all (db : DB) (session_id : string)
    (calls : list (Env * command_args)) : DB :=
  foldl (fun db call => (record_command (fst call) db session_id (snd call)).2)
    db calls.

(** ** Consistency of the ledger *)

(** The index row that [record_command] writes for a command row. *)
Definition index_of (c : command) : fts_row :=
  {| fts_rowid := cmd_id c;
     fts_command := cmd_command c;
     fts_output := Py.or_else (cmd_output c) "" |}.

(** A matcher applied to the texts of a command that are indexed. *)
Definition text_matches (matches : string -> string -> bool) (c : command)
    : bool :=
  matches (cmd_command c) (Py.or_else (cmd_output c) "").

(** What every store built by the methods above satisfies: the full-text
    index holds exactly the index rows of the commands, and command ids are
    distinct and bounded by the AUTOINCREMENT counter. *)
Record ledger_wf (db : DB) : Prop := {
  wf_fts : commands_fts db = List.map index_of (commands db);
  wf_ids : NoDup (List.map cmd_id (commands db));
  wf_seq : Forall (fun c => cmd_id c <= commands_seq db) (commands db)
}.

(** ** Counting change descriptors *)

(** The number of change descriptors, of any type, for a path. *)
Definition count_changes (path : string) (changes : list change) : nat :=
  length (List.filter (fun c => String.eqb (change_path c) path) changes).

(** The number of change descriptors of a type. *)
Definition count_type (ty : string) (changes : list change) : nat :=
  length (List.filter (fun c => String.eqb (change_type c) ty) changes).

(** ** Sample data *)

(** An environment whose clock reads [now]. *)
Definition env_at (now : string) : Env :=
  {| env_now := now; env_sql_now := now; env_platform := "Linux";
     env_shell := "/bin/sh"; env_user := "user"; env_hostname := "host";
     env_cwd := "/work" |}.

(** [record_command(session_id, command, cwd, exit_code=...)]. *)
Definition plain_command (text : string) (exit_code : option Z) : command_args :=
  {| arg_command := text; arg_cwd := "/work"; arg_exit_code := exit_code;
     arg_output := None; arg_error_output := None; arg_duration_ms := None;
     arg_tags := None; arg_notes := None |}.

(** A store with session "s" started and nothing recorded. *)
Definition db_started : DB :=
  (start_session (env_at "2026-01-31T10:00:00") empty_db "s" None None None None).2.

(** "build project" (exit code 0) and "test project" (no exit code) recorded
    in session "s". *)
Definition db_build_test : DB :=
  record_all db_started "s"
    [(env_at "2026-01-31T10:00:01", plain_command "build project" (Some 0));
     (env_at "2026-01-31T10:00:02", plain_command "test project" None)].

(** A command recorded in another session "t". *)
Definition db_two_sessions : DB :=
  (record_command (env_at "2026-01-31T10:00:03") db_build_test "t"
     (plain_command "build docs" (Some 1))).2.

(** Five commands, four of them successful (as in [test_get_stats]). *)
Definition db_five : DB :=
  record_all db_started "s"
    [(env_at "t0", plain_command "command_0" (Some 0));
     (env_at "t1", plain_command "command_1" (Some 0));
     (env_at "t2", plain_command "command_2" (Some 0));
     (env_at "t3", plain_command "command_3" (Some 0));
     (env_at "t4", plain_command "command_4" (Some 1))].

(** A directory "/w" that holds the file "b" only, and the baseline taken
    when it held the file "a" only. *)
Definition fs_only_b : MemFS.t :=
  <["/w/b" := MemFS.File "new" true]> (<["/w" := MemFS.Dir]> ∅).

Definition baseline_only_a : snapshot :=
  [("a", (Some "md5:created-by-test", Some 15))].

(** Command 1 of [db_build_test] modified "/w/a.txt" (backup "/b/1") and
    created "/w/new.txt"; command 2 changed no file. *)
Definition db_rollback : DB :=
  record_file_change (env_at "2026-01-31T10:00:05")
    (record_file_change (env_at "2026-01-31T10:00:04") db_build_test 1
       "/w/a.txt" "modified" (Some "md5:v1") (Some "md5:v2") (Some 2) (Some 2)
       (Some "/b/1"))
    1 "/w/new.txt" "created" None (Some "md5:x") None (Some 1) None.

(** The two records of command 1 in [db_rollback]. *)
Definition fc_modified_a : file_change :=
  {| fc_id := 1; fc_command_id := 1; fc_file_path := "/w/a.txt";
     fc_change_type := "modified"; fc_old_hash := Some "md5:v1";
     fc_new_hash := Some "md5:v2"; fc_old_size := Some 2;
     fc_new_size := Some 2; fc_backup_path := Some "/b/1";
     fc_created_at := "2026-01-31T10:00:04" |}.

Definition fc_created_new : file_change :=
  {| fc_id := 2; fc_command_id := 1; fc_file_path := "/w/new.txt";
     fc_change_type := "created"; fc_old_hash := None;
     fc_new_hash := Some "md5:x"; fc_old_size := None;
     fc_new_size := Some 1; fc_backup_path := None;
     fc_created_at := "2026-01-31T10:00:05" |}.

(** Both files and the backup are there; [a_writable] says whether
    "/w/a.txt" can be overwritten. *)
Definition fs_backed (a_writable : bool) : MemFS.t :=
  <["/w/new.txt" := MemFS.File "x" true]>
    (<["/w/a.txt" := MemFS.File "v2" a_writable]>
       (<["/w" := MemFS.Dir]>
          (<["/b/1" := MemFS.File "v1" true]> (<["/b" := MemFS.Dir]> ∅)))).

(** The created file is already gone. *)
Definition fs_new_gone : MemFS.t :=
  <["/w/a.txt" := MemFS.File "v2" true]>
    (<["/w" := MemFS.Dir]>
       (<["/b/1" := MemFS.File "v1" true]> (<["/b" := MemFS.Dir]> ∅))).

(** [fs_new_gone] after "/w/a.txt" has been restored from its backup. *)
Definition fs_a_restored : MemFS.t :=
  <["/w/a.txt" := MemFS.File "v1" true]> fs_new_gone.

(** ** The rest of the ledger store *)

(** The stores that the methods of [TerminalRewindDB] build from the empty
    one. *)
Inductive reachable : DB -> Prop :=
| reach_empty : reachable empty_db
| reach_start_session env db sid name description agent_name metadata :
    reachable db ->
    reachable (start_session env db sid name description agent_name metadata).2
| reach_end_session env db sid :
    reachable db -> reachable (end_session env db sid)
| reach_record_command env db sid a :
    reachable db -> reachable (record_command env db sid a).2
| reach_record_file_change env db command_id file_path change_type
    old_hash new_hash old_size new_size backup_path :
    reachable db ->
    reachable (record_file_change env db command_id file_path change_type
                 old_hash new_hash old_size new_size backup_path).

(** The commands of the table that name a session. *)
Definition commands_of (db : DB) (sid : string) : list command :=
  List.filter (fun c => String.eqb (cmd_session_id c) sid) (commands db).

(** The number of commands of a list whose exit code is 0, and whose exit
    code is present and not 0, as SQL counts them. *)
Definition exit_zero_count (l : list command) : Z :=
  Z.of_nat (length (List.filter
    (fun c => sql_true (sql_eq (cmd_exit_code c) (Some 0))) l)).

Definition exit_nonzero_count (l : list command) : Z :=
  Z.of_nat (length (List.filter
    (fun c => sql_true (sql_ne (cmd_exit_code c) (Some 0))) l)).

(** Newest first: no row is older than a row after it. *)
Definition newer_or_same (a b : command) : Prop :=
  String.leb (cmd_timestamp b) (cmd_timestamp a) = true.

(** Strictly newer: newer, and not of the same timestamp. *)
Definition newer (a b : command) : Prop :=
  newer_or_same a b /\ cmd_timestamp a <> cmd_timestamp b.

(** The WHERE clause of [get_commands] without search text, on one row. *)
Definition in_range (session_id since : option string) (with_errors : bool)
    (c : command) : Prop :=
  (forall s, session_id = Some s -> s <> "" -> cmd_session_id c = s) /\
  (forall t, since = Some t -> t <> "" ->
             String.leb t (cmd_timestamp c) = true) /\
  (with_errors = true ->
   exists code, cmd_exit_code c = Some code /\ code <> 0).

(** The directory "/gone" does not exist in [fs_only_b]; two files were
    watched in it. *)
Definition baseline_two : snapshot :=
  [("a", (Some "md5:1", Some 1)); ("sub/b", (None, None))].

(** ** Python strings

    A [string] is the sequence of the characters of a Python [str], one
    8-bit character each. *)

Module PyStr.

(** [str(n)] for an [int]. *)
Definition of_int (n : Z) : string := NilZero.string_of_int (Z.to_int n).

(** [s.replace(a, b)] for two single characters. *)
Fixpoint replace_char (a b : ascii) (s : string) : string :=
  match s with
  | EmptyString => EmptyString
  | String c r =>
      String (if Ascii.eqb c a then b else c) (replace_char a b r)
  end.

(** [s[:n]] for a bound [n] that is not negative. *)
Definition slice_to (n : Z) (s : string) : string :=
  String.substring 0 (Z.to_nat n) s.

End PyStr.

(** ** The command recorder ([class CommandRecorder]) *)

(** The fields of a recorder that change: the current session and the
    baseline of its file tracker. *)
Record recorder := {
  current_session_id : option string;
  watched_files : snapshot
}.

(** What [subprocess.run] did: it completed, it timed out, or it raised
    another exception (with its message). *)
Inductive run_outcome : Type :=
| Completed (returncode : Z) (stdout stderr : string)
| TimeoutExpired
| RunError (msg : string).

(** What one call of the recorder reads from its environment, in the order
    of the reads. *)
Record call_env := {
  ce_stamp : string;
      (* strftime("%Y%m%d_%H%M%S") in CommandRecorder.start_session *)
  ce_session : Env;             (* as seen by db.start_session *)
  ce_command : Env;             (* as seen by db.record_command *)
  ce_duration_ms : Z;           (* int((time.time() - start_time) * 1000) *)
  ce_backup_stamp : nat -> string;
      (* strftime("%Y%m%d_%H%M%S_%f") in the backup of the n-th change *)
  ce_change : nat -> Env        (* as seen by the n-th record_file_change *)
}.

(** [change.get("old_hash")] and the like: [None] for a missing key. *)
Definition change_old_hash (c : change) : option string :=
  match c with
  | Modified _ h _ _ _ => h
  | Deleted _ h _ => h
  | Created _ _ _ => None
  end.

Definition change_new_hash (c : change) : option string :=
  match c with
  | Modified _ _ h _ _ => h
  | Deleted _ _ _ => None
  | Created _ h _ => h
  end.

Definition change_old_size (c : change) : option Z :=
  match c with
  | Modified _ _ _ s _ => s
  | Deleted _ _ s => s
  | Created _ _ _ => None
  end.

Definition change_new_size (c : change) : option Z :=
  match c with
  | Modified _ _ _ _ s => s
  | Deleted _ _ _ => None
  | Created _ _ s => s
  end.

(** [change["type"] in ("modified", "deleted")]. *)
Definition needs_backup (c : change) : bool :=
  String.eqb (change_type c) "modified" || String.eqb (change_type c) "deleted".

(** [CommandRecorder.start_session]: the session id is the time stamp,
    followed for a non-empty name by an underscore and the first 20
    characters of the name with blanks replaced. *)
Definition recorder_session_id (stamp : string) (name : option string)
    : string :=
  match Py.if_str name with
  | Some n =>
      stamp +:+ "_" +:+ PyStr.slice_to 20 (PyStr.replace_char " " "_" n)
  | None => stamp
  end.

Definition recorder_start_session (ce : call_env) (db : DB) (r : recorder)
    (name agent_name : option string) : string * DB * recorder :=
  let session_id := recorder_session_id (ce_stamp ce) name in
  let '(sid, db') :=
    start_session (ce_session ce) db session_id name None agent_name None in
  (sid, db',
   {| current_session_id := Some sid; watched_files := watched_files r |}).

(** [CommandRecorder.end_session]. *)
Definition recorder_end_session (env : Env) (db : DB) (r : recorder)
    : DB * recorder :=
  match Py.if_str (current_session_id r) with
  | Some sid =>
      (end_session env db sid,
       {| current_session_id := None; watched_files := watched_files r |})
  | None => (db, r)
  end.

(** [if not self.current_session_id: self.start_session()], and the
    session id to record under. *)
Definition ensure_session (ce : call_env) (db : DB) (r : recorder)
    : string * DB * recorder :=
  match Py.if_str (current_session_id r) with
  | Some sid => (sid, db, r)
  | None => recorder_start_session ce db r None None
  end.

(** [CommandRecorder.log]; a caller that leaves [exit_code] out passes 0. *)
Definition recorder_log (ce : call_env) (db : DB) (r : recorder)
    (command : string) (exit_code : option Z)
    (output error_output cwd : option string) (duration_ms : option Z)
    : Z * DB * recorder :=
  let '(sid, db1, r1) := ensure_session ce db r in
  let '(command_id, db2) :=
    record_command (ce_command ce) db1 sid
      {| arg_command := command;
         arg_cwd := Py.or_else cwd (env_cwd (ce_command ce));
         arg_exit_code := exit_code; arg_output := output;
         arg_error_output := error_output; arg_duration_ms := duration_ms;
         arg_tags := None; arg_notes := None |} in
  (command_id, db2, r1).

(** The outcome of the command as [record] stores it: exit code, output
    and error output. *)
Definition stored_outcome (o : run_outcome)
    : option Z * option string * option string :=
  match o with
  | Completed returncode stdout stderr =>
      (Some returncode,
       if String.eqb stdout "" then None
       else Some (PyStr.slice_to 100000 stdout),
       if String.eqb stderr "" then None
       else Some (PyStr.slice_to 10000 stderr))
  | TimeoutExpired =>
      (Some (-1), None, Some "Command timed out after 5 minutes")
  | RunError msg => (Some (-1), None, Some msg)
  end.

Section Recorder.

Context {FS : Type} `{FileSystem FS}.

(** The directory of the backups, [Path(p).name], and what running a
    command in a shell does to the filesystem and returns. *)
Variable backup_dir : string.
Variable path_name : string -> string.
Variable subprocess_run : FS -> string -> string -> run_outcome * FS.

(** [FileTracker.backup_file]: the backup location, if any, and the
    filesystem after the call. *)
Definition backup_file (fs : FS) (file_path : string) (command_id : Z)
    (stamp : string) : option string * FS :=
  if negb (path_exists fs file_path) then (None, fs)
  else
    let backup_name :=
      "cmd_" +:+ PyStr.of_int command_id +:+ "_" +:+ stamp +:+ "_"
      +:+ path_name file_path in
    let backup_path := path_join backup_dir backup_name in
    match copy2 fs file_path backup_path with
    | Done fs' => (Some backup_path, fs')
    | OSError _ fs' => (None, fs')
    end.

(** The location that [backup_file] copies to. *)
Definition backup_location (file_path : string) (command_id : Z)
    (stamp : string) : string :=
  path_join backup_dir
    ("cmd_" +:+ PyStr.of_int command_id +:+ "_" +:+ stamp +:+ "_"
     +:+ path_name file_path).

(** The loop of [record] over the detected changes; [n] counts them. *)
Fixpoint record_changes (ce : call_env) (n : nat) (db : DB) (fs : FS)
    (command_id : Z) (changes : list change) : DB * FS :=
  match changes with
  | [] => (db, fs)
  | c :: rest =>
      let '(backup_path, fs1) :=
        if needs_backup c
        then backup_file fs (path_str (change_path c)) command_id
               (ce_backup_stamp ce n)
        else (None, fs) in
      let db1 :=
        record_file_change (ce_change ce n) db command_id (change_path c)
          (change_type c) (change_old_hash c) (change_new_hash c)
          (change_old_size c) (change_new_size c) backup_path in
      record_changes ce (S n) db1 fs1 command_id rest
  end.

(** [CommandRecorder.record]: the command id, and the store, the
    filesystem and the recorder after the call. *)
Definition recorder_record (ce : call_env) (db : DB) (fs : FS) (r : recorder)
    (command : string) (cwd : option string)
    (track_files : option (list string)) (track_cwd execute : bool)
    : Z * DB * FS * recorder :=
  let '(sid, db1, r1) := ensure_session ce db r in
  let cwd := Py.or_else cwd (env_cwd (ce_command ce)) in
  let r2 :=
    match Py.nonempty track_files with
    | Some files =>
        {| current_session_id := current_session_id r1;
           watched_files := watch_files fs (List.map path_str files) |}
    | None =>
        if track_cwd
        then {| current_session_id := current_session_id r1;
                watched_files := watch_directory fs (path_str cwd) |}
        else r1
    end in
  let '(exit_code, output, error_output, duration_ms, fs1) :=
    if execute
    then
      let '(o, fs') := subprocess_run fs command cwd in
      let '(e, out, err) := stored_outcome o in
      (e, out, err, Some (ce_duration_ms ce), fs')
    else (None, None, None, None, fs) in
  let '(command_id, db2) :=
    record_command (ce_command ce) db1 sid
      {| arg_command := command; arg_cwd := cwd; arg_exit_code := exit_code;
         arg_output := output; arg_error_output := error_output;
         arg_duration_ms := duration_ms; arg_tags := None;
         arg_notes := None |} in
  let '(db3, fs2) :=
    match Py.nonempty track_files, track_cwd with
    | None, false => (db2, fs1)
    | _, _ =>
        let changes :=
          detect_changes fs1 (watched_files r2)
            (if track_cwd then Some (path_str cwd) else None) in
        record_changes ce O db2 fs1 command_id changes
    end in
  (command_id, db3, fs2, r2).

End Recorder.

(** A row of [file_changes] as [record] writes it for a change descriptor
    of the command [command_id]. *)
Definition describes (command_id : Z) (c : change) (fc : file_change) : Prop :=
  fc_command_id fc = command_id /\
  fc_file_path fc = change_path c /\
  fc_change_type fc = change_type c /\
  fc_old_hash fc = change_old_hash c /\
  fc_new_hash fc = change_new_hash c /\
  fc_old_size fc = change_old_size c /\
  fc_new_size fc = change_new_size c /\
  (needs_backup c = false -> fc_backup_path fc = None).

(** The reads of one call of the recorder when the clock stands at [now]. *)
Definition ce_at (stamp now : string) : call_env :=
  {| ce_stamp := stamp; ce_session := env_at now; ce_command := env_at now;
     ce_duration_ms := 12;
     ce_backup_stamp := fun n => stamp +:+ "_" +:+ PyStr.of_int (Z.of_nat n);
     ce_change := fun _ => env_at now |}.

(** A recorder with no session, and one in the session [sid]. *)
Definition recorder_idle : recorder :=
  {| current_session_id := None; watched_files := [] |}.

Definition recorder_in (sid : string) : recorder :=
  {| current_session_id := Some sid; watched_files := [] |}.

(** A shell on the in-memory filesystem that knows three commands: one
    removes "/w/a.txt", one overwrites it, one runs into the timeout; any
    other command prints its own text. *)
Definition run_sample (fs : MemFS.t) (command cwd : string)
    : run_outcome * MemFS.t :=
  if String.eqb command "rm /w/a.txt"
  then (Completed 0 "" "", delete "/w/a.txt" fs)
  else if String.eqb command "echo v3 > /w/a.txt"
  then (Completed 0 "" "", <["/w/a.txt" := MemFS.File "v3" true]> fs)
  else if String.eqb command "sleep 600"
  then (TimeoutExpired, fs)
  else (Completed 0 command "", fs).

(** The reads of the sample calls, and [record] called in session "s" of
    [db_build_test] on the filesystem [fs_backed true], with working
    directory "/w" and backups under "/b". *)
Definition ce_sample : call_env :=
  ce_at "20260131_100003" "2026-01-31T10:00:03".

Definition record_sample (command : string)
    (track_files : option (list string)) (track_cwd execute : bool)
    : Z * DB * MemFS.t * recorder :=
  recorder_record "/b" MemFS.basename run_sample ce_sample db_build_test
    (fs_backed true) (recorder_in "s") command (Some "/w") track_files
    track_cwd execute.

(** [log] called with no session at hand, on the empty store. *)
Definition log_sample : Z * DB * recorder :=
  recorder_log ce_sample empty_db recorder_idle "ls" (Some 0) None None None
    None.

(** ** The rest of the rollback engine *)

Section RollbackLast.

Context {FS : Type} `{FileSystem FS}.

Variable fts5 : string -> option (string -> string -> bool).

(** The loop of [rollback_last] over the commands found. *)
Fixpoint rollback_first (fs : FS) (db : DB) (dry_run : bool)
    (commands : list command) : Py.result (rollback_result * FS) :=
  match commands with
  | [] =>
      Py.Returns
        ({| r_success := false;
            r_error := Some "No recent commands with file changes found";
            r_dry_run := None; r_command_id := None; r_actions := [] |}, fs)
  | cmd :: rest =>
      match get_file_changes db (cmd_id cmd) with
      | [] => rollback_first fs db dry_run rest
      | _ :: _ => rollback_command fs db (cmd_id cmd) dry_run
      end
  end.

(** [RollbackManager.rollback_last]. *)
Definition rollback_last (fs : FS) (db : DB) (dry_run : bool)
    : Py.result (rollback_result * FS) :=
  Py.bind (get_commands fts5 db None 20 None false None)
    (rollback_first fs db dry_run).

End RollbackLast.

(** Twenty later commands after the two of [db_rollback], one a second. *)
Definition db_rollback_old : DB :=
  record_all db_rollback "s"
    (List.map
       (fun n : nat =>
          (env_at ("2026-01-31T11:00:" +:+ (if Nat.ltb n 10 then "0" else "")
                   +:+ PyStr.of_int (Z.of_nat n)),
           plain_command "true" (Some 0)))
       (seq 0 20)).

(** A record with a change type that the program never writes. *)
Definition db_renamed : DB :=
  record_file_change (env_at "2026-01-31T10:00:06") db_build_test 2
    "/w/a.txt" "renamed" None None None None None.

(** * Properties *)

(** ** Session counters *)

Lemma case_eq_zero_spec (e : option Z) :
  case_eq_zero e = if decide (e = Some 0) then 1 else 0.
Proof.
  unfold case_eq_zero.
  destruct (decide (e = Some 0)) as [->|Hne]; [reflexivity|].
  destruct e as [c|]; simpl; [|reflexivity].
  destruct (Z.eqb_spec c 0) as [->|Hc]; congruence.
Qed.

Lemma case_ne_zero_spec (e : option Z) :
  case_ne_zero e = match e with Some c => if decide (c = 0) then 0 else 1 | None => 0 end.
Proof.
  unfold case_ne_zero. destruct e as [c|]; simpl; [|reflexivity].
  destruct (Z.eqb_spec c 0); destruct (decide (c = 0)); simpl; congruence.
Qed.

Lemma case_sum_le_1 (e : option Z) :
  0 <= case_eq_zero e /\ 0 <= case_ne_zero e /\
  case_eq_zero e + case_ne_zero e <= 1 /\
  (case_eq_zero e + case_ne_zero e = 1 <-> e <> None).
Proof.
  unfold case_eq_zero, case_ne_zero.
  destruct e as [c|]; simpl.
  - destruct (c =? 0)%Z; simpl; repeat split; try lia; congruence.
  - repeat split; try lia; congruence.
Qed.

Lemma record_command_session (env : Env) (db : DB) (sid : string)
    (a : command_args) (s : session) :
  sessions db !! sid = Some s ->
  sessions (record_command env db sid a).2 !! sid
  = Some (update_session_stats (arg_exit_code a) s).
Proof.
  intros Hs. simpl. rewrite lookup_alter_eq, Hs. reflexivity.
Qed.

Lemma record_all_session (calls : list (Env * command_args)) :
  forall (db : DB) (sid : string) (s : session),
  sessions db !! sid = Some s ->
  exists s',
    sessions (record_all db sid calls) !! sid = Some s' /\
    s_command_count s' = s_command_count s + Z.of_nat (length calls) /\
    s_success_count s <= s_success_count s' /\
    s_error_count s <= s_error_count s' /\
    (s_success_count s' - s_success_count s)
    + (s_error_count s' - s_error_count s) <= Z.of_nat (length calls) /\
    ((s_success_count s' - s_success_count s)
     + (s_error_count s' - s_error_count s) = Z.of_nat (length calls)
     <-> Forall (fun call => arg_exit_code (snd call) <> None) calls).
Proof.
  induction calls as [|[env a] calls IH]; intros db sid s Hs.
  - exists s. simpl. repeat split; try lia; auto.
  - pose proof (record_command_session env db sid a s Hs) as H1.
    destruct (IH _ _ _ H1) as (s' & Hl & Hc & Hsu & Her & Hle & Hiff).
    exists s'. unfold record_all in *. simpl foldl. simpl fst. simpl snd.
    split; [exact Hl|].
    simpl in Hc, Hsu, Her, Hle, Hiff.
    destruct (case_sum_le_1 (arg_exit_code a)) as (H0 & H0' & H2 & H3).
    rewrite length_cons, Nat2Z.inj_succ.
    repeat split; try lia.
    + intros Heq. constructor.
      * simpl. apply H3. lia.
      * apply Hiff. lia.
    + intros HF. inversion HF as [|? ? Ha HF']; subst. simpl in Ha.
      apply H3 in Ha. apply Hiff in HF'. lia.
Qed.

(** C4.  Recording a command into an existing session adds one to
    [success_count] exactly when the exit code is 0, one to [error_count]
    exactly when the exit code is present and not 0, and nothing to either
    when the exit code is absent.  After [N] commands recorded into the
    session, the two counters have together grown by at most [N], and by
    exactly [N] if and only if no command had an absent exit code. *)
Theorem record_command_counter_partition (db : DB) (sid : string) (s : session) :
  get_session db sid = Some s ->
  (forall (env : Env) (a : command_args),
     exists s1,
       get_session (record_command env db sid a).2 sid = Some s1 /\
       s_command_count s1 = s_command_count s + 1 /\
       (arg_exit_code a = Some 0 ->
        s_success_count s1 = s_success_count s + 1) /\
       (arg_exit_code a <> Some 0 ->
        s_success_count s1 = s_success_count s) /\
       ((exists c, arg_exit_code a = Some c /\ c <> 0) ->
        s_error_count s1 = s_error_count s + 1) /\
       (~ (exists c, arg_exit_code a = Some c /\ c <> 0) ->
        s_error_count s1 = s_error_count s) /\
       (arg_exit_code a = None ->
        s_success_count s1 = s_success_count s /\
        s_error_count s1 = s_error_count s)) /\
  (forall (calls : list (Env * command_args)),
     exists sN,
       get_session (record_all db sid calls) sid = Some sN /\
       s_command_count sN = s_command_count s + Z.of_nat (length calls) /\
       (s_success_count sN - s_success_count s)
       + (s_error_count sN - s_error_count s) <= Z.of_nat (length calls) /\
       ((s_success_count sN - s_success_count s)
        + (s_error_count sN - s_error_count s) = Z.of_nat (length calls)
        <-> Forall (fun call => arg_exit_code (snd call) <> None) calls) /\
       (s_success_count s = 0 -> s_error_count s = 0 ->
        s_success_count sN + s_error_count sN <= Z.of_nat (length calls) /\
        (s_success_count sN + s_error_count sN = Z.of_nat (length calls)
         <-> Forall (fun call => arg_exit_code (snd call) <> None) calls))).
Proof.
  unfold get_session. intros Hs. split.
  - intros env a. eexists. split; [apply record_command_session, Hs|].
    simpl. rewrite case_eq_zero_spec, case_ne_zero_spec.
    destruct (arg_exit_code a) as [c|] eqn:Ec.
    + destruct (decide (Some c = Some 0)) as [Hc|Hc];
        destruct (decide (c = 0)) as [Hz|Hz];
        try (exfalso; congruence).
      * subst c. repeat split; try lia; try congruence.
        intros (c' & Hc' & Hne). congruence.
      * repeat split; try lia; try congruence.
        intros Hn. exfalso. apply Hn. eauto.
    + destruct (decide (None = Some 0)) as [Hc|Hc]; [discriminate|].
      repeat split; try lia; try discriminate.
      intros (c' & Hc' & _). discriminate.
  - intros calls.
    destruct (record_all_session calls db sid s Hs)
      as (sN & Hl & Hc & Hsu & Her & Hle & Hiff).
    exists sN. repeat split; try assumption.
    + apply Hiff.
    + apply Hiff.
    + lia.
    + intros Heq. apply Hiff. lia.
    + intros HF. apply Hiff in HF. lia.
Qed.

(** The theorem at a freshly started session and three commands with exit
    codes 0, 2 and none. *)
Lemma record_command_counter_partition_witness :
  exists s sN,
    get_session db_started "s" = Some s /\
    get_session
      (record_all db_started "s"
         [(env_at "t1", plain_command "make" (Some 0));
          (env_at "t2", plain_command "false" (Some 2));
          (env_at "t3", plain_command "ls" None)]) "s" = Some sN /\
    s_success_count sN + s_error_count sN <= 3.
Proof.
  eexists. 
  destruct (record_command_counter_partition db_started "s" _ eq_refl)
    as [_ H].
  destruct (H [(env_at "t1", plain_command "make" (Some 0));
               (env_at "t2", plain_command "false" (Some 2));
               (env_at "t3", plain_command "ls" None)])
    as (sN & Hl & _ & _ & _ & Habs).
  exists sN. split; [reflexivity|]. split; [exact Hl|].
  apply Habs; reflexivity.
Defined.

(** ** Restarting a session *)

(** C7, counterexample.  Session "s" has two commands recorded, one of them
    successful; starting "s" again leaves the counters at 0. *)
Lemma start_session_clears_counters :
  (s_command_count <$> get_session db_build_test "s") = Some 2 /\
  (s_success_count <$> get_session db_build_test "s") = Some 1 /\
  (s_command_count <$>
     get_session
       (start_session (env_at "2026-01-31T11:00:00") db_build_test "s"
          None None None None).2 "s") = Some 0 /\
  (s_success_count <$>
     get_session
       (start_session (env_at "2026-01-31T11:00:00") db_build_test "s"
          None None None None).2 "s") = Some 0.
Proof. repeat split; vm_compute; reflexivity. Qed.

(** C7, amended.  [start_session] is an upsert that replaces the whole row:
    whatever the store held for the id, afterwards the row has the name,
    description, start time, working directory, agent and metadata of this
    call, no end time, and all three counters at 0; the other sessions and
    the recorded commands and file changes are untouched.  A second call
    with the same id wins over the first, and repeating a call with the same
    arguments and clock changes nothing more. *)
Theorem start_session_replaces_row (env : Env) (db : DB) (sid : string)
    (name description agent_name : option string)
    (metadata : option (list (string * string))) :
  (start_session env db sid name description agent_name metadata).1 = sid /\
  get_session (start_session env db sid name description agent_name metadata).2
    sid
  = Some {| s_id := sid; s_name := name; s_description := description;
            s_started_at := env_now env; s_ended_at := None;
            s_command_count := 0; s_success_count := 0; s_error_count := 0;
            s_cwd_start := Some (env_cwd env); s_agent_name := agent_name;
            s_metadata := Py.nonempty metadata |} /\
  (forall other, other <> sid ->
     get_session
       (start_session env db sid name description agent_name metadata).2 other
     = get_session db other) /\
  commands (start_session env db sid name description agent_name metadata).2
  = commands db /\
  file_changes (start_session env db sid name description agent_name metadata).2
  = file_changes db /\
  (forall env2 name2 description2 agent2 metadata2,
     start_session env2
       (start_session env db sid name description agent_name metadata).2
       sid name2 description2 agent2 metadata2
     = start_session env2 db sid name2 description2 agent2 metadata2) /\
  start_session env
    (start_session env db sid name description agent_name metadata).2
    sid name description agent_name metadata
  = start_session env db sid name description agent_name metadata.
Proof.
  assert (Hlast : forall env2 name2 description2 agent2 metadata2,
     start_session env2
       (start_session env db sid name description agent_name metadata).2
       sid name2 description2 agent2 metadata2
     = start_session env2 db sid name2 description2 agent2 metadata2).
  { intros. unfold start_session. simpl. rewrite insert_insert_eq.
    reflexivity. }
  unfold get_session. repeat split.
  - simpl. apply lookup_insert_eq.
  - intros other Hne. simpl. apply lookup_insert_ne. congruence.
  - exact Hlast.
  - apply Hlast.
Qed.

(** ** The ledger stays consistent *)

Lemma empty_db_wf : ledger_wf empty_db.
Proof. split; simpl; constructor. Qed.

Lemma record_command_wf (env : Env) (db : DB) (sid : string) (a : command_args) :
  ledger_wf db -> ledger_wf (record_command env db sid a).2.
Proof.
  intros [Hfts Hids Hseq]. split; simpl.
  - rewrite Hfts, List.map_app. reflexivity.
  - rewrite List.map_app. simpl. apply NoDup_app. split; [exact Hids|].
    split; [|apply NoDup_singleton].
    intros x Hx Hx'. apply list_elem_of_singleton in Hx'. subst x.
    apply list_elem_of_In, in_map_iff in Hx as (c & Hc & Hin).
    rewrite List.Forall_forall in Hseq. apply Hseq in Hin. lia.
  - apply Forall_app. split.
    + eapply Forall_impl; [exact Hseq|]. simpl. intros c Hc. lia.
    + constructor; [simpl; lia|constructor].
Qed.

Lemma record_all_wf (calls : list (Env * command_args)) (sid : string) :
  forall db, ledger_wf db -> ledger_wf (record_all db sid calls).
Proof.
  induction calls as [|[env a] calls IH]; intros db Hwf; [exact Hwf|].
  apply IH. apply record_command_wf. exact Hwf.
Qed.

Lemma start_session_wf (env : Env) (db : DB) (sid : string)
    (name description agent_name : option string)
    (metadata : option (list (string * string))) :
  ledger_wf db ->
  ledger_wf (start_session env db sid name description agent_name metadata).2.
Proof. intros [Hfts Hids Hseq]. split; assumption. Qed.

Lemma end_session_wf (env : Env) (db : DB) (sid : string) :
  ledger_wf db -> ledger_wf (end_session env db sid).
Proof. intros [Hfts Hids Hseq]. split; assumption. Qed.

Lemma record_file_change_wf (env : Env) (db : DB) (command_id : Z)
    (file_path change_type : string) (old_hash new_hash : option string)
    (old_size new_size : option Z) (backup_path : option string) :
  ledger_wf db ->
  ledger_wf (record_file_change env db command_id file_path change_type
               old_hash new_hash old_size new_size backup_path).
Proof. intros [Hfts Hids Hseq]. split; assumption. Qed.

Lemma db_build_test_wf : ledger_wf db_build_test.
Proof.
  apply record_all_wf, start_session_wf, empty_db_wf.
Qed.

(** ** Querying *)

Lemma if_str_Some (o : option string) (s : string) :
  Py.if_str o = Some s <-> o = Some s /\ s <> "".
Proof.
  unfold Py.if_str. destruct o as [x|].
  - destruct (String.eqb_spec x "") as [->|Hne]; split.
    + discriminate.
    + intros [[= <-] Hs]. congruence.
    + intros [= <-]. auto.
    + intros [[= <-] _]. reflexivity.
  - split; [discriminate|]. intros [? _]. discriminate.
Qed.

Lemma truthy_if_str (o : option string) :
  Py.truthy o = true <-> exists s, Py.if_str o = Some s.
Proof.
  unfold Py.truthy, Py.if_str. destruct o as [x|].
  - destruct (String.eqb x ""); simpl; split; eauto; try discriminate.
    intros [s Hs]. discriminate.
  - split; [discriminate|]. intros [s Hs]. discriminate.
Qed.

Lemma falsy_if_str (o : option string) :
  Py.truthy o = false <-> Py.if_str o = None.
Proof.
  unfold Py.truthy, Py.if_str. destruct o as [x|]; [|tauto].
  destruct (String.eqb x ""); simpl; split; congruence.
Qed.

Lemma insert_desc_In (c x : command) (l : list command) :
  In x (insert_desc c l) <-> x = c \/ In x l.
Proof.
  induction l as [|y l IH]; simpl.
  - intuition congruence.
  - destruct (String.leb (cmd_timestamp y) (cmd_timestamp c)); simpl.
    + intuition congruence.
    + rewrite IH. intuition congruence.
Qed.

Lemma order_by_timestamp_desc_In (x : command) (l : list command) :
  In x (order_by_timestamp_desc l) <-> In x l.
Proof.
  unfold order_by_timestamp_desc.
  induction l as [|y l IH]; simpl; [tauto|].
  rewrite insert_desc_In, IH. intuition congruence.
Qed.

Lemma sql_limit_In {A : Type} (limit : Z) (x : A) (l : list A) :
  In x (sql_limit limit l) -> In x l.
Proof.
  unfold sql_limit. destruct (limit <? 0)%Z; [tauto|].
  generalize (Z.to_nat limit). intros n. revert l.
  induction n as [|n IH]; intros [|y l]; simpl; try tauto.
  intros [->|Hin]; auto.
Qed.

Lemma eval_conds_session (s : string) (c : command) :
  eval_conds [SessionIdEq s] c = true <-> cmd_session_id c = s.
Proof.
  unfold eval_conds. simpl. rewrite andb_true_r. apply String.eqb_eq.
Qed.

Section SearchFacts.

Variable fts5 : string -> option (string -> string -> bool).

Lemma joined_rows_In (matches : string -> string -> bool) (db : DB)
    (c : command) :
  In c (joined_rows matches db) <->
  In c (commands db) /\
  exists f, In f (commands_fts db) /\ fts_rowid f = cmd_id c /\
            matches (fts_command f) (fts_output f) = true.
Proof.
  unfold joined_rows. rewrite in_flat_map. split.
  - intros (c' & Hc' & Hin). apply in_map_iff in Hin as (f & <- & Hf).
    apply filter_In in Hf as [Hf Hm].
    apply andb_true_iff in Hm as [Hid Hm]. apply Z.eqb_eq in Hid.
    split; [exact Hc'|]. exists f. auto.
  - intros (Hc & f & Hf & Hid & Hm). exists c. split; [exact Hc|].
    apply in_map_iff. exists f. split; [reflexivity|].
    apply filter_In. split; [exact Hf|].
    apply andb_true_iff. split; [apply Z.eqb_eq; congruence|exact Hm].
Qed.

(** In search mode the statement is the join, with at most the session
    condition, whatever [since] and [with_errors] are. *)
Lemma get_commands_search (db : DB) (session_id : option string) (limit : Z)
    (since : option string) (with_errors : bool) (search : option string)
    (pat : string) :
  Py.if_str search = Some pat ->
  get_commands fts5 db session_id limit since with_errors search
  = match fts5 pat with
    | None => Py.Raises "sqlite3.OperationalError"
    | Some matches =>
        Py.Returns
          (sql_limit limit
             (order_by_timestamp_desc
                (List.filter
                   (eval_conds
                      match Py.if_str session_id with
                      | Some s => [SessionIdEq s]
                      | None => []
                      end)
                   (joined_rows matches db))))
    end.
Proof.
  intros Hs. unfold get_commands. rewrite Hs.
  destruct (Py.if_str session_id); simpl;
    destruct (fts5 pat); reflexivity.
Qed.

End SearchFacts.

Lemma index_filter_none (matches : string -> string -> bool) (c : command)
    (cs : list command) :
  (forall x, In x cs -> cmd_id x <> cmd_id c) ->
  List.filter
    (fun f => Z.eqb (cmd_id c) (fts_rowid f)
              && matches (fts_command f) (fts_output f))
    (List.map index_of cs) = [].
Proof.
  induction cs as [|x cs IH]; intros Hne; simpl; [reflexivity|].
  destruct (Z.eqb_spec (cmd_id c) (cmd_id x)) as [Heq|_].
  - exfalso. apply (Hne x); [left; reflexivity|congruence].
  - simpl. apply IH. intros y Hy. apply Hne. right. exact Hy.
Qed.

Lemma index_filter_one (matches : string -> string -> bool) (c : command)
    (cs : list command) :
  NoDup (List.map cmd_id cs) -> In c cs ->
  List.filter
    (fun f => Z.eqb (cmd_id c) (fts_rowid f)
              && matches (fts_command f) (fts_output f))
    (List.map index_of cs)
  = if text_matches matches c then [index_of c] else [].
Proof.
  induction cs as [|x cs IH]; intros Hnd Hin; [destruct Hin|].
  simpl in Hnd. apply NoDup_cons in Hnd as [Hx Hnd].
  destruct Hin as [->|Hin].
  - simpl. rewrite Z.eqb_refl. simpl.
    rewrite index_filter_none.
    + unfold text_matches. destruct (matches _ _); reflexivity.
    + intros y Hy Heq. apply Hx. rewrite <- Heq.
      apply list_elem_of_In, in_map, Hy.
  - simpl. destruct (Z.eqb_spec (cmd_id c) (cmd_id x)) as [Heq|_].
    + exfalso. apply Hx. rewrite <- Heq. apply list_elem_of_In, in_map, Hin.
    + simpl. apply IH; assumption.
Qed.

(** In a consistent ledger the join selects each command whose own text
    matches, once. *)
Lemma joined_rows_wf (matches : string -> string -> bool) (db : DB) :
  ledger_wf db ->
  joined_rows matches db = List.filter (text_matches matches) (commands db).
Proof.
  intros [Hfts Hids _]. unfold joined_rows. rewrite Hfts.
  assert (Hgen : forall l, (forall c, In c l -> In c (commands db)) ->
    flat_map (fun c =>
      List.map (fun _ => c)
        (List.filter
           (fun f => Z.eqb (cmd_id c) (fts_rowid f)
                     && matches (fts_command f) (fts_output f))
           (List.map index_of (commands db)))) l
    = List.filter (text_matches matches) l).
  { induction l as [|c l IH]; intros Hsub; [reflexivity|].
    simpl. rewrite IH by (intros y Hy; apply Hsub; right; exact Hy).
    rewrite index_filter_one by (auto; apply Hsub; left; reflexivity).
    destruct (text_matches matches c); reflexivity. }
  apply Hgen. auto.
Qed.

Lemma filter_no_conds (l : list command) : List.filter (eval_conds []) l = l.
Proof.
  induction l as [|c l IH]; simpl; [reflexivity|]. rewrite IH. reflexivity.
Qed.

Section SearchMode.

Variable fts5 : string -> option (string -> string -> bool).

(** C5.  When a search text is supplied, [since] and [with_errors] have no
    effect on what [get_commands] returns; without a session id the result
    is, in a consistent ledger, exactly the commands whose command text and
    captured output match the search text, newest first and cut at the
    limit. *)
Theorem get_commands_search_ignores_range (db : DB)
    (session_id : option string) (limit : Z) (since since' : option string)
    (with_errors with_errors' : bool) (search : option string) :
  Py.truthy search = true ->
  get_commands fts5 db session_id limit since with_errors search
  = get_commands fts5 db session_id limit since' with_errors' search /\
  (Py.truthy session_id = false -> ledger_wf db ->
   exists pat,
     search = Some pat /\
     get_commands fts5 db session_id limit since with_errors search
     = match fts5 pat with
       | None => Py.Raises "sqlite3.OperationalError"
       | Some matches =>
           Py.Returns
             (sql_limit limit
                (order_by_timestamp_desc
                   (List.filter
                      (fun c => matches (cmd_command c)
                                  (Py.or_else (cmd_output c) ""))
                      (commands db))))
       end).
Proof.
  intros Ht. apply truthy_if_str in Ht as [pat Hpat]. split.
  - rewrite !(get_commands_search fts5 db session_id limit _ _ search pat Hpat).
    reflexivity.
  - intros Hsid Hwf. apply falsy_if_str in Hsid.
    exists pat. split; [apply if_str_Some in Hpat; tauto|].
    rewrite (get_commands_search fts5 db session_id limit _ _ search pat Hpat).
    rewrite Hsid. destruct (fts5 pat) as [matches|]; [|reflexivity].
    rewrite joined_rows_wf by exact Hwf.
    rewrite filter_no_conds. reflexivity.
Qed.

(** C10.  When a search text and a session id are both supplied,
    [get_commands] fails only if the engine rejects the search text, and
    otherwise every row it returns belongs to that session and matches the
    search text through its index row (and, in a consistent ledger, through
    its own command text and captured output). *)
Theorem get_commands_search_keeps_session (db : DB) (limit : Z)
    (since : option string) (with_errors : bool) (sid pat : string) :
  sid <> "" -> pat <> "" ->
  match fts5 pat with
  | None =>
      get_commands fts5 db (Some sid) limit since with_errors (Some pat)
      = Py.Raises "sqlite3.OperationalError"
  | Some matches =>
      exists rows,
        get_commands fts5 db (Some sid) limit since with_errors (Some pat)
        = Py.Returns rows /\
        forall c, In c rows ->
          cmd_session_id c = sid /\
          In c (commands db) /\
          (exists f, In f (commands_fts db) /\ fts_rowid f = cmd_id c /\
                     matches (fts_command f) (fts_output f) = true) /\
          (ledger_wf db ->
           matches (cmd_command c) (Py.or_else (cmd_output c) "") = true)
  end.
Proof.
  intros Hsid Hpat.
  assert (Hs : Py.if_str (Some sid) = Some sid) by (apply if_str_Some; auto).
  assert (Hp : Py.if_str (Some pat) = Some pat) by (apply if_str_Some; auto).
  rewrite (get_commands_search fts5 db (Some sid) limit since with_errors
             (Some pat) pat Hp), Hs.
  destruct (fts5 pat) as [matches|]; [|reflexivity].
  eexists. split; [reflexivity|].
  intros c Hc. apply sql_limit_In in Hc.
  apply -> order_by_timestamp_desc_In in Hc.
  apply filter_In in Hc as [Hj Hcond].
  apply eval_conds_session in Hcond.
  split; [exact Hcond|].
  pose proof Hj as Hj'. apply joined_rows_In in Hj' as [Hin Hf].
  split; [exact Hin|]. split; [exact Hf|].
  intros Hwf. rewrite joined_rows_wf in Hj by exact Hwf.
  apply filter_In in Hj as [_ Hm]. exact Hm.
Qed.

End SearchMode.

(** The theorem at the ledger with "build project" and "test project": a
    [since] bound in the future and [with_errors] change nothing, and the
    search for "build" returns the first command only. *)
Lemma get_commands_search_ignores_range_witness :
  Py.truthy (Some "build") = true /\
  get_commands SimpleFTS.fts5 db_build_test None 50
    (Some "2099-01-01T00:00:00") true (Some "build")
  = get_commands SimpleFTS.fts5 db_build_test None 50 None false (Some "build") /\
  exists row,
    get_commands SimpleFTS.fts5 db_build_test None 50
      (Some "2099-01-01T00:00:00") true (Some "build") = Py.Returns [row] /\
    cmd_command row = "build project".
Proof.
  assert (Ht : Py.truthy (Some "build") = true) by reflexivity.
  destruct (get_commands_search_ignores_range SimpleFTS.fts5 db_build_test
              None 50 (Some "2099-01-01T00:00:00") None true false
              (Some "build") Ht) as [Hsame Hexact].
  split; [exact Ht|]. split; [exact Hsame|].
  destruct (Hexact eq_refl db_build_test_wf) as (pat & Hpat & Hres).
  injection Hpat as <-.
  rewrite Hres.
  eexists. split; vm_compute; reflexivity.
Defined.

(** The theorem at a ledger where sessions "s" and "t" both hold a command
    that matches "build". *)
Lemma get_commands_search_keeps_session_witness :
  "s" <> "" /\ "build" <> "" /\
  exists rows,
    get_commands SimpleFTS.fts5 db_two_sessions (Some "s") 50 None false
      (Some "build") = Py.Returns rows /\
    forall c, In c rows -> cmd_session_id c = "s".
Proof.
  assert (H1 : "s" <> "") by discriminate.
  assert (H2 : "build" <> "") by discriminate.
  split; [exact H1|]. split; [exact H2|].
  pose proof (get_commands_search_keeps_session SimpleFTS.fts5
                db_two_sessions 50 None false "s" "build" H1 H2) as H.
  destruct (SimpleFTS.fts5 "build") as [m|] eqn:E;
    [|vm_compute in E; discriminate].
  destruct H as (rows & Hr & Hall).
  exists rows. split; [exact Hr|].
  intros c Hc. apply (Hall c Hc).
Defined.

(** Without the session id both "build" commands are found; with it, one. *)
Example search_two_sessions :
  (exists a b,
     get_commands SimpleFTS.fts5 db_two_sessions None 50 None false
       (Some "build") = Py.Returns [a; b] /\
     cmd_command a = "build docs" /\ cmd_command b = "build project") /\
  (exists a,
     get_commands SimpleFTS.fts5 db_two_sessions (Some "s") 50 None false
       (Some "build") = Py.Returns [a] /\
     cmd_command a = "build project").
Proof.
  split; repeat eexists; vm_compute; reflexivity.
Qed.

(** ** Statistics *)

Lemma round_half_even_nearest (num den : Z) :
  0 < den ->
  Z.abs (2 * num - 2 * PyFloat.round_half_even num den * den) <= den.
Proof.
  intros Hden. unfold PyFloat.round_half_even.
  pose proof (Z.div_mod num den ltac:(lia)) as Hdm.
  pose proof (Z.mod_pos_bound num den Hden) as Hr.
  set (q := num / den) in *. set (r := num mod den) in *.
  destruct (Z.compare_spec (2 * r) den) as [Heq|Hlt|Hgt].
  - destruct (Z.even q); nia.
  - nia.
  - nia.
Qed.

(** [nearest_integer m e] is within one half of [m * 2^e]. *)
Lemma nearest_integer_nearest (m e : Z) :
  (0 <= e -> PyFloat.nearest_integer m e = m * 2 ^ e) /\
  (e < 0 ->
   Z.abs (2 * m - 2 * PyFloat.nearest_integer m e * 2 ^ (- e)) <= 2 ^ (- e)).
Proof.
  unfold PyFloat.nearest_integer. split; intros He.
  - destruct (Z.leb_spec 0 e); [reflexivity|lia].
  - destruct (Z.leb_spec 0 e); [lia|].
    apply round_half_even_nearest. apply Z.pow_pos_nonneg; lia.
Qed.

(** Rounding a finite float to [ndigits] decimals gives the float nearest
    to [n / 10^ndigits], for an integer [n] within one half of the value of
    the float times [10^ndigits]. *)
Lemma round_decimal (s : bool) (m : positive) (e : Z) (ndigits : nat) :
  exists n,
    PyFloat.round (S754_finite s m e) ndigits = PyFloat.of_decimal s n ndigits /\
    (0 <= e -> n = Zpos m * 10 ^ Z.of_nat ndigits * 2 ^ e) /\
    (e < 0 ->
     Z.abs (2 * (Zpos m * 10 ^ Z.of_nat ndigits) - 2 * n * 2 ^ (- e))
     <= 2 ^ (- e)).
Proof.
  eexists. split; [reflexivity|]. apply nearest_integer_nearest.
Qed.

Lemma count_exit_zero_spec (l : list command) :
  length (List.filter
            (fun c => sql_true (sql_eq (cmd_exit_code c) (Some 0))) l)
  = length (filter (fun c => cmd_exit_code c = Some 0) l).
Proof.
  induction l as [|c l IH]; [reflexivity|].
  rewrite filter_cons. cbn [List.filter].
  destruct (decide (cmd_exit_code c = Some 0)) as [Hd|Hd].
  - rewrite Hd. cbn. f_equal. exact IH.
  - destruct (cmd_exit_code c) as [x|]; cbn [sql_eq sql_true]; [|exact IH].
    destruct (Z.eqb_spec x 0); [congruence|exact IH].
Qed.

Lemma count_exit_nonzero_spec (l : list command) :
  length (List.filter
            (fun c => sql_true (sql_ne (cmd_exit_code c) (Some 0))) l)
  = length (filter (fun c => cmd_exit_code c <> None /\
                             cmd_exit_code c <> Some 0) l).
Proof.
  induction l as [|c l IH]; [reflexivity|].
  rewrite filter_cons. cbn [List.filter].
  destruct (decide (cmd_exit_code c <> None /\ cmd_exit_code c <> Some 0))
    as [[Hn Hz]|Hd].
  - destruct (cmd_exit_code c) as [x|]; [|congruence].
    cbn [sql_ne sql_true].
    destruct (Z.eqb_spec x 0); [congruence|]. cbn. f_equal. exact IH.
  - destruct (cmd_exit_code c) as [x|]; cbn [sql_ne sql_true]; [|exact IH].
    destruct (Z.eqb_spec x 0); [exact IH|].
    exfalso. apply Hd. split; congruence.
Qed.

Lemma exit_code_partition (l : list command) :
  (length (filter (fun c => cmd_exit_code c = Some 0%Z) l)
   + length (filter (fun c => cmd_exit_code c <> None /\
                              cmd_exit_code c <> Some 0%Z) l)
   + length (filter (fun c => cmd_exit_code c = None) l))%nat
  = length l.
Proof.
  induction l as [|c l IH]; [reflexivity|].
  rewrite !filter_cons.
  destruct (decide (cmd_exit_code c = Some 0)) as [H0|H0];
    destruct (decide (cmd_exit_code c <> None /\ cmd_exit_code c <> Some 0))
      as [[Hn Hz]|H1];
    destruct (decide (cmd_exit_code c = None)) as [H2|H2];
    try congruence; cbn [length]; try lia.
  exfalso. apply H1. split; congruence.
Qed.

Lemma truediv_int_returns (a b : Z) :
  b <> 0 -> exists q, PyFloat.truediv_int a b = Py.Returns q.
Proof.
  intros Hb. destruct a, b; simpl; try congruence; eauto.
Qed.

(** ** Floats: what the operations compute *)

Section Pow2.

Local Open Scope Q_scope.

Lemma pow2_pos (e : Z) : 0 < pow2 e.
Proof. unfold pow2. apply Qpower_0_lt. reflexivity. Qed.

Lemma pow2_add (a b : Z) : pow2 (a + b) == pow2 a * pow2 b.
Proof. unfold pow2. apply Qpower_plus. discriminate. Qed.

Lemma pow2_succ (e : Z) : pow2 (e + 1) == 2 * pow2 e.
Proof. rewrite pow2_add. unfold pow2 at 2. simpl. ring. Qed.

Lemma pow2_pred (e : Z) : pow2 (e - 1) == (1 # 2) * pow2 e.
Proof.
  assert (He : pow2 e == 2 * pow2 (e - 1)).
  { rewrite <- pow2_succ. replace (e - 1 + 1)%Z with e by lia. reflexivity. }
  rewrite He. ring.
Qed.

Lemma pow2_Z (e : Z) : (0 <= e)%Z -> pow2 e == inject_Z (2 ^ e).
Proof.
  intros He. unfold pow2. rewrite Zpower_Qpower by exact He. reflexivity.
Qed.

Lemma pow2_0 : pow2 0 == 1.
Proof. reflexivity. Qed.

Lemma pow2_le (a b : Z) : (a <= b)%Z -> pow2 a <= pow2 b.
Proof.
  intros Hab. replace b with (a + (b - a))%Z by lia.
  rewrite pow2_add, (pow2_Z (b - a)) by lia.
  pose proof (pow2_pos a) as Ha.
  assert (H1 : (1 <= 2 ^ (b - a))%Z).
  { apply (Z.pow_le_mono_r 2 0 (b - a)); lia. }
  rewrite Zle_Qle in H1. change (inject_Z 1) with 1 in H1.
  nra.
Qed.

End Pow2.

Section Shifting.

Local Open Scope Q_scope.

(** The number of binary digits of a positive number. *)
Lemma digits2_pos_bounds (p : positive) :
  (2 ^ (Zpos (digits2_pos p) - 1) <= Zpos p < 2 ^ Zpos (digits2_pos p))%Z.
Proof.
  induction p as [p IH|p IH|]; simpl digits2_pos.
  - rewrite Pos2Z.inj_succ.
    replace (Z.succ (Zpos (digits2_pos p)) - 1)%Z
      with (Z.succ (Zpos (digits2_pos p) - 1)) by lia.
    rewrite !Z.pow_succ_r by lia. lia.
  - rewrite Pos2Z.inj_succ.
    replace (Z.succ (Zpos (digits2_pos p)) - 1)%Z
      with (Z.succ (Zpos (digits2_pos p) - 1)) by lia.
    rewrite !Z.pow_succ_r by lia. lia.
  - simpl. lia.
Qed.

Lemma Zdigits2_bounds (m : Z) :
  (0 < m)%Z -> (2 ^ (Zdigits2 m - 1) <= m < 2 ^ Zdigits2 m)%Z.
Proof.
  destruct m as [|p|p]; try lia. intros _. apply digits2_pos_bounds.
Qed.

Lemma Zdigits2_unique (m d : Z) :
  (2 ^ (d - 1) <= m < 2 ^ d)%Z -> (0 < d)%Z -> Zdigits2 m = d.
Proof.
  intros [Hlo Hhi] Hd.
  assert (Hm : (0 < m)%Z).
  { pose proof (Z.pow_pos_nonneg 2 (d - 1)). lia. }
  destruct (Zdigits2_bounds m Hm) as [Hlo' Hhi'].
  assert (Hdm : (0 < Zdigits2 m)%Z) by (destruct m; simpl; lia).
  destruct (Z.lt_trichotomy (Zdigits2 m) d) as [Hlt|[Heq|Hgt]];
    [|exact Heq|].
  - assert ((2 ^ Zdigits2 m <= 2 ^ (d - 1))%Z)
      by (apply Z.pow_le_mono_r; lia). lia.
  - assert ((2 ^ d <= 2 ^ (Zdigits2 m - 1))%Z)
      by (apply Z.pow_le_mono_r; lia). lia.
Qed.

(** One shift to the right keeps track of where the number lies. *)
Lemma shr_1_inbetween (x : Q) (mrs : shr_record) (e : Z) :
  (0 <= shr_m mrs)%Z ->
  inbetween x (shr_m mrs) e (loc_of_shr_record mrs) ->
  inbetween x (shr_m (shr_1 mrs)) (e + 1) (loc_of_shr_record (shr_1 mrs)) /\
  shr_m (shr_1 mrs) = (shr_m mrs / 2)%Z.
Proof.
  destruct mrs as [m r s]. simpl shr_m. intros Hm.
  pose proof (pow2_pos e) as Hp. pose proof (pow2_succ e) as Hs.
  destruct m as [|[p|p|]|p]; try lia.
  - (* 0 *)
    destruct r, s; cbn [shr_1 shr_m shr_r shr_s loc_of_shr_record orb inbetween]; rewrite ?Hs;
      change (inject_Z (0 + 1)) with 1; change (inject_Z 0) with 0;
      intros Hin; (split; [lra|reflexivity]).
  - (* 2p+1 *)
    assert (Hx : inject_Z (Zpos p~1) == 2 * inject_Z (Zpos p) + 1).
    { rewrite Pos2Z.inj_xI, inject_Z_plus, inject_Z_mult. reflexivity. }
    assert (Hx1 : inject_Z (Zpos p~1 + 1) == 2 * inject_Z (Zpos p) + 2).
    { rewrite inject_Z_plus, Hx. change (inject_Z 1) with 1. ring. }
    assert (Hx2 : inject_Z (Zpos p + 1) == inject_Z (Zpos p) + 1).
    { rewrite inject_Z_plus. reflexivity. }
    assert (Hd : Zpos p = (Zpos p~1 / 2)%Z).
    { rewrite Pos2Z.inj_xI. apply (Z.div_unique _ 2 _ 1); lia. }
    destruct r, s; cbn [shr_1 shr_m shr_r shr_s loc_of_shr_record orb inbetween];
      rewrite ?Hx, ?Hx1, ?Hx2, ?Hs; intros Hin; (split; [lra|exact Hd]).
  - (* 2p *)
    assert (Hx : inject_Z (Zpos p~0) == 2 * inject_Z (Zpos p)).
    { rewrite Pos2Z.inj_xO, inject_Z_mult. reflexivity. }
    assert (Hx1 : inject_Z (Zpos p~0 + 1) == 2 * inject_Z (Zpos p) + 1).
    { rewrite inject_Z_plus, Hx. reflexivity. }
    assert (Hx2 : inject_Z (Zpos p + 1) == inject_Z (Zpos p) + 1).
    { rewrite inject_Z_plus. reflexivity. }
    assert (Hd : Zpos p = (Zpos p~0 / 2)%Z).
    { rewrite Pos2Z.inj_xO. apply (Z.div_unique _ 2 _ 0); lia. }
    destruct r, s; cbn [shr_1 shr_m shr_r shr_s loc_of_shr_record orb inbetween];
      rewrite ?Hx, ?Hx1, ?Hx2, ?Hs; intros Hin; (split; [lra|exact Hd]).
  - (* 1 *)
    destruct r, s; cbn [shr_1 shr_m shr_r shr_s loc_of_shr_record orb inbetween]; rewrite ?Hs;
      change (inject_Z 1) with 1; change (inject_Z (1 + 1)) with 2;
      change (inject_Z (0 + 1)) with 1; change (inject_Z 0) with 0;
      intros Hin; (split; [lra|reflexivity]).
Qed.

Lemma shr_record_of_loc_spec (m : Z) (l : location) :
  shr_m (shr_record_of_loc m l) = m /\
  loc_of_shr_record (shr_record_of_loc m l) = l.
Proof. destruct l as [|[| |]]; split; reflexivity. Qed.

(** The state after [k] shifts of the mantissa [m0] that started at
    exponent [e]. *)
Lemma shr_1_step (x : Q) (m0 e k : Z) (mrs : shr_record) :
  (0 <= k)%Z ->
  (0 <= shr_m mrs)%Z /\ shr_m mrs = (m0 / 2 ^ k)%Z /\
  inbetween x (shr_m mrs) (e + k) (loc_of_shr_record mrs) ->
  (0 <= shr_m (shr_1 mrs))%Z /\ shr_m (shr_1 mrs) = (m0 / 2 ^ (k + 1))%Z /\
  inbetween x (shr_m (shr_1 mrs)) (e + (k + 1))
    (loc_of_shr_record (shr_1 mrs)).
Proof.
  intros Hk (Hm & Hdiv & Hin).
  destruct (shr_1_inbetween x mrs (e + k) Hm Hin) as [Hin' Hm'].
  split; [rewrite Hm'; apply Z.div_pos; lia|]. split.
  - rewrite Hm', Hdiv, Z.pow_add_r, Z.div_div by lia. reflexivity.
  - replace (e + (k + 1))%Z with (e + k + 1)%Z by lia. exact Hin'.
Qed.

Lemma iter_pos_shr_1 (x : Q) (m0 e : Z) (p : positive) :
  forall (k : Z) (mrs : shr_record),
    (0 <= k)%Z ->
    (0 <= shr_m mrs)%Z /\ shr_m mrs = (m0 / 2 ^ k)%Z /\
    inbetween x (shr_m mrs) (e + k) (loc_of_shr_record mrs) ->
    (0 <= shr_m (SpecFloat.iter_pos shr_1 p mrs))%Z /\
    shr_m (SpecFloat.iter_pos shr_1 p mrs) = (m0 / 2 ^ (k + Zpos p))%Z /\
    inbetween x (shr_m (SpecFloat.iter_pos shr_1 p mrs)) (e + (k + Zpos p))
      (loc_of_shr_record (SpecFloat.iter_pos shr_1 p mrs)).
Proof.
  induction p as [p IH|p IH|]; intros k mrs Hk Hst; simpl SpecFloat.iter_pos.
  - apply shr_1_step in Hst; [|exact Hk].
    apply IH in Hst; [|lia]. apply IH in Hst; [|lia].
    replace (k + Zpos p~1)%Z with (k + 1 + Zpos p + Zpos p)%Z by lia.
    exact Hst.
  - apply IH in Hst; [|lia]. apply IH in Hst; [|lia].
    replace (k + Zpos p~0)%Z with (k + Zpos p + Zpos p)%Z by lia.
    exact Hst.
  - apply shr_1_step; assumption.
Qed.

(** Shifting [n] places to the right divides the mantissa by [2^n] and
    keeps track of where the number lies. *)
Lemma shr_inbetween (x : Q) (m e n : Z) (l : location) :
  (0 <= m)%Z -> (0 <= n)%Z -> inbetween x m e l ->
  (shr (shr_record_of_loc m l) e n).2 = (e + n)%Z /\
  shr_m (shr (shr_record_of_loc m l) e n).1 = (m / 2 ^ n)%Z /\
  inbetween x (shr_m (shr (shr_record_of_loc m l) e n).1) (e + n)
    (loc_of_shr_record (shr (shr_record_of_loc m l) e n).1).
Proof.
  intros Hm Hn Hin.
  destruct (shr_record_of_loc_spec m l) as [Hsm Hsl].
  destruct n as [|p|p]; [| |lia]; cbn [shr fst snd].
  - rewrite Z.add_0_r, Hsm, Hsl, Z.pow_0_r, Z.div_1_r. auto.
  - destruct (iter_pos_shr_1 x m e p 0 (shr_record_of_loc m l))
      as (_ & Hd & Hi); [lia| |].
    + rewrite Hsm, Hsl, Z.pow_0_r, Z.div_1_r, Z.add_0_r. auto.
    + rewrite Z.add_0_l in Hd, Hi. auto.
Qed.

(** Rounding to nearest, ties to even: the mantissa stays or goes up by
    one, and ends within half a unit of the number. *)
Lemma round_nearest_even_spec (x : Q) (m e : Z) (l : location) :
  inbetween x m e l ->
  (round_nearest_even m l = m \/ round_nearest_even m l = (m + 1)%Z) /\
  Qabs (x - inject_Z (round_nearest_even m l) * pow2 e) <= (1 # 2) * pow2 e.
Proof.
  pose proof (pow2_pos e) as Hp.
  assert (Hx1 : inject_Z (m + 1) == inject_Z m + 1)
    by (rewrite inject_Z_plus; reflexivity).
  intros Hin. destruct l as [|[| |]]; cbn [inbetween round_nearest_even] in *.
  - split; [auto|]. apply Qabs_Qle_condition. lra.
  - destruct (Z.even m); (split; [auto|]); apply Qabs_Qle_condition;
      rewrite ?Hx1; lra.
  - split; [auto|]. apply Qabs_Qle_condition. lra.
  - split; [auto|]. rewrite Hx1 in *. apply Qabs_Qle_condition. lra.
Qed.

End Shifting.

Section Rounding.

Local Open Scope Q_scope.

(** What [binary_round_aux] returns for a number that is not too small and
    not too large: a float with 53 significant bits, within half a unit in
    its last place of the number. *)
Lemma binary_round_aux_spec (x : Q) (s : bool) (mx ex : Z) (lx : location) :
  (2 ^ 52 <= mx)%Z ->
  inbetween x mx ex lx ->
  (-1074 <= ex + Zdigits2 mx - 53 < 971)%Z ->
  exists m e,
    binary_round_aux 53 1024 s mx ex lx = S754_finite s m e /\
    (2 ^ 52 <= Zpos m < 2 ^ 53)%Z /\
    (ex + Zdigits2 mx - 53 <= e <= ex + Zdigits2 mx - 52)%Z /\
    Qabs (x - inject_Z (Zpos m) * pow2 e)
    <= (1 # 2) * pow2 (ex + Zdigits2 mx - 53).
Proof.
  intros Hmx Hin Hrange.
  assert (Hpos : (0 < mx)%Z) by lia.
  destruct (Zdigits2_bounds mx Hpos) as [Hlo Hhi].
  set (d := Zdigits2 mx) in *.
  assert (Hd : (53 <= d)%Z).
  { destruct (Z.le_gt_cases 53 d) as [Hle|Hgt]; [exact Hle|].
    assert ((2 ^ d <= 2 ^ 52)%Z) by (apply Z.pow_le_mono_r; lia). lia. }
  unfold binary_round_aux, shr_fexp. fold d.
  assert (Hf1 : (fexp 53 1024 (d + ex) - ex = d - 53)%Z)
    by (unfold fexp, emin; lia).
  rewrite Hf1.
  destruct (shr_inbetween x mx ex (d - 53) lx ltac:(lia) ltac:(lia) Hin)
    as (He1 & Hm1 & Hin1).
  destruct (shr (shr_record_of_loc mx lx) ex (d - 53)) as [mrs1 e1].
  cbn [fst snd] in He1, Hm1, Hin1. subst e1.
  set (m1 := shr_m mrs1) in *.
  assert (Hm1b : (2 ^ 52 <= m1 < 2 ^ 53)%Z).
  { rewrite Hm1. split.
    - apply Z.div_le_lower_bound; [apply Z.pow_pos_nonneg; lia|].
      rewrite <- Z.pow_add_r by lia.
      replace (d - 53 + 52)%Z with (d - 1)%Z by lia. exact Hlo.
    - apply Z.div_lt_upper_bound; [apply Z.pow_pos_nonneg; lia|].
      rewrite <- Z.pow_add_r by lia.
      replace (d - 53 + 53)%Z with d by lia. exact Hhi. }
  destruct (round_nearest_even_spec x m1 (ex + (d - 53))
              (loc_of_shr_record mrs1) Hin1) as [Hm2 Habs].
  set (m2 := round_nearest_even m1 (loc_of_shr_record mrs1)) in *.
  replace (ex + (d - 53))%Z with (ex + d - 53)%Z in * by lia.
  set (e1 := (ex + d - 53)%Z) in *.
  assert (Hm2b : (2 ^ 52 <= m2 <= 2 ^ 53)%Z) by lia.
  destruct (Z.eq_dec m2 (2 ^ 53)%Z) as [Heq|Hne].
  - (* the mantissa has gone up to 2^53: one more shift *)
    assert (Hd2 : Zdigits2 m2 = 54%Z) by (rewrite Heq; reflexivity).
    rewrite Hd2.
    assert (Hf2 : (fexp 53 1024 (54 + e1) - e1 = 1)%Z)
      by (unfold fexp, emin; lia).
    rewrite Hf2, Heq. cbn [shr_record_of_loc shr].
    change (shr_m (SpecFloat.iter_pos shr_1 1
                     {| shr_m := (2 ^ 53)%Z; shr_r := false; shr_s := false |}))
      with (Zpos (2 ^ 52)%positive).
    cbv beta iota.
    assert (Hle : (e1 + 1 <=? 1024 - 53)%Z = true) by (apply Z.leb_le; lia).
    rewrite Hle.
    exists (2 ^ 52)%positive, (e1 + 1)%Z.
    split; [reflexivity|]. split; [simpl; lia|]. split; [lia|].
    rewrite Heq in Habs.
    assert (Hv : inject_Z (Zpos (2 ^ 52)%positive) * pow2 (e1 + 1)
                 == inject_Z (2 ^ 53)%Z * pow2 e1).
    { rewrite pow2_succ.
      change (inject_Z (2 ^ 53)%Z) with (2 * inject_Z (Zpos (2 ^ 52)%positive)).
      ring. }
    rewrite Hv. exact Habs.
  - assert (Hd2 : Zdigits2 m2 = 53%Z)
      by (apply Zdigits2_unique; simpl; lia).
    rewrite Hd2.
    assert (Hf2 : (fexp 53 1024 (53 + e1) - e1 = 0)%Z)
      by (unfold fexp, emin; lia).
    rewrite Hf2. cbn [shr shr_record_of_loc shr_m].
    destruct m2 as [|p|p]; try (simpl in Hm2b; lia).
    assert (Hle : (e1 <=? 1024 - 53)%Z = true) by (apply Z.leb_le; lia).
    rewrite Hle.
    exists p, e1. split; [reflexivity|]. split; [lia|]. split; [lia|].
    exact Habs.
Qed.

(** Where the quotient lies after the integer division by [q] has left the
    remainder [r]. *)
Lemma new_location_inbetween (x : Q) (mz r q e : Z) :
  (0 < q)%Z -> (0 <= r < q)%Z ->
  x * inject_Z q == inject_Z (mz * q + r) * pow2 e ->
  inbetween x mz e (new_location q r).
Proof.
  intros Hq Hr Hx.
  pose proof (pow2_pos e) as Hp.
  assert (HQ : inject_Z 0 < inject_Z q) by (rewrite <- Zlt_Qlt; exact Hq).
  change (inject_Z 0) with 0 in HQ.
  rewrite inject_Z_plus, inject_Z_mult in Hx.
  assert (Hmul : forall a b : Q, a * inject_Z q < b * inject_Z q -> a < b).
  { intros a b Hab. apply (Qmult_lt_r _ _ (inject_Z q) HQ). exact Hab. }
  assert (Heqv : forall a : Q, x * inject_Z q == a * inject_Z q -> x == a).
  { intros a Ha. apply (Qmult_inj_r _ _ (inject_Z q)); [lra|exact Ha]. }
  assert (Hone : inject_Z (mz + 1) == inject_Z mz + 1)
    by (rewrite inject_Z_plus; reflexivity).
  assert (Hlt : forall a b : Z, (a < b)%Z -> inject_Z a * pow2 e
                                              < inject_Z b * pow2 e).
  { intros a b Hab. rewrite Zlt_Qlt in Hab. nra. }
  assert (Hcases :
    (r = 0%Z /\ new_location q r = loc_Exact) \/
    ((0 < 2 * r < q)%Z /\ new_location q r = loc_Inexact Lt) \/
    ((2 * r = q)%Z /\ new_location q r = loc_Inexact Eq) \/
    ((q < 2 * r)%Z /\ new_location q r = loc_Inexact Gt)).
  { unfold new_location, new_location_even, new_location_odd.
    destruct (Z.even q) eqn:Hev; destruct (Z.eqb_spec r 0) as [->|Hr0].
    - left. split; reflexivity.
    - right. destruct (Z.compare_spec (2 * r) q) as [Hc|Hc|Hc].
      + right. left. split; [lia|reflexivity].
      + left. split; [lia|reflexivity].
      + right. right. split; [lia|reflexivity].
    - left. split; reflexivity.
    - right.
      assert (Hodd : (2 * r <> q)%Z).
      { intros Heq. rewrite <- Heq, Z.even_mul in Hev. discriminate. }
      destruct (Z.compare_spec (2 * r + 1) q) as [Hc|Hc|Hc].
      + left. split; [lia|reflexivity].
      + left. split; [lia|reflexivity].
      + right. right. split; [lia|reflexivity]. }
  destruct Hcases as [[-> ->]|[[Hc ->]|[[Hc ->]|[Hc ->]]]];
    cbn [inbetween].
  - apply Heqv. rewrite Hx. change (inject_Z 0) with 0. ring.
  - pose proof (Hlt 0%Z r ltac:(lia)) as H1.
    pose proof (Hlt (2 * r)%Z q ltac:(lia)) as H2.
    rewrite inject_Z_mult in H2. change (inject_Z 0) with 0 in H1.
    change (inject_Z 2) with 2 in H2.
    split; apply Hmul; rewrite Hx; lra.
  - apply Heqv. rewrite Hx. rewrite <- Hc, inject_Z_mult.
    change (inject_Z 2) with 2. ring.
  - pose proof (Hlt q (2 * r)%Z ltac:(lia)) as H1.
    pose proof (Hlt r q ltac:(lia)) as H2.
    rewrite inject_Z_mult in H1. change (inject_Z 2) with 2 in H1.
    rewrite Hone.
    split; apply Hmul; rewrite Hx; lra.
Qed.

Lemma Zdigits2_range (p : positive) :
  (Zpos p < 2 ^ 1000)%Z -> (1 <= Zdigits2 (Zpos p) <= 1000)%Z.
Proof.
  intros Hp. destruct (digits2_pos_bounds p) as [Hlo Hhi]. simpl Zdigits2.
  split; [lia|].
  destruct (Z.le_gt_cases (Zpos (digits2_pos p)) 1000) as [Hle|Hgt];
    [exact Hle|].
  assert ((2 ^ 1000 <= 2 ^ (Zpos (digits2_pos p) - 1))%Z)
    by (apply Z.pow_le_mono_r; lia). lia.
Qed.

(** The quotient of two positive integers below [2^1000], as [SFdiv]
    computes it, is a correct rounding of the exact quotient. *)
Lemma SFdiv_pos_rounds (p q : positive) :
  (Zpos p < 2 ^ 1000)%Z -> (Zpos q < 2 ^ 1000)%Z ->
  rounds (Zpos p # q)
    (SFdiv 53 1024 (S754_finite false p 0) (S754_finite false q 0)).
Proof.
  intros Hp Hq.
  destruct (Zdigits2_range p Hp) as [Hd1 Hd1'].
  destruct (Zdigits2_range q Hq) as [Hd2 Hd2'].
  destruct (Zdigits2_bounds (Zpos p) ltac:(lia)) as [Hplo Hphi].
  destruct (Zdigits2_bounds (Zpos q) ltac:(lia)) as [Hqlo Hqhi].
  unfold SFdiv, SFdiv_core_binary.
  set (d1 := Zdigits2 (Zpos p)) in *. set (d2 := Zdigits2 (Zpos q)) in *.
  set (e' := Z.min (fexp 53 1024 (d1 + 0 - (d2 + 0))) (0 - 0)).
  assert (He' : e' = Z.min (d1 - d2 - 53) 0)
    by (unfold e', fexp, emin; lia).
  set (sh := (0 - 0 - e')%Z).
  assert (Hsh : (0 <= sh /\ 53 - d1 + d2 <= sh /\ sh <= 1052)%Z)
    by (unfold sh; lia).
  assert (Hm' : match sh with
                | 0%Z => Zpos p
                | Zpos _ => Z.shiftl (Zpos p) sh
                | Zneg _ => 0%Z
                end = (Zpos p * 2 ^ sh)%Z).
  { destruct sh as [|k|k] eqn:E; [lia| |lia].
    rewrite Z.shiftl_mul_pow2 by lia. reflexivity. }
  rewrite Hm'.
  pose proof (Z_div_mod (Zpos p * 2 ^ sh) (Zpos q) ltac:(lia)) as Hdm.
  destruct (Z.div_eucl (Zpos p * 2 ^ sh) (Zpos q)) as [mz r].
  destruct Hdm as [Hdm Hr].
  assert (Hpow : (0 < 2 ^ sh)%Z) by (apply Z.pow_pos_nonneg; lia).
  (* the mantissa has at least 53 bits *)
  assert (Hmz : (2 ^ 52 <= mz)%Z).
  { assert (Hbig : (2 ^ 52 * Zpos q <= Zpos p * 2 ^ sh)%Z).
    { assert (H1 : (2 ^ (52 + d2) <= 2 ^ (d1 - 1 + sh))%Z)
        by (apply Z.pow_le_mono_r; lia).
      rewrite !Z.pow_add_r in H1 by lia. nia. }
    nia. }
  (* and not too many *)
  assert (Hmz' : (mz < 2 ^ (d1 + sh - d2 + 1))%Z).
  { assert (H1 : (2 ^ (d1 + sh - d2 + 1) * 2 ^ (d2 - 1) = 2 ^ d1 * 2 ^ sh)%Z).
    { rewrite <- !Z.pow_add_r by lia. f_equal. lia. }
    assert (H2 : (0 < 2 ^ (d2 - 1))%Z) by (apply Z.pow_pos_nonneg; lia).
    nia. }
  destruct (Zdigits2_bounds mz ltac:(lia)) as [Hzlo Hzhi].
  set (dz := Zdigits2 mz) in *.
  assert (Hdz : (53 <= dz <= d1 + sh - d2 + 1)%Z).
  { split.
    - destruct (Z.le_gt_cases 53 dz) as [Hle|Hgt]; [exact Hle|].
      assert ((2 ^ dz <= 2 ^ 52)%Z) by (apply Z.pow_le_mono_r; lia). lia.
    - destruct (Z.le_gt_cases dz (d1 + sh - d2 + 1)) as [Hle|Hgt];
        [exact Hle|].
      assert ((2 ^ (d1 + sh - d2 + 1) <= 2 ^ (dz - 1))%Z)
        by (apply Z.pow_le_mono_r; lia). lia. }
  (* where the exact quotient lies *)
  assert (Hx : (Zpos p # q) * inject_Z (Zpos q)
               == inject_Z (mz * Zpos q + r) * pow2 e').
  { replace (mz * Zpos q + r)%Z with (Zpos p * 2 ^ sh)%Z by lia.
    rewrite inject_Z_mult, <- (pow2_Z sh) by lia.
    assert (H1 : pow2 sh * pow2 e' == 1).
    { rewrite <- pow2_add. replace (sh + e')%Z with 0%Z by (unfold sh; lia).
      reflexivity. }
    rewrite (Qmake_Qdiv (Zpos p) q).
    transitivity (inject_Z (Zpos p) * (pow2 sh * pow2 e')); [|ring].
    rewrite H1. field. discriminate. }
  pose proof (new_location_inbetween (Zpos p # q) mz r (Zpos q) e'
                ltac:(lia) Hr Hx) as Hin.
  destruct (binary_round_aux_spec (Zpos p # q) (xorb false false) mz e'
              (new_location (Zpos q) r) Hmz Hin)
    as (m & e & Hres & Hm & He & Habs).
  { fold dz. unfold sh in *. lia. }
  rewrite Hres. cbn [xorb rounds float_value]. fold dz in He, Habs.
  split; [reflexivity|]. split; [reflexivity|]. split; [exact Hm|].
  split; [unfold sh in *; lia|].
  eapply Qle_trans.
  - assert (Heq : (Zpos p # q) - 1 * inject_Z (Zpos m) * pow2 e
                  == (Zpos p # q) - inject_Z (Zpos m) * pow2 e) by ring.
    rewrite Heq. exact Habs.
  - rewrite <- pow2_pred. apply pow2_le. lia.
Qed.

(** The product of two positive normal floats, as [SFmul] computes it, is
    a correct rounding of the exact product, as long as it stays in
    range. *)
Lemma SFmul_pos_rounds (m1 m2 : positive) (e1 e2 : Z) :
  (2 ^ 52 <= Zpos m1 < 2 ^ 53)%Z -> (2 ^ 52 <= Zpos m2 < 2 ^ 53)%Z ->
  (-1074 <= e1 + e2 + 52)%Z -> (e1 + e2 + 53 < 971)%Z ->
  rounds (float_value (S754_finite false m1 e1)
          * float_value (S754_finite false m2 e2))
    (SFmul 53 1024 (S754_finite false m1 e1) (S754_finite false m2 e2)).
Proof.
  intros Hm1 Hm2 Hlo Hhi. cbn [SFmul float_value].
  set (mz := Zpos (m1 * m2)).
  assert (Hmz : (2 ^ 104 <= mz < 2 ^ 106)%Z).
  { unfold mz. rewrite Pos2Z.inj_mul.
    change (2 ^ 104)%Z with (2 ^ 52 * 2 ^ 52)%Z.
    change (2 ^ 106)%Z with (2 ^ 53 * 2 ^ 53)%Z. nia. }
  destruct (Zdigits2_bounds mz ltac:(lia)) as [Hzlo Hzhi].
  assert (Hdz : (105 <= Zdigits2 mz <= 106)%Z).
  { split.
    - destruct (Z.le_gt_cases 105 (Zdigits2 mz)) as [Hle|Hgt]; [exact Hle|].
      assert ((2 ^ Zdigits2 mz <= 2 ^ 104)%Z)
        by (apply Z.pow_le_mono_r; lia). lia.
    - destruct (Z.le_gt_cases (Zdigits2 mz) 106) as [Hle|Hgt]; [exact Hle|].
      assert ((2 ^ 106 <= 2 ^ (Zdigits2 mz - 1))%Z)
        by (apply Z.pow_le_mono_r; lia). lia. }
  assert (Hx : 1 * inject_Z (Zpos m1) * pow2 e1
               * (1 * inject_Z (Zpos m2) * pow2 e2)
               == inject_Z mz * pow2 (e1 + e2)).
  { unfold mz. rewrite Pos2Z.inj_mul, inject_Z_mult, pow2_add. ring. }
  assert (Hin : inbetween (1 * inject_Z (Zpos m1) * pow2 e1
                           * (1 * inject_Z (Zpos m2) * pow2 e2))
                  mz (e1 + e2) loc_Exact) by exact Hx.
  destruct (binary_round_aux_spec _ (xorb false false) mz (e1 + e2)
              loc_Exact ltac:(lia) Hin ltac:(lia))
    as (m & e & Hres & Hm & He & Habs).
  rewrite Hres. cbn [xorb rounds float_value].
  split; [reflexivity|]. split.
  { pose proof (pow2_pos e1). pose proof (pow2_pos e2).
    assert (0 < inject_Z (Zpos m1)) by reflexivity.
    assert (0 < inject_Z (Zpos m2)) by reflexivity.
    rewrite !Qmult_1_l.
    repeat apply Qmult_lt_0_compat; assumption. }
  split; [exact Hm|]. split; [lia|].
  eapply Qle_trans.
  - rewrite (Qmult_1_l (inject_Z (Zpos m))). exact Habs.
  - rewrite <- pow2_pred. apply pow2_le. lia.
Qed.

(** The exponent of a correct rounding of a number that is at most
    [2^u]. *)
Lemma rounds_exponent (r : Q) (s : bool) (m : positive) (e u : Z) :
  rounds r (S754_finite s m e) -> r <= pow2 u -> (e <= u - 52)%Z.
Proof.
  intros (_ & Hr & Hm & _ & Habs) Hu. cbn [float_value] in Habs.
  destruct (Z.le_gt_cases e (u - 52)) as [Hle|Hgt]; [exact Hle|exfalso].
  assert (Hp : pow2 (u - 51) <= pow2 e) by (apply pow2_le; lia).
  assert (Hu' : pow2 u == inject_Z (2 ^ 51) * pow2 (u - 51)).
  { rewrite <- (pow2_Z 51), <- pow2_add by lia.
    replace (51 + (u - 51))%Z with u by lia. reflexivity. }
  apply Qabs_Qle_condition in Habs. rewrite pow2_pred in Habs.
  pose proof (pow2_pos e) as He. pose proof (pow2_pos (u - 51)) as He'.
  assert (Hm' : inject_Z (2 ^ 52) * pow2 e <= inject_Z (Zpos m) * pow2 e).
  { apply Qmult_le_compat_r; [|lra]. rewrite <- Zle_Qle. lia. }
  change (inject_Z (2 ^ 52)) with (2 * inject_Z (2 ^ 51)) in Hm'.
  assert (H51 : 1 <= inject_Z (2 ^ 51)) by (vm_compute; discriminate).
  destruct s; nra.
Qed.

Lemma rounds_Qeq (r r' : Q) (x : spec_float) :
  r == r' -> rounds r x -> rounds r' x.
Proof.
  intros Heq. destruct x as [s| | |s m e]; cbn [rounds]; try tauto.
  - intros [Hs Hr]. split; [exact Hs|]. rewrite <- Heq. exact Hr.
  - intros (Hs & Hr & Hm & He & Habs). rewrite <- Heq.
    repeat split; try assumption; lia.
Qed.

(** The error of a correct rounding of a number that is at most [2^u]. *)
Lemma rounds_error (r : Q) (x : spec_float) (u : Z) :
  rounds r x -> r <= pow2 u ->
  0 <= float_value x /\ Qabs (r - float_value x) <= pow2 (u - 53).
Proof.
  intros Hr Hu. destruct x as [s| | |s m e]; try contradiction.
  - destruct Hr as [_ Hr]. cbn [float_value]. split; [lra|].
    rewrite Hr. pose proof (pow2_pos (u - 53)).
    apply Qabs_Qle_condition. lra.
  - pose proof (rounds_exponent r s m e u Hr Hu) as He.
    destruct Hr as (-> & _ & _ & _ & Habs). split.
    + cbn [float_value]. pose proof (pow2_pos e).
      assert (0 < inject_Z (Zpos m)) by reflexivity. nra.
    + eapply Qle_trans; [exact Habs|]. apply pow2_le. lia.
Qed.

(** [a / b] for two integers, [0 <= a] and [0 < b]. *)
Lemma truediv_int_rounds (a b : Z) :
  (0 <= a < 2 ^ 1000)%Z -> (0 < b < 2 ^ 1000)%Z ->
  exists q,
    PyFloat.truediv_int a b = Py.Returns q /\
    rounds (inject_Z a / inject_Z b) q.
Proof.
  intros Ha Hb. destruct b as [|pb|pb]; try lia.
  destruct a as [|pa|pa]; try lia; cbn [PyFloat.truediv_int].
  - eexists. split; [reflexivity|]. split; [reflexivity|].
    unfold Qdiv. apply Qmult_0_l.
  - eexists. split; [reflexivity|].
    apply (rounds_Qeq (Zpos pa # pb)); [apply Qmake_Qdiv|].
    apply SFdiv_pos_rounds; lia.
Qed.

(** [x * 100] for a float that rounds a number up to 2. *)
Lemma mul_int_100_rounds (r : Q) (x : spec_float) :
  rounds r x -> r <= 2 ->
  rounds (100 * float_value x) (PyFloat.mul_int x 100).
Proof.
  intros Hr Hle. unfold PyFloat.mul_int.
  assert (H100 : PyFloat.of_int 100
                 = S754_finite false 7036874417766400 (-46))
    by (vm_compute; reflexivity).
  rewrite H100. destruct x as [s| | |s m e]; try contradiction.
  - destruct Hr as [-> _]. cbn [SFmul xorb rounds float_value].
    split; [reflexivity|]. ring.
  - assert (He : (e <= 1 - 52)%Z)
      by (apply (rounds_exponent r s m e 1 Hr); exact Hle).
    destruct Hr as (-> & _ & Hm & Hrange & _).
    eapply rounds_Qeq; [|apply SFmul_pos_rounds; try exact Hm; try lia].
    cbn [float_value].
    assert (Hc : inject_Z 7036874417766400 * pow2 (-46) == 100)
      by reflexivity.
    transitivity (1 * inject_Z (Zpos m) * pow2 e
                  * (inject_Z 7036874417766400 * pow2 (-46))); [ring|].
    rewrite Hc. ring.
Qed.

Lemma round_half_even_nonneg (num den : Z) :
  (0 <= num)%Z -> (0 < den)%Z -> (0 <= PyFloat.round_half_even num den)%Z.
Proof.
  intros Hn Hd. unfold PyFloat.round_half_even.
  assert ((0 <= num / den)%Z) by (apply Z.div_pos; lia).
  destruct (2 * (num mod den) ?= den)%Z; [destruct (Z.even _)| |]; lia.
Qed.

(** On a tie the even neighbour is taken. *)
Lemma round_half_even_tie (num den : Z) :
  (0 < den)%Z ->
  Z.abs (2 * num - 2 * PyFloat.round_half_even num den * den) = den ->
  Z.even (PyFloat.round_half_even num den) = true.
Proof.
  intros Hden. unfold PyFloat.round_half_even.
  pose proof (Z.div_mod num den ltac:(lia)) as Hdm.
  pose proof (Z.mod_pos_bound num den Hden) as Hr.
  set (q := (num / den)%Z) in *. set (r := (num mod den)%Z) in *.
  destruct (Z.compare_spec (2 * r) den) as [Heq|Hlt|Hgt].
  - destruct (Z.even q) eqn:Hev; [auto|]. intros _.
    rewrite Z.even_add, Hev. reflexivity.
  - intros Habs. exfalso. nia.
  - intros Habs. exfalso. nia.
Qed.

(** [round(x, 1)] for a float that rounds a number up to 128: the decimal
    [n / 10] nearest to the float (the even [n] on a tie), turned into the
    float that rounds it. *)
Lemma round_1_rounds (r : Q) (x : spec_float) :
  rounds r x -> r <= 128 ->
  exists n,
    PyFloat.round x 1 = PyFloat.of_decimal false n 1 /\
    (0 <= n)%Z /\
    Qabs (10 * float_value x - inject_Z n) <= 1 # 2 /\
    (Qabs (10 * float_value x - inject_Z n) == 1 # 2 -> Z.even n = true) /\
    rounds (inject_Z n / 10) (PyFloat.of_decimal false n 1).
Proof.
  intros Hr Hle.
  assert (H128 : r <= pow2 7) by (change (pow2 7) with 128; exact Hle).
  destruct x as [s| | |s m e]; try contradiction.
  - destruct Hr as [-> _]. exists 0%Z. cbn [PyFloat.round float_value].
    split; [reflexivity|]. split; [lia|].
    assert (Hz : 10 * 0 - inject_Z 0 == 0) by reflexivity.
    split; [rewrite Hz; discriminate|]. split; [reflexivity|].
    split; reflexivity.
  - pose proof (rounds_exponent r s m e 7 Hr H128) as He.
    destruct (rounds_error r _ 7 Hr H128) as [_ Herr].
    destruct Hr as (-> & Hrpos & Hm & Hrange & _).
    cbn [PyFloat.round float_value] in *.
    change (10 ^ Z.of_nat 1)%Z with 10%Z.
    unfold PyFloat.nearest_integer.
    destruct (Z.leb_spec 0 e) as [Hge|Hlt]; [lia|].
    set (den := (2 ^ (- e))%Z).
    assert (Hden : (0 < den)%Z) by (apply Z.pow_pos_nonneg; lia).
    set (n := PyFloat.round_half_even (Zpos m * 10) den).
    pose proof (round_half_even_nearest (Zpos m * 10) den Hden) as Hnear.
    pose proof (round_half_even_tie (Zpos m * 10) den Hden) as Htie.
    pose proof (round_half_even_nonneg (Zpos m * 10) den ltac:(lia) Hden)
      as Hn0.
    fold n in Hnear, Htie, Hn0.
    (* from integers to rationals *)
    assert (Hpe : inject_Z den * pow2 e == 1).
    { unfold den. rewrite <- pow2_Z, <- pow2_add by lia.
      replace (- e + e)%Z with 0%Z by lia. reflexivity. }
    pose proof (pow2_pos e) as Hpos.
    assert (Hdiff : 10 * (1 * inject_Z (Zpos m) * pow2 e) - inject_Z n
                    == (1 # 2) * pow2 e
                       * inject_Z (2 * (Zpos m * 10) - 2 * n * den)).
    { unfold Zminus. rewrite inject_Z_plus, inject_Z_opp, !inject_Z_mult.
      change (inject_Z 2) with 2. change (inject_Z 10) with 10.
      transitivity (10 * inject_Z (Zpos m) * pow2 e
                    - inject_Z n * (inject_Z den * pow2 e)); [|ring].
      rewrite Hpe. ring. }
    assert (Habs : Qabs (10 * (1 * inject_Z (Zpos m) * pow2 e) - inject_Z n)
                   == (1 # 2) * pow2 e
                      * inject_Z (Z.abs (2 * (Zpos m * 10) - 2 * n * den))).
    { rewrite Hdiff, Qabs_Qmult, Qabs_pos by lra. reflexivity. }
    assert (Hhalf : Qabs (10 * (1 * inject_Z (Zpos m) * pow2 e) - inject_Z n)
                    <= 1 # 2).
    { rewrite Habs. rewrite Zle_Qle in Hnear. nra. }
    assert (Hn1 : (n < 2 ^ 1000)%Z).
    { apply Qabs_Qle_condition in Hhalf, Herr.
      change (pow2 (7 - 53)) with (1 # 70368744177664) in Herr.
      assert (Hq : inject_Z n <= inject_Z 1300) by (change (inject_Z 1300) with 1300; lra).
      rewrite <- Zle_Qle in Hq.
      assert ((1300 < 2 ^ 1000)%Z) by reflexivity. lia. }
    exists n. split; [reflexivity|]. split; [exact Hn0|].
    split; [exact Hhalf|]. split.
    { intros Heq. apply Htie. rewrite Habs in Heq.
      assert (Hz : inject_Z (Z.abs (2 * (Zpos m * 10) - 2 * n * den))
                   == inject_Z den).
      { apply (Qmult_inj_l _ _ ((1 # 2) * pow2 e)); [lra|].
        rewrite Heq.
        transitivity ((1 # 2) * (inject_Z den * pow2 e)); [|ring].
        rewrite Hpe. reflexivity. }
      exact (proj1 (inject_Z_injective _ _) Hz). }
    unfold PyFloat.of_decimal. destruct n as [|pn|pn] eqn:En; [| |lia].
    + split; [reflexivity|]. reflexivity.
    + change (Z.to_pos (10 ^ Z.of_nat 1)) with 10%positive.
      apply (rounds_Qeq (Zpos pn # 10)).
      * rewrite (Qmake_Qdiv (Zpos pn) 10). reflexivity.
      * apply SFdiv_pos_rounds; [lia|reflexivity].
Qed.

(** The whole computation of the rate from the two counts. *)
Lemma success_rate_rounds (a b : Z) :
  (0 <= a <= b)%Z -> (0 < b < 2 ^ 1000)%Z ->
  exists q n,
    PyFloat.truediv_int a b = Py.Returns q /\
    rounds (inject_Z a / inject_Z b) q /\
    rounds (100 * float_value q) (PyFloat.mul_int q 100) /\
    (0 <= n <= 1000)%Z /\
    Qabs (10 * float_value (PyFloat.mul_int q 100) - inject_Z n) <= 1 # 2 /\
    (Qabs (10 * float_value (PyFloat.mul_int q 100) - inject_Z n) == 1 # 2 ->
     Z.even n = true) /\
    PyFloat.round (PyFloat.mul_int q 100) 1 = PyFloat.of_decimal false n 1 /\
    rounds (inject_Z n / 10) (PyFloat.of_decimal false n 1) /\
    Qabs (float_value (PyFloat.of_decimal false n 1)
          - 100 * (inject_Z a / inject_Z b))
    <= (1 # 20) + pow2 (-44).
Proof.
  intros Ha Hb.
  destruct (truediv_int_rounds a b ltac:(lia) Hb) as (q & Hq & Hrq).
  set (x := inject_Z a / inject_Z b) in *.
  assert (HB : 0 < inject_Z b).
  { change 0 with (inject_Z 0). rewrite <- Zlt_Qlt. lia. }
  assert (Hx : 0 <= x <= 1).
  { assert (HA0 : 0 <= inject_Z a)
      by (change 0 with (inject_Z 0); rewrite <- Zle_Qle; lia).
    assert (HAB : inject_Z a <= inject_Z b) by (rewrite <- Zle_Qle; lia).
    split.
    - unfold x. apply Qle_shift_div_l; [exact HB|]. lra.
    - unfold x. apply Qle_shift_div_r; [exact HB|]. lra. }
  destruct (rounds_error x q 0 Hrq) as [Hq0 Hqe];
    [change (pow2 0) with 1; lra|].
  change (pow2 (0 - 53)) with (1 # 9007199254740992) in Hqe.
  apply Qabs_Qle_condition in Hqe.
  pose proof (mul_int_100_rounds x q Hrq ltac:(lra)) as Hrp.
  set (p := PyFloat.mul_int q 100) in *.
  assert (Hp128 : 100 * float_value q <= 128) by lra.
  destruct (rounds_error _ p 7 Hrp) as [Hp0 Hpe];
    [change (pow2 7) with 128; exact Hp128|].
  change (pow2 (7 - 53)) with (1 # 70368744177664) in Hpe.
  apply Qabs_Qle_condition in Hpe.
  destruct (round_1_rounds _ p Hrp Hp128)
    as (n & Hround & Hn0 & Hhalf & Htie & Hrr).
  pose proof Hhalf as Hhalf'. apply Qabs_Qle_condition in Hhalf'.
  assert (Hn : (n <= 1000)%Z).
  { assert (Hlt : inject_Z n < inject_Z 1001)
      by (change (inject_Z 1001) with 1001; lra).
    rewrite <- Zlt_Qlt in Hlt. lia. }
  set (y := inject_Z n / 10) in *.
  assert (Hy : 10 * y == inject_Z n) by (unfold y; field).
  assert (HN : inject_Z n <= 1000).
  { change 1000 with (inject_Z 1000). rewrite <- Zle_Qle. exact Hn. }
  destruct (rounds_error y _ 7 Hrr) as [Hr0 Hre];
    [change (pow2 7) with 128; lra|].
  change (pow2 (7 - 53)) with (1 # 70368744177664) in Hre.
  apply Qabs_Qle_condition in Hre.
  exists q, n.
  split; [exact Hq|]. split; [exact Hrq|]. split; [exact Hrp|].
  split; [lia|]. split; [exact Hhalf|]. split; [exact Htie|].
  split; [exact Hround|]. split; [exact Hrr|].
  change (pow2 (-44)) with (1 # 17592186044416).
  apply Qabs_Qle_condition. lra.
Qed.

End Rounding.

(** C8.  [get_stats] always returns.  Its [successful_commands] counts the
    commands whose exit code is exactly 0, its [failed_commands] those whose
    exit code is present and not 0, so a command without exit code is in
    neither.  Its [success_rate] is the integer 0 when there is no command;
    otherwise it is [round(successful / total * 100, 1)] in floats.  For
    fewer than [2^1000] commands, each step is a correct rounding: the
    quotient is the float that rounds successful / total, the product the
    float that rounds 100 times the quotient, and the rate the float that
    rounds [n / 10], where [n], from 0 to 1000, is the integer nearest to
    10 times the product (the even one on a tie).  The rate so differs from
    the exact percentage by at most 0.05 and [2^-44]. *)
Theorem get_stats_success_rate (f : db_file) (db : DB) :
  exists st,
    get_stats f db = Py.Returns st /\
    total_commands st = Z.of_nat (length (commands db)) /\
    successful_commands st
    = Z.of_nat (length (filter (fun c => cmd_exit_code c = Some 0)
                          (commands db))) /\
    failed_commands st
    = Z.of_nat (length (filter (fun c => cmd_exit_code c <> None /\
                                         cmd_exit_code c <> Some 0)
                          (commands db))) /\
    successful_commands st + failed_commands st
    + Z.of_nat (length (filter (fun c => cmd_exit_code c = None)
                          (commands db)))
    = total_commands st /\
    (total_commands st = 0 -> success_rate st = Int 0) /\
    (0 < total_commands st ->
     exists q,
       PyFloat.truediv_int (successful_commands st) (total_commands st)
       = Py.Returns q /\
       success_rate st = Float (PyFloat.round (PyFloat.mul_int q 100) 1)) /\
    (0 < total_commands st < 2 ^ 1000 ->
     exists q n,
       PyFloat.truediv_int (successful_commands st) (total_commands st)
       = Py.Returns q /\
       rounds (inject_Z (successful_commands st)
               / inject_Z (total_commands st))%Q q /\
       rounds (100 * float_value q)%Q (PyFloat.mul_int q 100) /\
       0 <= n <= 1000 /\
       (Qabs (10 * float_value (PyFloat.mul_int q 100) - inject_Z n)
        <= 1 # 2)%Q /\
       ((Qabs (10 * float_value (PyFloat.mul_int q 100) - inject_Z n)
         == 1 # 2)%Q -> Z.even n = true) /\
       success_rate st = Float (PyFloat.of_decimal false n 1) /\
       rounds (inject_Z n / 10)%Q (PyFloat.of_decimal false n 1) /\
       (Qabs (float_value (PyFloat.of_decimal false n 1)
              - 100 * (inject_Z (successful_commands st)
                       / inject_Z (total_commands st)))
        <= (1 # 20) + pow2 (-44))%Q).
Proof.
  unfold get_stats.
  assert (Hsize : exists size_kb,
    match db_size f with
    | Some sz =>
        Py.bind (PyFloat.truediv_int sz 1024)
          (fun q => Py.Returns (Float (PyFloat.round q 2)))
    | None => Py.Returns (Int 0)
    end = Py.Returns size_kb).
  { destruct (db_size f) as [sz|]; [|eauto].
    destruct (truediv_int_returns sz 1024 ltac:(lia)) as [q ->].
    simpl. eauto. }
  destruct Hsize as [size_kb ->].
  pose proof (exit_code_partition (commands db)) as Hpart.
  assert (Hz : count_exit_zero db
               = Z.of_nat (length (filter (fun c => cmd_exit_code c = Some 0)
                                     (commands db)))).
  { unfold count_exit_zero. rewrite count_exit_zero_spec. reflexivity. }
  assert (Hnz : count_exit_nonzero db
                = Z.of_nat (length (filter (fun c => cmd_exit_code c <> None /\
                                                    cmd_exit_code c <> Some 0)
                                      (commands db)))).
  { unfold count_exit_nonzero. rewrite count_exit_nonzero_spec. reflexivity. }
  destruct (Z.ltb_spec 0 (Z.of_nat (length (commands db)))) as [Hpos|Hzero].
  - destruct (truediv_int_returns (count_exit_zero db)
                (Z.of_nat (length (commands db))) ltac:(lia)) as [q Hq].
    rewrite Hq. cbn [Py.bind].
    eexists. split; [reflexivity|]. cbn [total_commands successful_commands
      failed_commands success_rate].
    split; [reflexivity|]. split; [exact Hz|]. split; [exact Hnz|].
    split; [rewrite Hz, Hnz; lia|]. split; [lia|]. split.
    + intros _. exists q. split; [exact Hq|reflexivity].
    + intros [_ Hbound].
      destruct (success_rate_rounds (count_exit_zero db)
                  (Z.of_nat (length (commands db))))
        as (q' & n & Hq' & Hrq & Hrp & Hn & Hhalf & Htie & Hround & Hrr
            & Herr); [rewrite Hz; lia|lia|].
      rewrite Hq in Hq'. injection Hq' as <-.
      exists q, n. rewrite Hround. repeat split; try assumption; lia.
  - cbn [Py.bind].
    eexists. split; [reflexivity|]. cbn [total_commands successful_commands
      failed_commands success_rate].
    split; [reflexivity|]. split; [exact Hz|]. split; [exact Hnz|].
    split; [rewrite Hz, Hnz; lia|]. split; [reflexivity|]. split; lia.
Qed.

(** [test_get_stats]: four successes out of five commands give 80.0. *)
Example get_stats_four_of_five :
  exists st,
    get_stats {| db_path := "/tmp/test.db"; db_size := Some 28672 |} db_five
    = Py.Returns st /\
    total_commands st = 5 /\ successful_commands st = 4 /\
    failed_commands st = 1 /\
    success_rate st = Float (PyFloat.of_int 80) /\
    database_size_kb st = Float (PyFloat.of_int 28).
Proof. eexists. repeat split; vm_compute; reflexivity. Qed.

(** [test_stats_empty_db]: an empty ledger has rate 0. *)
Example get_stats_empty :
  exists st,
    get_stats {| db_path := "/tmp/test.db"; db_size := None |} empty_db
    = Py.Returns st /\
    total_commands st = 0 /\ success_rate st = Int 0.
Proof. eexists. repeat split; vm_compute; reflexivity. Qed.

(** One success out of three commands gives 33.3, one out of sixteen gives
    6.2 (the tie 6.25 goes to the even digit). *)
Example round_one_decimal_examples :
  PyFloat.round (PyFloat.mul_int
                   (SFdiv PyFloat.prec PyFloat.emax
                      (S754_finite false 1 0) (S754_finite false 3 0)) 100) 1
  = PyFloat.of_decimal false 333 1 /\
  PyFloat.round (PyFloat.mul_int
                   (SFdiv PyFloat.prec PyFloat.emax
                      (S754_finite false 1 0) (S754_finite false 16 0)) 100) 1
  = PyFloat.of_decimal false 62 1.
Proof. split; vm_compute; reflexivity. Qed.

(** ** Dictionaries *)

Lemma dict_get_In {V : Type} (k : string) (v : V) (d : dict V) :
  dict_get k d = Some v -> In (k, v) d.
Proof.
  induction d as [|[k' v'] d IH]; simpl; [discriminate|].
  destruct (String.eqb_spec k' k) as [->|Hne].
  - intros [= ->]. left. reflexivity.
  - intros Hg. right. apply IH, Hg.
Qed.

Lemma dict_get_None {V : Type} (k : string) (d : dict V) :
  dict_get k d = None <-> ~ In k (dict_keys d).
Proof.
  induction d as [|[k' v'] d IH]; simpl; [tauto|].
  destruct (String.eqb_spec k' k) as [->|Hne].
  - split; [discriminate|]. intros Hn. exfalso. apply Hn. auto.
  - rewrite IH. tauto.
Qed.

Lemma In_dict_get {V : Type} (k : string) (v : V) (d : dict V) :
  NoDup (dict_keys d) -> In (k, v) d -> dict_get k d = Some v.
Proof.
  induction d as [|[k' v'] d IH]; simpl; [tauto|].
  intros Hnd Hin. apply NoDup_cons in Hnd as [Hk' Hnd].
  destruct Hin as [[= -> ->]|Hin].
  - rewrite String.eqb_refl. reflexivity.
  - destruct (String.eqb_spec k' k) as [->|Hne]; [|auto].
    exfalso. apply Hk'. apply list_elem_of_In.
    unfold dict_keys in *. apply in_map_iff. exists (k, v). auto.
Qed.

Lemma dict_set_keys_In {V : Type} (k k0 : string) (v : V) (d : dict V) :
  In k0 (dict_keys (dict_set k v d)) <-> k0 = k \/ In k0 (dict_keys d).
Proof.
  induction d as [|[k' v'] d IH]; simpl.
  - intuition congruence.
  - destruct (String.eqb_spec k' k) as [->|Hne]; simpl.
    + intuition congruence.
    + rewrite IH. intuition congruence.
Qed.

Lemma dict_set_NoDup {V : Type} (k : string) (v : V) (d : dict V) :
  NoDup (dict_keys d) -> NoDup (dict_keys (dict_set k v d)).
Proof.
  induction d as [|[k' v'] d IH]; simpl; intros Hnd.
  - apply NoDup_singleton.
  - apply NoDup_cons in Hnd as [Hk' Hnd].
    destruct (String.eqb_spec k' k) as [->|Hne]; simpl.
    + apply NoDup_cons. auto.
    + apply NoDup_cons. split; [|apply IH, Hnd].
      intros Hin. apply list_elem_of_In, dict_set_keys_In in Hin.
      destruct Hin as [->|Hin]; [congruence|].
      apply Hk', list_elem_of_In, Hin.
Qed.

(** ** Change detection *)

Lemma count_changes_app (path : string) (l1 l2 : list change) :
  count_changes path (l1 ++ l2)
  = (count_changes path l1 + count_changes path l2)%nat.
Proof.
  unfold count_changes. rewrite List.filter_app, length_app. reflexivity.
Qed.

Lemma count_changes_all (path : string) (l : list change) :
  (forall c, In c l -> change_path c = path) ->
  count_changes path l = length l.
Proof.
  unfold count_changes. induction l as [|c l IH]; intros Hall; [reflexivity|].
  simpl. rewrite (Hall c) by (left; reflexivity).
  rewrite String.eqb_refl. simpl. f_equal.
  apply IH. intros x Hx. apply Hall. right. exact Hx.
Qed.

Lemma count_changes_none (path : string) (l : list change) :
  (forall c, In c l -> change_path c <> path) ->
  count_changes path l = O.
Proof.
  unfold count_changes. induction l as [|c l IH]; intros Hall; [reflexivity|].
  simpl. destruct (String.eqb_spec (change_path c) path) as [Heq|_].
  - exfalso. apply (Hall c); [left; reflexivity|exact Heq].
  - apply IH. intros x Hx. apply Hall. right. exact Hx.
Qed.

Section TrackerFacts.

Context {FS : Type} `{FileSystem FS}.

Lemma snapshot_directory_NoDup (fs : FS) (directory : string) :
  NoDup (dict_keys (snapshot_directory fs directory)).
Proof.
  unfold snapshot_directory.
  destruct (negb (path_exists fs directory)); [constructor|].
  assert (Hgen : forall items (acc : snapshot),
    NoDup (dict_keys acc) ->
    NoDup (dict_keys
      (foldl (fun snap item =>
                if path_is_file fs item
                then dict_set (path_relative_to item directory)
                       (get_file_hash fs item, get_file_size fs item) snap
                else snap) acc items))).
  { induction items as [|item items IH]; intros acc Hacc; [exact Hacc|].
    simpl. apply IH. destruct (path_is_file fs item); [|exact Hacc].
    apply dict_set_NoDup, Hacc. }
  apply Hgen. constructor.
Qed.

Lemma check_watched_path (d : string) (live : snapshot)
    (k : string) (v : option string * option Z) (c : change) :
  In c (check_watched d live (k, v)) -> change_path c = path_join d k.
Proof.
  destruct v as [h s]. simpl.
  destruct (dict_get k live) as [[h' s']|]; simpl.
  - destruct (decide (h = h')); simpl; [tauto|].
    intros [<-|[]]. reflexivity.
  - intros [<-|[]]. reflexivity.
Qed.

Lemma check_created_path (d : string) (watched : snapshot)
    (k : string) (v : option string * option Z) (c : change) :
  In c (check_created d watched (k, v)) -> change_path c = path_join d k.
Proof.
  destruct v as [h s]. simpl.
  destruct (dict_mem k watched); simpl; [tauto|].
  intros [<-|[]]. reflexivity.
Qed.

(** Descriptors made entry by entry, each for the path of its entry: those
    for the path of [p] are the ones made from the entry of [p]. *)
Lemma count_changes_keyed
    (f : string * (option string * option Z) -> list change)
    (d : string) (K : list string) (p : string) :
  (forall k v c, In c (f (k, v)) -> change_path c = path_join d k) ->
  (forall a b, In a K -> In b K -> path_join d a = path_join d b -> a = b) ->
  In p K ->
  forall l : snapshot,
    (forall k, In k (dict_keys l) -> In k K) ->
    NoDup (dict_keys l) ->
    count_changes (path_join d p) (flat_map f l)
    = match dict_get p l with
      | Some v => length (f (p, v))
      | None => O
      end.
Proof.
  intros Hpath Hinj Hp.
  induction l as [|[k v] l IH]; intros Hsub Hnd; [reflexivity|].
  simpl in Hnd. apply NoDup_cons in Hnd as [Hk Hnd].
  simpl. rewrite count_changes_app.
  assert (Hsub' : forall k0, In k0 (dict_keys l) -> In k0 K).
  { intros k0 Hk0. apply Hsub. right. exact Hk0. }
  specialize (IH Hsub' Hnd).
  destruct (String.eqb_spec k p) as [->|Hne].
  - rewrite count_changes_all by (intros c Hc; eapply Hpath, Hc).
    rewrite IH.
    assert (Hnone : dict_get p l = None).
    { apply dict_get_None. intros Hin. apply Hk, list_elem_of_In, Hin. }
    rewrite Hnone. lia.
  - rewrite count_changes_none; [exact IH|].
    intros c Hc Heq. apply Hpath in Hc. apply Hne.
    apply Hinj; [apply Hsub; left; reflexivity|exact Hp|congruence].
Qed.

Lemma count_type_flat_map {A : Type} (f : A -> list change) (g : A -> bool)
    (ty : string) (l : list A) :
  (forall e, count_type ty (f e) = if g e then 1%nat else O) ->
  count_type ty (flat_map f l) = length (List.filter g l).
Proof.
  intros Hf. unfold count_type in *.
  induction l as [|e l IH]; [reflexivity|].
  simpl. rewrite List.filter_app, length_app, IH, Hf.
  destruct (g e); reflexivity.
Qed.

Lemma count_type_app (ty : string) (l1 l2 : list change) :
  count_type ty (l1 ++ l2) = (count_type ty l1 + count_type ty l2)%nat.
Proof.
  unfold count_type. rewrite List.filter_app, length_app. reflexivity.
Qed.

(** C6.  In directory mode, against the live snapshot of the directory:
    every baseline path that the live snapshot lacks has its [Deleted]
    descriptor, every baseline path whose live digest differs has its
    [Modified] descriptor with both sizes, every live path that the baseline
    lacks has its [Created] descriptor, and the list holds nothing else.
    There are as many descriptors of each type as there are such paths; and
    where distinct keys give distinct full paths, the descriptor of a path
    is the only one for that path and an unchanged path has none.
    (Baseline keys are distinct, as in any dictionary.) *)
Theorem detect_changes_directory (fs : FS) (watched : snapshot) (d : string) :
  NoDup (dict_keys watched) ->
  (forall p h s,
     dict_get p watched = Some (h, s) ->
     dict_get p (snapshot_directory fs d) = None ->
     In (Deleted (path_join d p) h s) (detect_changes fs watched (Some d))) /\
  (forall p h s h' s',
     dict_get p watched = Some (h, s) ->
     dict_get p (snapshot_directory fs d) = Some (h', s') ->
     h <> h' ->
     In (Modified (path_join d p) h h' s s')
       (detect_changes fs watched (Some d))) /\
  (forall p h' s',
     dict_get p (snapshot_directory fs d) = Some (h', s') ->
     dict_get p watched = None ->
     In (Created (path_join d p) h' s') (detect_changes fs watched (Some d))) /\
  (forall c,
     In c (detect_changes fs watched (Some d)) ->
     (exists p h s,
        dict_get p watched = Some (h, s) /\
        dict_get p (snapshot_directory fs d) = None /\
        c = Deleted (path_join d p) h s) \/
     (exists p h s h' s',
        dict_get p watched = Some (h, s) /\
        dict_get p (snapshot_directory fs d) = Some (h', s') /\
        h <> h' /\
        c = Modified (path_join d p) h h' s s') \/
     (exists p h' s',
        dict_get p (snapshot_directory fs d) = Some (h', s') /\
        dict_get p watched = None /\
        c = Created (path_join d p) h' s')) /\
  count_type "deleted" (detect_changes fs watched (Some d))
  = length (List.filter
              (fun e => negb (dict_mem (fst e) (snapshot_directory fs d)))
              watched) /\
  count_type "modified" (detect_changes fs watched (Some d))
  = length (List.filter
              (fun e =>
                 match dict_get (fst e) (snapshot_directory fs d) with
                 | Some (h', _) => negb (bool_decide (fst (snd e) = h'))
                 | None => false
                 end)
              watched) /\
  count_type "created" (detect_changes fs watched (Some d))
  = length (List.filter (fun e => negb (dict_mem (fst e) watched))
              (snapshot_directory fs d)) /\
  ((forall a b,
      In a (dict_keys watched ++ dict_keys (snapshot_directory fs d)) ->
      In b (dict_keys watched ++ dict_keys (snapshot_directory fs d)) ->
      path_join d a = path_join d b -> a = b) ->
   forall p,
     In p (dict_keys watched ++ dict_keys (snapshot_directory fs d)) ->
     count_changes (path_join d p) (detect_changes fs watched (Some d))
     = match dict_get p watched, dict_get p (snapshot_directory fs d) with
       | Some (h, _), Some (h', _) => if decide (h = h') then O else 1%nat
       | Some _, None => 1%nat
       | None, Some _ => 1%nat
       | None, None => O
       end).
Proof.
  intros Hnd.
  pose proof (snapshot_directory_NoDup fs d) as Hlive.
  unfold detect_changes.
  set (live := snapshot_directory fs d) in *.
  split; [|split; [|split; [|split; [|split; [|split; [|split]]]]]].
  - intros p h s Hw Hl.
    apply in_or_app. left. apply in_flat_map.
    exists (p, (h, s)). split; [apply dict_get_In; assumption|].
    simpl. rewrite Hl. left. reflexivity.
  - intros p h s h' s' Hw Hl Hne.
    apply in_or_app. left. apply in_flat_map.
    exists (p, (h, s)). split; [apply dict_get_In; assumption|].
    simpl. rewrite Hl. rewrite decide_False by assumption.
    left. reflexivity.
  - intros p h' s' Hl Hw.
    apply in_or_app. right. apply in_flat_map.
    exists (p, (h', s')). split; [apply dict_get_In; assumption|].
    simpl. unfold dict_mem. rewrite Hw. left. reflexivity.
  - intros c Hc. apply in_app_or in Hc as [Hc|Hc];
      apply in_flat_map in Hc as ([p [h s]] & Hin & Hc).
    + apply In_dict_get in Hin; [|exact Hnd].
      simpl in Hc. destruct (dict_get p live) as [[h' s']|] eqn:El.
      * destruct (decide (h = h')) as [->|Hne]; [destruct Hc|].
        destruct Hc as [<-|[]]. right. left.
        exists p, h, s, h', s'. auto.
      * destruct Hc as [<-|[]]. left. exists p, h, s. auto.
    + apply In_dict_get in Hin; [|exact Hlive].
      simpl in Hc. unfold dict_mem in Hc.
      destruct (dict_get p watched) as [v|] eqn:Ew; [destruct Hc|].
      destruct Hc as [<-|[]]. right. right. exists p, h, s. auto.
  - rewrite count_type_app.
    rewrite (count_type_flat_map (check_watched d live)
               (fun e => negb (dict_mem (fst e) live))).
    + rewrite (count_type_flat_map (check_created d watched) (fun _ => false)).
      * assert (Hnil : forall l : snapshot,
                  List.filter (fun _ => false) l = []).
        { induction l as [|x l IH]; [reflexivity|exact IH]. }
        rewrite Hnil. simpl. lia.
      * intros [p [h s]]. simpl. destruct (dict_mem p watched); reflexivity.
    + intros [p [h s]]. simpl. unfold dict_mem.
      destruct (dict_get p live) as [[h' s']|]; [|reflexivity].
      destruct (decide (h = h')); reflexivity.
  - rewrite count_type_app.
    rewrite (count_type_flat_map (check_watched d live)
               (fun e =>
                  match dict_get (fst e) live with
                  | Some (h', _) => negb (bool_decide (fst (snd e) = h'))
                  | None => false
                  end)).
    + rewrite (count_type_flat_map (check_created d watched) (fun _ => false)).
      * assert (Hnil : forall l : snapshot,
                  List.filter (fun _ => false) l = []).
        { induction l as [|x l IH]; [reflexivity|exact IH]. }
        rewrite Hnil. simpl. lia.
      * intros [p [h s]]. simpl. destruct (dict_mem p watched); reflexivity.
    + intros [p [h s]]. simpl.
      destruct (dict_get p live) as [[h' s']|]; [|reflexivity].
      destruct (decide (h = h')) as [Heq|Hne].
      * rewrite bool_decide_eq_true_2 by exact Heq. reflexivity.
      * rewrite bool_decide_eq_false_2 by exact Hne. reflexivity.
  - rewrite count_type_app.
    rewrite (count_type_flat_map (check_watched d live) (fun _ => false)).
    + rewrite (count_type_flat_map (check_created d watched)
                 (fun e => negb (dict_mem (fst e) watched))).
      * assert (Hnil : forall l : snapshot,
                  List.filter (fun _ => false) l = []).
        { induction l as [|x l IH]; [reflexivity|exact IH]. }
        rewrite Hnil. reflexivity.
      * intros [p [h s]]. simpl. destruct (dict_mem p watched); reflexivity.
    + intros [p [h s]]. simpl.
      destruct (dict_get p live) as [[h' s']|]; [|reflexivity].
      destruct (decide (h = h')); reflexivity.
  - intros Hinj p Hp.
    set (K := dict_keys watched ++ dict_keys live) in *.
    assert (HKw : forall k, In k (dict_keys watched) -> In k K).
    { intros k Hk. apply in_or_app. left. exact Hk. }
    assert (HKl : forall k, In k (dict_keys live) -> In k K).
    { intros k Hk. apply in_or_app. right. exact Hk. }
    rewrite count_changes_app.
    rewrite (count_changes_keyed (check_watched d live) d K p
               (check_watched_path d live) Hinj Hp watched HKw Hnd).
    rewrite (count_changes_keyed (check_created d watched) d K p
               (check_created_path d watched) Hinj Hp live HKl Hlive).
    destruct (dict_get p watched) as [[h s]|] eqn:Ew;
      destruct (dict_get p live) as [[h' s']|] eqn:El.
    + simpl. rewrite El. unfold dict_mem. rewrite Ew.
      destruct (decide (h = h')); reflexivity.
    + simpl. rewrite El. reflexivity.
    + simpl. unfold dict_mem. rewrite Ew. reflexivity.
    + reflexivity.
Qed.

End TrackerFacts.

(** The theorem at the baseline {a} and a directory that now holds only b:
    exactly one deleted(a) and one created(b). *)
Lemma detect_changes_directory_witness :
  NoDup (dict_keys baseline_only_a) /\
  detect_changes fs_only_b baseline_only_a (Some "/w")
  = [Deleted "/w/a" (Some "md5:created-by-test") (Some 15);
     Created "/w/b" (Some "md5:new") (Some 3)] /\
  count_type "deleted" (detect_changes fs_only_b baseline_only_a (Some "/w"))
  = 1%nat /\
  count_type "created" (detect_changes fs_only_b baseline_only_a (Some "/w"))
  = 1%nat /\
  count_type "modified" (detect_changes fs_only_b baseline_only_a (Some "/w"))
  = O /\
  count_changes "/w/a" (detect_changes fs_only_b baseline_only_a (Some "/w"))
  = 1%nat /\
  count_changes "/w/b" (detect_changes fs_only_b baseline_only_a (Some "/w"))
  = 1%nat.
Proof.
  assert (Hnd : NoDup (dict_keys baseline_only_a)) by apply NoDup_singleton.
  assert (Hinj : forall a b,
    In a (dict_keys baseline_only_a
          ++ dict_keys (snapshot_directory fs_only_b "/w")) ->
    In b (dict_keys baseline_only_a
          ++ dict_keys (snapshot_directory fs_only_b "/w")) ->
    path_join "/w" a = path_join "/w" b -> a = b).
  { intros a b Ha Hb Heq. vm_compute in Ha, Hb.
    destruct Ha as [<-|[<-|[]]], Hb as [<-|[<-|[]]];
      try reflexivity; vm_compute in Heq; discriminate. }
  destruct (detect_changes_directory fs_only_b baseline_only_a "/w" Hnd)
    as (_ & _ & _ & _ & Hdel & Hmod & Hcre & Hcount).
  split; [exact Hnd|]. split; [vm_compute; reflexivity|].
  split; [rewrite Hdel; vm_compute; reflexivity|].
  split; [rewrite Hcre; vm_compute; reflexivity|].
  split; [rewrite Hmod; vm_compute; reflexivity|].
  split.
  - apply (Hcount Hinj "a"). vm_compute. auto.
  - apply (Hcount Hinj "b"). vm_compute. auto.
Defined.

(** ** Rollback *)

Lemma none_failed_Forall (actions : list action) :
  none_failed actions = true
  <-> Forall (fun a => act_status a <> "failed") actions.
Proof.
  unfold none_failed. rewrite forallb_forall, List.Forall_forall.
  split; intros Hall a Ha; specialize (Hall a Ha).
  - apply negb_true_iff, String.eqb_neq in Hall. exact Hall.
  - apply negb_true_iff, String.eqb_neq. exact Hall.
Qed.

Section RollbackFacts.

Context {FS : Type} `{FileSystem FS}.

(** What the check of one record looks at. *)
Lemma check_backup_Some (fs : FS) (fc : file_change) (reason : string) :
  check_backup fs fc = Some reason <->
  (fc_change_type fc = "modified" \/ fc_change_type fc = "deleted") /\
  (((fc_backup_path fc = None \/ fc_backup_path fc = Some "") /\
    reason = "No backup available for " +:+ fc_file_path fc) \/
   (exists b, fc_backup_path fc = Some b /\ b <> "" /\
              path_exists fs b = false /\
              reason = "Backup file missing for " +:+ fc_file_path fc)).
Proof.
  unfold check_backup, modified_or_deleted.
  destruct (String.eqb_spec (fc_change_type fc) "modified") as [Hm|Hm];
    destruct (String.eqb_spec (fc_change_type fc) "deleted") as [Hd|Hd];
    simpl;
    try (split; [discriminate|intros [[?|?] _]; congruence]).
  all: unfold Py.if_str;
    destruct (fc_backup_path fc) as [b|];
    [destruct (String.eqb_spec b "") as [->|Hb]|].
  all: try (split;
    [intros [= <-]; split; [tauto|]; left; split; [tauto|reflexivity]
    |intros [_ [[_ ->]|(b' & Hb' & Hne & _)]]; [reflexivity|congruence]]).
  all: destruct (path_exists fs b) eqn:He; simpl.
  all: try (split; [discriminate|]).
  all: try (intros [_ [[[Hn|Hn] _]|(b' & [= <-] & _ & Hx & _)]]; congruence).
  all: split;
    [intros [= <-]; split; [tauto|]; right; exists b; auto
    |intros [_ [[[Hn|Hn] _]|(b' & _ & _ & _ & ->)]]; congruence].
Qed.

(** A record that is neither a modification nor a deletion passes the
    check whatever its backup pointer is. *)
Lemma check_backup_other (fs : FS) (fc : file_change) :
  fc_change_type fc <> "modified" -> fc_change_type fc <> "deleted" ->
  check_backup fs fc = None.
Proof.
  intros Hm Hd. unfold check_backup, modified_or_deleted.
  apply String.eqb_neq in Hm, Hd. rewrite Hm, Hd. reflexivity.
Qed.

Lemma check_backup_None (fs : FS) (fc : file_change) :
  check_backup fs fc = None <->
  (modified_or_deleted fc = true ->
   exists b, fc_backup_path fc = Some b /\ b <> "" /\ path_exists fs b = true).
Proof.
  unfold check_backup. destruct (modified_or_deleted fc).
  - destruct (Py.if_str (fc_backup_path fc)) as [b|] eqn:E.
    + apply if_str_Some in E as [E Hb].
      destruct (path_exists fs b) eqn:He; simpl.
      * split; [|reflexivity]. intros _ _. exists b. auto.
      * split; [discriminate|]. intros Hx.
        destruct (Hx eq_refl) as (b' & Hb' & _ & He'). congruence.
    + split; [discriminate|]. intros Hx.
      destruct (Hx eq_refl) as (b' & Hb' & Hne & _).
      assert (Py.if_str (fc_backup_path fc) = Some b')
        by (apply if_str_Some; auto).
      congruence.
  - split; [intros _ Hf; discriminate|reflexivity].
Qed.

(** The loop stops at the first record that fails its check. *)
Lemma check_backups_false (fs : FS) (fcs : list file_change) (reason : string) :
  check_backups fs fcs = (false, reason) <->
  exists pre fc post,
    fcs = pre ++ fc :: post /\
    Forall (fun x => check_backup fs x = None) pre /\
    check_backup fs fc = Some reason.
Proof.
  induction fcs as [|x fcs IH]; simpl.
  - split; [discriminate|]. intros (pre & fc & post & Heq & _).
    destruct pre; discriminate.
  - destruct (check_backup fs x) as [r|] eqn:Ex.
    + split.
      * intros [= <-]. exists [], x, fcs. auto.
      * intros (pre & fc & post & Heq & Hpre & Hfc).
        destruct pre as [|y pre]; simpl in Heq; injection Heq as <- ->.
        -- congruence.
        -- inversion Hpre; congruence.
    + rewrite IH. split.
      * intros (pre & fc & post & -> & Hpre & Hfc).
        exists (x :: pre), fc, post. auto.
      * intros (pre & fc & post & Heq & Hpre & Hfc).
        destruct pre as [|y pre]; simpl in Heq; injection Heq as <- ->.
        -- congruence.
        -- inversion Hpre; subst. exists pre, fc, post. auto.
Qed.

Lemma check_backups_true (fs : FS) (fcs : list file_change) (reason : string) :
  check_backups fs fcs = (true, reason) <->
  Forall (fun x => check_backup fs x = None) fcs /\
  reason = "Rollback is possible".
Proof.
  induction fcs as [|x fcs IH]; simpl.
  - split; [intros [= <-]; auto|intros [_ ->]; reflexivity].
  - destruct (check_backup fs x) as [r|] eqn:Ex.
    + split; [discriminate|]. intros [Hall _]. inversion Hall; congruence.
    + rewrite IH. split; intros [Hall Hr]; split; auto.
      inversion Hall; assumption.
Qed.

Lemma can_rollback_true (fs : FS) (db : DB) (command_id : Z) :
  (can_rollback fs db command_id).1 = true <->
  get_file_changes db command_id <> [] /\
  Forall (fun x => check_backup fs x = None) (get_file_changes db command_id).
Proof.
  unfold can_rollback.
  destruct (get_file_changes db command_id) as [|x l] eqn:E.
  - simpl. split; [discriminate|]. intros [Hn _]. congruence.
  - destruct (check_backups fs (x :: l)) as [b r] eqn:Ec. simpl.
    destruct b.
    + apply check_backups_true in Ec as [Hall _].
      split; [intros _; split; [discriminate|exact Hall]|reflexivity].
    + split; [discriminate|]. intros [_ Hall].
      assert (Ht : check_backups fs (x :: l) = (true, "Rollback is possible"))
        by (apply check_backups_true; auto).
      congruence.
Qed.

(** In a dry run the body of the loop touches nothing. *)
Lemma rollback_one_dry (fs : FS) (fc : file_change) :
  exists a,
    rollback_one fs true fc = Py.Returns (a, fs) /\
    act_status a = "pending" /\
    act_file a = fc_file_path fc /\ act_type a = fc_change_type fc.
Proof.
  unfold rollback_one. simpl.
  destruct (String.eqb (fc_change_type fc) "created");
    [|destruct (modified_or_deleted fc)];
    eexists; (split; [reflexivity|]); simpl; auto.
Qed.

Lemma rollback_loop_dry (fcs : list file_change) (fs : FS) :
  exists actions,
    rollback_loop fs true fcs = Py.Returns (actions, fs) /\
    Forall (fun a => act_status a = "pending") actions /\
    Forall2 (fun fc a => act_file a = fc_file_path fc /\
                         act_type a = fc_change_type fc) fcs actions.
Proof.
  induction fcs as [|fc fcs IH].
  - exists []. simpl. auto.
  - destruct (rollback_one_dry fs fc) as (a & Ha & Hst & Hf).
    destruct IH as (actions & Hl & Hall & Hall2).
    exists (a :: actions). simpl. rewrite Ha. simpl. rewrite Hl. simpl.
    auto.
Qed.

(** In apply mode the body of the loop returns for a record that passed
    the check, and a failure it records is a failed delete with the message
    of the exception or a failed restore without message. *)
Lemma rollback_one_apply (fs0 fs : FS) (fc : file_change) :
  check_backup fs0 fc = None ->
  exists a fs',
    rollback_one fs false fc = Py.Returns (a, fs') /\
    act_file a = fc_file_path fc /\ act_type a = fc_change_type fc /\
    (act_status a = "failed" ->
     (act_action a = Some "delete" /\ exists msg, act_error a = Some msg) \/
     (act_action a = Some "restore" /\ act_error a = None)).
Proof.
  intros Hc. unfold rollback_one. simpl.
  destruct (String.eqb (fc_change_type fc) "created").
  - destruct (unlink fs (fc_file_path fc)) as [fs'|msg fs'];
      eexists; eexists; (split; [reflexivity|]); simpl;
      repeat split; eauto; discriminate.
  - destruct (modified_or_deleted fc) eqn:Em.
    + destruct (proj1 (check_backup_None fs0 fc) Hc Em) as (b & -> & _ & _).
      destruct (restore_file fs b (fc_file_path fc)) as [[|] fs'];
        eexists; eexists; (split; [reflexivity|]); simpl;
        repeat split; auto; discriminate.
    + eexists; eexists; (split; [reflexivity|]); simpl.
      repeat split; auto; discriminate.
Qed.

Lemma rollback_loop_apply (fs0 : FS) (fcs : list file_change) :
  Forall (fun fc => check_backup fs0 fc = None) fcs ->
  forall fs,
  exists actions fs',
    rollback_loop fs false fcs = Py.Returns (actions, fs') /\
    Forall2 (fun fc a => act_file a = fc_file_path fc /\
                         act_type a = fc_change_type fc) fcs actions /\
    Forall (fun a =>
      act_status a = "failed" ->
      (act_action a = Some "delete" /\ exists msg, act_error a = Some msg) \/
      (act_action a = Some "restore" /\ act_error a = None)) actions.
Proof.
  induction 1 as [|fc fcs Hfc Hall IH]; intros fs.
  - exists [], fs. simpl. auto.
  - destruct (rollback_one_apply fs0 fs fc Hfc) as (a & fs1 & Ha & Hf & Ht & Hfail).
    destruct (IH fs1) as (actions & fs2 & Hl & Hall2 & Hdet).
    exists (a :: actions), fs2. simpl. rewrite Ha. simpl. rewrite Hl. simpl.
    auto.
Qed.

(** Every record is processed from the filesystem that the records before
    it left, whatever their outcome. *)
Lemma rollback_loop_split (dry_run : bool) (pre : list file_change) :
  forall (fs fs' : FS) (fc : file_change) (post : list file_change)
         (actions : list action),
  rollback_loop fs dry_run (pre ++ fc :: post) = Py.Returns (actions, fs') ->
  exists a_pre fs_pre a fs_mid a_post,
    rollback_loop fs dry_run pre = Py.Returns (a_pre, fs_pre) /\
    rollback_one fs_pre dry_run fc = Py.Returns (a, fs_mid) /\
    rollback_loop fs_mid dry_run post = Py.Returns (a_post, fs') /\
    actions = a_pre ++ a :: a_post /\
    length a_pre = length pre.
Proof.
  induction pre as [|x pre IH]; intros fs fs' fc post actions Hl.
  - simpl in Hl.
    destruct (rollback_one fs dry_run fc) as [[a fs1]|] eqn:E1; [|discriminate].
    simpl in Hl.
    destruct (rollback_loop fs1 dry_run post) as [[a_post fs2]|] eqn:E2;
      [|discriminate].
    simpl in Hl. injection Hl as <- <-.
    exists [], fs, a, fs1, a_post. auto.
  - simpl in Hl.
    destruct (rollback_one fs dry_run x) as [[ax fs1]|] eqn:E1; [|discriminate].
    simpl in Hl.
    destruct (rollback_loop fs1 dry_run (pre ++ fc :: post))
      as [[rest fs2]|] eqn:E2; [|discriminate].
    simpl in Hl. injection Hl as <- <-.
    destruct (IH _ _ _ _ _ E2)
      as (a_pre & fs_pre & a & fs_mid & a_post & Hp & Ho & Hq & -> & Hlen).
    exists (ax :: a_pre), fs_pre, a, fs_mid, a_post.
    simpl. rewrite E1. simpl. rewrite Hp. simpl.
    repeat split; auto.
Qed.

(** A refused rollback, in either mode. *)
Lemma rollback_command_refused (fs : FS) (db : DB) (command_id : Z)
    (dry_run : bool) (reason : string) :
  can_rollback fs db command_id = (false, reason) ->
  rollback_command fs db command_id dry_run
  = Py.Returns
      ({| r_success := false; r_error := Some reason; r_dry_run := None;
          r_command_id := None; r_actions := [] |}, fs).
Proof.
  intros Hc. unfold rollback_command. rewrite Hc. reflexivity.
Qed.

Lemma rollback_command_accepted (fs : FS) (db : DB) (command_id : Z)
    (dry_run : bool) :
  (can_rollback fs db command_id).1 = true ->
  rollback_command fs db command_id dry_run
  = Py.bind (rollback_loop fs dry_run (get_file_changes db command_id))
      (fun '(actions, fs') =>
         Py.Returns
           ({| r_success := none_failed actions; r_error := None;
               r_dry_run := Some dry_run; r_command_id := Some command_id;
               r_actions := actions |}, fs')).
Proof.
  intros Hc. unfold rollback_command.
  destruct (can_rollback fs db command_id) as [b r]. simpl in Hc. subst b.
  reflexivity.
Qed.

(** C1.  A dry run returns, leaves the filesystem exactly as it was in
    every case (refusal included), and every action of its plan is
    pending. *)
Theorem rollback_dry_run_pure (fs : FS) (db : DB) (command_id : Z) :
  exists r,
    rollback_command fs db command_id true = Py.Returns (r, fs) /\
    Forall (fun a => act_status a = "pending") (r_actions r).
Proof.
  destruct (can_rollback fs db command_id) as [[|] reason] eqn:Ec.
  - rewrite rollback_command_accepted by (rewrite Ec; reflexivity).
    destruct (rollback_loop_dry (get_file_changes db command_id) fs)
      as (actions & Hl & Hall & _).
    rewrite Hl. simpl. eexists. split; [reflexivity|]. exact Hall.
  - rewrite (rollback_command_refused fs db command_id true reason Ec).
    eexists. split; [reflexivity|]. constructor.
Qed.

(** C2.  A command without file change records is refused with the reason
    "No file changes recorded for this command" and an empty action list.
    If some modified or deleted record has no backup pointer, or a pointer
    to a path that does not exist, [can_rollback] is false and its reason
    names the file of such a record (the first one in the list), and
    [rollback_command] returns [success = false] with the filesystem as it
    was.  A created record never blocks: [can_rollback] is true exactly when
    there are records and every modified or deleted one has an existing
    backup. *)
Theorem rollback_refused_without_backup (fs : FS) (db : DB) (command_id : Z)
    (dry_run : bool) :
  (get_file_changes db command_id = [] ->
   can_rollback fs db command_id
   = (false, "No file changes recorded for this command") /\
   rollback_command fs db command_id dry_run
   = Py.Returns
       ({| r_success := false;
           r_error := Some "No file changes recorded for this command";
           r_dry_run := None; r_command_id := None; r_actions := [] |}, fs)) /\
  (forall fc,
     In fc (get_file_changes db command_id) ->
     fc_change_type fc = "modified" \/ fc_change_type fc = "deleted" ->
     (fc_backup_path fc = None \/ fc_backup_path fc = Some "" \/
      exists b, fc_backup_path fc = Some b /\ path_exists fs b = false) ->
     exists pre bad post reason,
       get_file_changes db command_id = pre ++ bad :: post /\
       Forall (fun x => check_backup fs x = None) pre /\
       (fc_change_type bad = "modified" \/ fc_change_type bad = "deleted") /\
       (((fc_backup_path bad = None \/ fc_backup_path bad = Some "") /\
         reason = "No backup available for " +:+ fc_file_path bad) \/
        (exists b, fc_backup_path bad = Some b /\ b <> "" /\
                   path_exists fs b = false /\
                   reason = "Backup file missing for " +:+ fc_file_path bad)) /\
       can_rollback fs db command_id = (false, reason) /\
       rollback_command fs db command_id dry_run
       = Py.Returns
           ({| r_success := false; r_error := Some reason; r_dry_run := None;
               r_command_id := None; r_actions := [] |}, fs)) /\
  (forall fc, fc_change_type fc = "created" -> check_backup fs fc = None) /\
  ((can_rollback fs db command_id).1 = true <->
   get_file_changes db command_id <> [] /\
   forall fc,
     In fc (get_file_changes db command_id) ->
     fc_change_type fc = "modified" \/ fc_change_type fc = "deleted" ->
     exists b, fc_backup_path fc = Some b /\ b <> "" /\
               path_exists fs b = true).
Proof.
  assert (Hmd : forall fc,
    modified_or_deleted fc = true <->
    fc_change_type fc = "modified" \/ fc_change_type fc = "deleted").
  { intros fc. unfold modified_or_deleted.
    rewrite orb_true_iff, !String.eqb_eq. reflexivity. }
  split; [|split; [|split]].
  - intros Hnil.
    assert (Hc : can_rollback fs db command_id
                 = (false, "No file changes recorded for this command")).
    { unfold can_rollback. rewrite Hnil. reflexivity. }
    split; [exact Hc|]. apply rollback_command_refused, Hc.
  - intros fc Hin Hty Hbad.
    assert (Hsome : check_backup fs fc <> None).
    { intros Hn. apply Hmd in Hty.
      destruct (proj1 (check_backup_None fs fc) Hn Hty) as (b & Hb & Hne & He).
      destruct Hbad as [Hb'|[Hb'|(b' & Hb' & He')]]; congruence. }
    assert (Hcb : exists reason,
      check_backups fs (get_file_changes db command_id) = (false, reason)).
    { destruct (check_backups fs (get_file_changes db command_id))
        as [[|] r] eqn:Ec; [|eauto].
      apply check_backups_true in Ec as [Hall _].
      rewrite List.Forall_forall in Hall. exfalso. apply Hsome, Hall, Hin. }
    destruct Hcb as [reason Hcb].
    pose proof Hcb as Hsplit.
    apply check_backups_false in Hsplit as (pre & bad & post & Heq & Hpre & Hb).
    apply check_backup_Some in Hb as [Hbty Hbreason].
    assert (Hc : can_rollback fs db command_id = (false, reason)).
    { unfold can_rollback.
      destruct (get_file_changes db command_id) as [|x l] eqn:E;
        [destruct Hin|exact Hcb]. }
    exists pre, bad, post, reason.
    split; [exact Heq|]. split; [exact Hpre|]. split; [exact Hbty|].
    split; [exact Hbreason|]. split; [exact Hc|].
    apply rollback_command_refused, Hc.
  - intros fc Hty. apply check_backup_other; rewrite Hty; discriminate.
  - rewrite can_rollback_true. split; intros [Hne Hall]; (split; [exact Hne|]).
    + intros fc Hin Hty. rewrite List.Forall_forall in Hall.
      apply (proj1 (check_backup_None fs fc) (Hall fc Hin)), Hmd, Hty.
    + apply List.Forall_forall. intros fc Hin.
      apply check_backup_None. intros Hty. apply (Hall fc Hin), Hmd, Hty.
Qed.

(** An accepted rollback in apply mode returns, and its actions come from
    the records one by one. *)
Lemma rollback_apply_best_effort_aux (fs : FS) (db : DB) (command_id : Z) :
  (can_rollback fs db command_id).1 = true ->
  exists actions fs',
    rollback_command fs db command_id false
    = Py.Returns
        ({| r_success := none_failed actions; r_error := None;
            r_dry_run := Some false; r_command_id := Some command_id;
            r_actions := actions |}, fs') /\
    (forall pre fc post,
       get_file_changes db command_id = pre ++ fc :: post ->
       exists a_pre fs_pre a fs_mid a_post,
         rollback_loop fs false pre = Py.Returns (a_pre, fs_pre) /\
         rollback_one fs_pre false fc = Py.Returns (a, fs_mid) /\
         rollback_loop fs_mid false post = Py.Returns (a_post, fs') /\
         actions = a_pre ++ a :: a_post /\
         length a_pre = length pre).
Proof.
  intros Hc. pose proof Hc as Hacc.
  apply can_rollback_true in Hc as [_ Hall].
  destruct (rollback_loop_apply fs _ Hall fs) as (actions & fs' & Hl & _ & _).
  exists actions, fs'. split.
  - rewrite rollback_command_accepted by exact Hacc. rewrite Hl. reflexivity.
  - intros pre fc post Heq. rewrite Heq in Hl.
    apply rollback_loop_split in Hl. exact Hl.
Qed.

(** C3, amended.  In apply mode on a command that [can_rollback] accepts,
    [rollback_command] returns one action per record, in order; each record
    is processed from the filesystem that the records before it left,
    whatever their outcome, and what it leaves is passed on to the next;
    [success] is true exactly when no action is failed; a failed action is a
    delete with the message of the exception or a restore with no message. *)
Theorem rollback_apply_best_effort (fs : FS) (db : DB) (command_id : Z) :
  (can_rollback fs db command_id).1 = true ->
  exists actions fs',
    rollback_command fs db command_id false
    = Py.Returns
        ({| r_success := none_failed actions; r_error := None;
            r_dry_run := Some false; r_command_id := Some command_id;
            r_actions := actions |}, fs') /\
    Forall2 (fun fc a => act_file a = fc_file_path fc /\
                         act_type a = fc_change_type fc)
      (get_file_changes db command_id) actions /\
    (forall pre fc post,
       get_file_changes db command_id = pre ++ fc :: post ->
       exists a_pre fs_pre a fs_mid a_post,
         rollback_loop fs false pre = Py.Returns (a_pre, fs_pre) /\
         rollback_one fs_pre false fc = Py.Returns (a, fs_mid) /\
         rollback_loop fs_mid false post = Py.Returns (a_post, fs') /\
         actions = a_pre ++ a :: a_post /\
         length a_pre = length pre) /\
    (none_failed actions = true
     <-> Forall (fun a => act_status a <> "failed") actions) /\
    Forall (fun a =>
      act_status a = "failed" ->
      (act_action a = Some "delete" /\ exists msg, act_error a = Some msg) \/
      (act_action a = Some "restore" /\ act_error a = None)) actions.
Proof.
  intros Hc. pose proof Hc as Hacc.
  apply can_rollback_true in Hc as [_ Hall].
  destruct (rollback_loop_apply fs _ Hall fs) as (actions & fs' & Hl & H2 & Hd).
  exists actions, fs'.
  split.
  { rewrite rollback_command_accepted by exact Hacc. rewrite Hl. reflexivity. }
  split; [exact H2|]. split.
  { intros pre fc post Heq. rewrite Heq in Hl.
    apply rollback_loop_split in Hl. exact Hl. }
  split; [apply none_failed_Forall|exact Hd].
Qed.

(** C9.  When the record of a created file comes up in apply mode and
    nothing is at its path at that point (no file, no directory, no link),
    its action is a delete that failed, with the message of the exception
    in its error field, the step leaves the filesystem as it found it, and
    the overall result has [success = false]. *)
Theorem rollback_created_missing (fs : FS) (db : DB) (command_id : Z)
    (pre : list file_change) (fc : file_change) (post : list file_change)
    (a_pre : list action) (fs_pre : FS) :
  (can_rollback fs db command_id).1 = true ->
  get_file_changes db command_id = pre ++ fc :: post ->
  fc_change_type fc = "created" ->
  rollback_loop fs false pre = Py.Returns (a_pre, fs_pre) ->
  has_entry fs_pre (fc_file_path fc) = false ->
  exists r fs' a msg,
    rollback_command fs db command_id false = Py.Returns (r, fs') /\
    r_success r = false /\
    nth_error (r_actions r) (length pre) = Some a /\
    act_file a = fc_file_path fc /\
    act_action a = Some "delete" /\
    act_status a = "failed" /\
    act_error a = Some msg /\
    rollback_one fs_pre false fc = Py.Returns (a, fs_pre).
Proof.
  intros Hc Heq Hty Hpre Hmiss.
  destruct (rollback_apply_best_effort_aux fs db command_id Hc)
    as (actions & fs' & Hr & Hsplit).
  destruct (Hsplit pre fc post Heq)
    as (a_pre' & fs_pre' & a & fs_mid & a_post & Hp & Ho & Hq & -> & Hlen).
  rewrite Hpre in Hp. injection Hp as <- <-.
  destruct (unlink_missing fs_pre (fc_file_path fc) Hmiss) as [msg Hu].
  assert (Ha : rollback_one fs_pre false fc
    = Py.Returns
        (set_error msg (set_status "failed" (set_action "delete"
           {| act_file := fc_file_path fc; act_type := fc_change_type fc;
              act_status := "pending"; act_action := None;
              act_backup := None; act_error := None |})), fs_pre)).
  { unfold rollback_one. rewrite Hty. simpl. rewrite Hu. reflexivity. }
  rewrite Ha in Ho. injection Ho as <- <-.
  eexists. exists fs'. eexists. exists msg.
  split; [exact Hr|]. simpl.
  split.
  { unfold none_failed. rewrite forallb_app. simpl.
    apply andb_false_r. }
  split.
  { rewrite nth_error_app2 by lia. rewrite Hlen, Nat.sub_diag. reflexivity. }
  repeat split. exact Ha.
Qed.

End RollbackFacts.

(** ** Rollback on the in-memory filesystem *)

Example db_rollback_records :
  get_file_changes db_rollback 1 = [fc_modified_a; fc_created_new] /\
  get_file_changes db_rollback 2 = [].
Proof. split; vm_compute; reflexivity. Qed.

(** C3, counterexample.  Command 2 has no records: in apply mode the result
    has [success = false] although no action in its (empty) list is failed.
    Command 1 with "/w/a.txt" read-only: the restore fails and its action
    carries no error message. *)
Lemma rollback_apply_success_not_iff :
  (exists r fs',
     rollback_command (fs_backed true) db_rollback 2 false
     = Py.Returns (r, fs') /\
     r_success r = false /\
     Forall (fun a => act_status a <> "failed") (r_actions r)) /\
  (exists r fs' a,
     rollback_command (fs_backed false) db_rollback 1 false
     = Py.Returns (r, fs') /\
     In a (r_actions r) /\
     act_file a = "/w/a.txt" /\ act_action a = Some "restore" /\
     act_status a = "failed" /\ act_error a = None).
Proof.
  split.
  - eexists. eexists. split; [vm_compute; reflexivity|].
    split; [reflexivity|constructor].
  - eexists. eexists. eexists. split; [vm_compute; reflexivity|].
    split; [left; reflexivity|]. repeat split.
Qed.

(** The amended theorem where the restore of "/w/a.txt" fails and the
    delete of "/w/new.txt" succeeds: both actions are there, the second was
    carried out after the first failed, and the result is not a success. *)
Lemma rollback_apply_best_effort_witness :
  (can_rollback (fs_backed false) db_rollback 1).1 = true /\
  exists r fs',
    rollback_command (fs_backed false) db_rollback 1 false
    = Py.Returns (r, fs') /\
    r_success r = false /\
    List.map act_status (r_actions r) = ["failed"; "success"] /\
    path_exists fs' "/w/new.txt" = false.
Proof.
  assert (Hc : (can_rollback (fs_backed false) db_rollback 1).1 = true)
    by (vm_compute; reflexivity).
  split; [exact Hc|].
  destruct (rollback_apply_best_effort (fs_backed false) db_rollback 1 Hc)
    as (actions & fs' & Hr & _).
  eexists. exists fs'. split; [exact Hr|].
  assert (Hv : exists r0 fs0,
    rollback_command (fs_backed false) db_rollback 1 false
    = Py.Returns (r0, fs0) /\
    r_success r0 = false /\
    List.map act_status (r_actions r0) = ["failed"; "success"] /\
    path_exists fs0 "/w/new.txt" = false).
  { eexists. eexists. split; [vm_compute; reflexivity|].
    repeat split; vm_compute; reflexivity. }
  destruct Hv as (r0 & fs0 & Hr0 & Hs & Hm & Hp).
  rewrite Hr in Hr0. injection Hr0 as <- <-.
  simpl in *. auto.
Defined.

(** The theorem where "/w/new.txt" is already gone when its record comes
    up, after the restore of "/w/a.txt". *)
Lemma rollback_created_missing_witness :
  (can_rollback fs_new_gone db_rollback 1).1 = true /\
  fc_change_type fc_created_new = "created" /\
  has_entry fs_a_restored "/w/new.txt" = false /\
  exists r fs' a msg,
    rollback_command fs_new_gone db_rollback 1 false = Py.Returns (r, fs') /\
    r_success r = false /\
    nth_error (r_actions r) 1 = Some a /\
    act_file a = "/w/new.txt" /\
    act_status a = "failed" /\
    act_error a = Some msg.
Proof.
  assert (Hc : (can_rollback fs_new_gone db_rollback 1).1 = true)
    by (vm_compute; reflexivity).
  assert (Hty : fc_change_type fc_created_new = "created") by reflexivity.
  split; [exact Hc|]. split; [exact Hty|].
  eassert (Hpre : rollback_loop fs_new_gone false [fc_modified_a]
                  = Py.Returns (_, fs_a_restored)) by (vm_compute; reflexivity).
  assert (Hmiss : has_entry fs_a_restored (fc_file_path fc_created_new)
                  = false) by (vm_compute; reflexivity).
  split; [exact Hmiss|].
  destruct (rollback_created_missing fs_new_gone db_rollback 1
              [fc_modified_a] fc_created_new [] _ _ Hc
              (proj1 db_rollback_records) Hty Hpre Hmiss)
    as (r & fs' & a & msg & Hr & Hs & Hn & Hf & _ & Hst & He & _).
  exists r, fs', a, msg.
  split; [exact Hr|]. split; [exact Hs|]. split; [exact Hn|].
  split; [exact Hf|]. split; [exact Hst|exact He].
Defined.

(** The same run, computed: the message is the one of the exception. *)
Example rollback_created_missing_run :
  exists r fs',
    rollback_command fs_new_gone db_rollback 1 false = Py.Returns (r, fs') /\
    r_success r = false /\
    List.map act_status (r_actions r) = ["success"; "failed"] /\
    List.map act_error (r_actions r)
    = [None; Some "[Errno 2] No such file or directory: '/w/new.txt'"] /\
    path_exists fs' "/w/new.txt" = false.
Proof.
  eexists. eexists. split; [vm_compute; reflexivity|].
  repeat split; vm_compute; reflexivity.
Qed.

(** A dry run on the same store: a plan of two pending actions. *)
Example rollback_dry_run_example :
  exists r,
    rollback_command (fs_backed true) db_rollback 1 true
    = Py.Returns (r, fs_backed true) /\
    r_success r = true /\
    List.map act_action (r_actions r) = [Some "restore"; Some "delete"] /\
    List.map act_status (r_actions r) = ["pending"; "pending"].
Proof.
  eexists. split; [vm_compute; reflexivity|].
  repeat split; vm_compute; reflexivity.
Qed.

(** * Further properties of the ledger store *)

Lemma foldl_max_by_id_inv (P : command -> Prop) (l : list command) :
  forall best,
    (forall b, best = Some b -> P b) ->
    Forall P l ->
    forall r, foldl max_by_id best l = Some r -> P r.
Proof.
  induction l as [|c l IH]; intros best Hbest Hall r Hr.
  - simpl in Hr. apply Hbest, Hr.
  - inversion Hall as [|? ? Hc Hl]; subst. simpl in Hr.
    apply (IH (max_by_id best c)); [|exact Hl|exact Hr].
    intros b Hb. unfold max_by_id in Hb. destruct best as [b0|].
    + destruct (cmd_id b0 <? cmd_id c)%Z; injection Hb as <-; auto.
    + injection Hb as <-. exact Hc.
Qed.

Lemma get_command_by_id_bound (db : DB) (id : Z) :
  Forall (fun c => cmd_id c < id) (commands db) ->
  filter (fun c => cmd_id c = id) (commands db) = [].
Proof.
  induction (commands db) as [|c l IH]; intros Hall; [reflexivity|].
  inversion Hall as [|? ? Hc Hl]; subst.
  rewrite filter_cons. destruct (decide (cmd_id c = id)); [lia|auto].
Qed.

(** X1.  In a consistent ledger [record_command] returns an id above every
    id of the table; looking that id up, or asking for the last command,
    gives the row just written with the arguments of the call; every other
    id looks up as before. *)
Theorem record_command_round_trip (env : Env) (db : DB) (sid : string)
    (a : command_args) :
  ledger_wf db ->
  Forall (fun c => cmd_id c < (record_command env db sid a).1) (commands db) /\
  (exists row,
     commands (record_command env db sid a).2 = commands db ++ [row] /\
     get_command_by_id (record_command env db sid a).2
       (record_command env db sid a).1 = Some row /\
     get_last_command (record_command env db sid a).2 = Some row /\
     cmd_id row = (record_command env db sid a).1 /\
     cmd_session_id row = sid /\
     cmd_timestamp row = env_now env /\
     cmd_command row = arg_command a /\
     cmd_cwd row = arg_cwd a /\
     cmd_exit_code row = arg_exit_code a /\
     cmd_output row = arg_output a /\
     cmd_error_output row = arg_error_output a /\
     cmd_duration_ms row = arg_duration_ms a /\
     cmd_notes row = arg_notes a) /\
  (forall other,
     other <> (record_command env db sid a).1 ->
     get_command_by_id (record_command env db sid a).2 other
     = get_command_by_id db other).
Proof.
  intros [_ _ Hseq].
  assert (Hlt : Forall (fun c => cmd_id c < commands_seq db + 1) (commands db)).
  { eapply Forall_impl; [exact Hseq|]. simpl. intros c Hc. lia. }
  split; [exact Hlt|]. split.
  - eexists. split; [reflexivity|]. split.
    + unfold get_command_by_id. simpl. rewrite filter_app.
      rewrite (get_command_by_id_bound db _ Hlt). simpl.
      rewrite filter_cons. simpl. rewrite decide_True by reflexivity.
      reflexivity.
    + split.
      * unfold get_last_command. simpl. rewrite foldl_app. simpl.
        destruct (foldl max_by_id None (commands db)) as [b|] eqn:Eb;
          [|reflexivity].
        assert (Hb : cmd_id b < commands_seq db + 1).
        { apply (foldl_max_by_id_inv (fun c => cmd_id c < commands_seq db + 1)
                   (commands db) None); [discriminate|exact Hlt|exact Eb]. }
        simpl. destruct (Z.ltb_spec (cmd_id b) (commands_seq db + 1));
          [reflexivity|lia].
      * simpl. repeat split.
  - intros other Hne. unfold get_command_by_id. simpl.
    rewrite filter_app, filter_cons. simpl.
    rewrite decide_False by (intros Heq; apply Hne; symmetry; exact Heq).
    rewrite filter_nil, app_nil_r. reflexivity.
Qed.

(** The theorem on the ledger with two commands: the third gets id 3. *)
Lemma record_command_round_trip_witness :
  ledger_wf db_build_test /\
  (record_command (env_at "2026-01-31T10:00:09") db_build_test "s"
     (plain_command "deploy" (Some 0))).1 = 3 /\
  exists row,
    get_last_command
      (record_command (env_at "2026-01-31T10:00:09") db_build_test "s"
         (plain_command "deploy" (Some 0))).2 = Some row /\
    cmd_command row = "deploy".
Proof.
  split; [exact db_build_test_wf|]. split; [reflexivity|].
  destruct (record_command_round_trip (env_at "2026-01-31T10:00:09")
              db_build_test "s" (plain_command "deploy" (Some 0))
              db_build_test_wf)
    as (_ & (row & _ & _ & Hlast & _ & _ & _ & Hcmd & _) & _).
  exists row. split; [exact Hlast|exact Hcmd].
Defined.

(** X2.  [record_command] leaves every other session row, and every file
    change record, as it was.  When the session id has no row the call
    creates none: the command is recorded and the sessions are unchanged. *)
Theorem record_command_frame (env : Env) (db : DB) (sid : string)
    (a : command_args) :
  (forall other, other <> sid ->
     get_session (record_command env db sid a).2 other = get_session db other) /\
  (get_session db sid = None ->
   sessions (record_command env db sid a).2 = sessions db /\
   exists row,
     commands (record_command env db sid a).2 = commands db ++ [row] /\
     cmd_session_id row = sid) /\
  file_changes (record_command env db sid a).2 = file_changes db /\
  (forall id,
     get_file_changes (record_command env db sid a).2 id
     = get_file_changes db id).
Proof.
  unfold get_session. split; [|split; [|split]].
  - intros other Hne. simpl. apply lookup_alter_ne. congruence.
  - intros Hnone. split.
    + simpl. apply map_eq. intros k.
      destruct (decide (sid = k)) as [<-|Hne].
      * rewrite lookup_alter_eq, Hnone. reflexivity.
      * apply lookup_alter_ne. exact Hne.
    + eexists. split; reflexivity.
  - reflexivity.
  - intros id. reflexivity.
Qed.

(** X3.  [record_file_change] appends one row and changes none: the
    records of the command are the former ones followed by the new one, the
    records of every other command are the same, and commands and sessions
    are untouched.  The command id need not exist. *)
Theorem record_file_change_round_trip (env : Env) (db : DB) (command_id : Z)
    (file_path change_type : string) (old_hash new_hash : option string)
    (old_size new_size : option Z) (backup_path : option string) :
  get_file_changes
    (record_file_change env db command_id file_path change_type
       old_hash new_hash old_size new_size backup_path) command_id
  = get_file_changes db command_id
    ++ [{| fc_id := file_changes_seq db + 1; fc_command_id := command_id;
           fc_file_path := file_path; fc_change_type := change_type;
           fc_old_hash := old_hash; fc_new_hash := new_hash;
           fc_old_size := old_size; fc_new_size := new_size;
           fc_backup_path := backup_path;
           fc_created_at := env_sql_now env |}] /\
  (forall other, other <> command_id ->
     get_file_changes
       (record_file_change env db command_id file_path change_type
          old_hash new_hash old_size new_size backup_path) other
     = get_file_changes db other) /\
  commands
    (record_file_change env db command_id file_path change_type
       old_hash new_hash old_size new_size backup_path) = commands db /\
  sessions
    (record_file_change env db command_id file_path change_type
       old_hash new_hash old_size new_size backup_path) = sessions db.
Proof.
  unfold get_file_changes. simpl. split; [|split; [|split]].
  - rewrite filter_app, filter_cons. simpl.
    rewrite decide_True by reflexivity. reflexivity.
  - intros other Hne. rewrite filter_app, filter_cons. simpl.
    rewrite decide_False by (intros Heq; apply Hne; symmetry; exact Heq).
    rewrite filter_nil, app_nil_r. reflexivity.
  - reflexivity.
  - reflexivity.
Qed.

(** X4.  [end_session] on an id without row changes nothing.  On an
    existing row it sets the end time and keeps every other column, the
    counters included; other rows, commands and file changes are untouched. *)
Theorem end_session_effect (env : Env) (db : DB) (sid : string) :
  (get_session db sid = None -> end_session env db sid = db) /\
  (forall s,
     get_session db sid = Some s ->
     exists s',
       get_session (end_session env db sid) sid = Some s' /\
       s_ended_at s' = Some (env_now env) /\
       s_id s' = s_id s /\ s_name s' = s_name s /\
       s_description s' = s_description s /\
       s_started_at s' = s_started_at s /\
       s_command_count s' = s_command_count s /\
       s_success_count s' = s_success_count s /\
       s_error_count s' = s_error_count s /\
       s_cwd_start s' = s_cwd_start s /\
       s_agent_name s' = s_agent_name s /\
       s_metadata s' = s_metadata s) /\
  (forall other, other <> sid ->
     get_session (end_session env db sid) other = get_session db other) /\
  commands (end_session env db sid) = commands db /\
  file_changes (end_session env db sid) = file_changes db.
Proof.
  unfold get_session. split; [|split; [|split; [|split]]].
  - intros Hnone. destruct db as [cs seq fts fcs fseq ss].
    unfold end_session. simpl in *. f_equal.
    apply map_eq. intros k. destruct (decide (sid = k)) as [<-|Hne].
    + rewrite lookup_alter_eq, Hnone. reflexivity.
    + apply lookup_alter_ne. exact Hne.
  - intros s Hs. eexists. split.
    + simpl. rewrite lookup_alter_eq, Hs. reflexivity.
    + simpl. repeat split.
  - intros other Hne. simpl. apply lookup_alter_ne. congruence.
  - reflexivity.
  - reflexivity.
Qed.

(** ** Invariants of the stores that the methods build *)

Lemma reachable_wf (db : DB) : reachable db -> ledger_wf db.
Proof.
  induction 1.
  - apply empty_db_wf.
  - apply start_session_wf. assumption.
  - apply end_session_wf. assumption.
  - apply record_command_wf. assumption.
  - apply record_file_change_wf. assumption.
Qed.

Lemma seq_snoc_Z (n : nat) :
  List.map Z.of_nat (seq 1 (S n))
  = List.map Z.of_nat (seq 1 n) ++ [Z.of_nat n + 1].
Proof.
  rewrite seq_S, List.map_app. simpl. f_equal. f_equal. lia.
Qed.

(** X5.  In every store built by the methods, the ids of the commands are
    1, 2, ..., n in insertion order, and so are the ids of the file change
    records; the full-text index has exactly one row per command, in the
    same order, with the id, the command text, and the output or the empty
    string. *)
Theorem reachable_ids_dense (db : DB) :
  reachable db ->
  List.map cmd_id (commands db)
  = List.map Z.of_nat (seq 1 (length (commands db))) /\
  commands_seq db = Z.of_nat (length (commands db)) /\
  List.map fc_id (file_changes db)
  = List.map Z.of_nat (seq 1 (length (file_changes db))) /\
  file_changes_seq db = Z.of_nat (length (file_changes db)) /\
  commands_fts db = List.map index_of (commands db).
Proof.
  induction 1 as [|env db sid name description agent_name metadata Hr IH
                  |env db sid Hr IH|env db sid a Hr IH
                  |env db cid fp ct oh nh os ns bp Hr IH].
  - simpl. auto.
  - exact IH.
  - exact IH.
  - destruct IH as (Hids & Hseq & Hfids & Hfseq & Hfts). simpl.
    rewrite !length_app, !List.map_app. simpl.
    replace (length (commands db) + 1)%nat with (S (length (commands db)))
      by lia.
    rewrite seq_snoc_Z, Hids, Hseq, Hfts.
    repeat split; auto. lia.
  - destruct IH as (Hids & Hseq & Hfids & Hfseq & Hfts). simpl.
    rewrite !length_app, !List.map_app. simpl.
    replace (length (file_changes db) + 1)%nat
      with (S (length (file_changes db))) by lia.
    rewrite seq_snoc_Z, Hfids, Hfseq.
    repeat split; auto. lia.
Qed.

Lemma db_build_test_reachable : reachable db_build_test.
Proof.
  exact (reach_record_command _ _ "s" _
           (reach_record_command _ _ "s" _
              (reach_start_session _ _ "s" None None None None reach_empty))).
Qed.

(** The theorem on the ledger with two commands. *)
Lemma reachable_ids_dense_witness :
  reachable db_build_test /\
  List.map cmd_id (commands db_build_test) = [1; 2] /\
  commands_seq db_build_test = 2.
Proof.
  split; [exact db_build_test_reachable|].
  destruct (reachable_ids_dense db_build_test db_build_test_reachable)
    as (Hids & Hseq & _).
  split; [exact Hids|exact Hseq].
Defined.

Lemma commands_of_record (env : Env) (db : DB) (sid k : string)
    (a : command_args) :
  exists row,
    cmd_exit_code row = arg_exit_code a /\
    commands_of (record_command env db sid a).2 k
    = commands_of db k ++ (if String.eqb sid k then [row] else []).
Proof.
  eexists. split; [|unfold commands_of; simpl; rewrite List.filter_app;
                    simpl; reflexivity].
  reflexivity.
Qed.

Lemma exit_counts_snoc (l : list command) (row : command) :
  exit_zero_count (l ++ [row])
  = exit_zero_count l + case_eq_zero (cmd_exit_code row) /\
  exit_nonzero_count (l ++ [row])
  = exit_nonzero_count l + case_ne_zero (cmd_exit_code row).
Proof.
  unfold exit_zero_count, exit_nonzero_count, case_eq_zero, case_ne_zero.
  rewrite !List.filter_app, !length_app. simpl.
  destruct (sql_true (sql_eq (cmd_exit_code row) (Some 0)));
    destruct (sql_true (sql_ne (cmd_exit_code row) (Some 0)));
    simpl; split; lia.
Qed.

(** X6.  In every store built by the methods, each session row is filed
    under its own id, its counters are not negative, [success_count] and
    [error_count] together do not exceed [command_count], and none of the
    three exceeds the number of commands of the table that name the session
    (with exit code 0, with an exit code other than 0, and in all). *)
Theorem reachable_session_counters (db : DB) :
  reachable db ->
  forall sid s,
    get_session db sid = Some s ->
    s_id s = sid /\
    0 <= s_success_count s <= exit_zero_count (commands_of db sid) /\
    0 <= s_error_count s <= exit_nonzero_count (commands_of db sid) /\
    s_success_count s + s_error_count s <= s_command_count s /\
    s_command_count s <= Z.of_nat (length (commands_of db sid)).
Proof.
  unfold get_session.
  induction 1 as [|env db sid0 name description agent_name metadata Hr IH
                  |env db sid0 Hr IH|env db sid0 a Hr IH
                  |env db cid fp ct oh nh os ns bp Hr IH];
    intros sid s Hs.
  - simpl in Hs. rewrite lookup_empty in Hs. discriminate.
  - simpl in Hs. destruct (decide (sid0 = sid)) as [->|Hne].
    + rewrite lookup_insert_eq in Hs. injection Hs as <-. simpl.
      unfold exit_zero_count, exit_nonzero_count. repeat split; lia.
    + rewrite lookup_insert_ne in Hs by exact Hne. apply IH, Hs.
  - simpl in Hs. destruct (decide (sid0 = sid)) as [->|Hne].
    + rewrite lookup_alter_eq in Hs.
      destruct (sessions db !! sid) as [s0|] eqn:E; [|discriminate].
      simpl in Hs. injection Hs as <-. simpl. apply (IH sid s0 E).
    + rewrite lookup_alter_ne in Hs by exact Hne. apply IH, Hs.
  - destruct (commands_of_record env db sid0 sid a) as (row & Hrow & Hco).
    rewrite Hco. simpl in Hs.
    destruct (decide (sid0 = sid)) as [->|Hne].
    + rewrite lookup_alter_eq in Hs.
      destruct (sessions db !! sid) as [s0|] eqn:E; [|discriminate].
      simpl in Hs. injection Hs as <-. simpl.
      rewrite String.eqb_refl.
      destruct (exit_counts_snoc (commands_of db sid) row) as [Hz Hnz].
      rewrite Hz, Hnz, Hrow, length_app. simpl.
      destruct (IH sid s0 E) as (Hid & Hsu & Her & Hsum & Hcnt).
      destruct (case_sum_le_1 (arg_exit_code a)) as (H0 & H0' & H1 & _).
      repeat split; lia || assumption.
    + rewrite lookup_alter_ne in Hs by exact Hne.
      assert (Hb : String.eqb sid0 sid = false) by (apply String.eqb_neq, Hne).
      rewrite Hb, app_nil_r. apply IH, Hs.
  - apply IH, Hs.
Qed.

(** The theorem on the ledger with two commands in session "s". *)
Lemma reachable_session_counters_witness :
  reachable db_build_test /\
  exists s,
    get_session db_build_test "s" = Some s /\
    s_success_count s + s_error_count s <= s_command_count s /\
    s_command_count s <= 2.
Proof.
  split; [exact db_build_test_reachable|].
  eexists. split; [reflexivity|].
  destruct (reachable_session_counters db_build_test db_build_test_reachable
              "s" _ eq_refl) as (_ & _ & _ & Hsum & Hcnt).
  split; [exact Hsum|exact Hcnt].
Defined.

(** ** Queries by range *)

Lemma ascii_compare_trans_lt (x y z : ascii) :
  Ascii.compare x y = Lt -> Ascii.compare y z = Lt -> Ascii.compare x z = Lt.
Proof.
  unfold Ascii.compare. rewrite !N.compare_lt_iff. lia.
Qed.

Lemma string_leb_trans (a b c : string) :
  String.leb a b = true -> String.leb b c = true -> String.leb a c = true.
Proof.
  unfold String.leb. revert b c.
  induction a as [|x a IH]; intros [|y b] [|z c]; simpl; auto;
    try discriminate.
  destruct (Ascii.compare x y) eqn:Exy; try discriminate;
    destruct (Ascii.compare y z) eqn:Eyz; try discriminate; intros H1 H2.
  - apply Ascii.compare_eq_iff in Exy, Eyz. subst.
    assert (Hzz : Ascii.compare z z = Eq)
      by (unfold Ascii.compare; apply N.compare_refl).
    rewrite Hzz. apply (IH b c); assumption.
  - apply Ascii.compare_eq_iff in Exy. subst. rewrite Eyz. reflexivity.
  - apply Ascii.compare_eq_iff in Eyz. subst. rewrite Exy. reflexivity.
  - rewrite (ascii_compare_trans_lt x y z Exy Eyz). reflexivity.
Qed.

Lemma insert_desc_sorted (c : command) (l : list command) :
  StronglySorted newer_or_same l ->
  StronglySorted newer_or_same (insert_desc c l).
Proof.
  induction l as [|x l IH]; intros Hs; simpl.
  - repeat constructor.
  - inversion Hs as [|? ? Hl Hx]; subst.
    destruct (String.leb (cmd_timestamp x) (cmd_timestamp c)) eqn:E.
    + constructor; [exact Hs|]. constructor; [exact E|].
      rewrite List.Forall_forall in *. intros y Hy.
      unfold newer_or_same in *.
      eapply string_leb_trans; [apply Hx, Hy|exact E].
    + constructor; [apply IH, Hl|].
      rewrite List.Forall_forall in *. intros y Hy.
      apply insert_desc_In in Hy as [->|Hy]; [|apply Hx, Hy].
      unfold newer_or_same.
      destruct (String.leb_total (cmd_timestamp c) (cmd_timestamp x));
        [assumption|congruence].
Qed.

Lemma order_by_timestamp_desc_sorted (l : list command) :
  StronglySorted newer_or_same (order_by_timestamp_desc l).
Proof.
  unfold order_by_timestamp_desc. induction l as [|c l IH]; simpl.
  - constructor.
  - apply insert_desc_sorted, IH.
Qed.

Lemma insert_desc_Permutation (c : command) (l : list command) :
  Permutation (insert_desc c l) (c :: l).
Proof.
  induction l as [|x l IH]; simpl; [reflexivity|].
  destruct (String.leb (cmd_timestamp x) (cmd_timestamp c)); [reflexivity|].
  rewrite IH. apply perm_swap.
Qed.

Lemma order_by_timestamp_desc_Permutation (l : list command) :
  Permutation (order_by_timestamp_desc l) l.
Proof.
  unfold order_by_timestamp_desc. induction l as [|c l IH]; simpl;
    [reflexivity|].
  rewrite insert_desc_Permutation, IH. reflexivity.
Qed.

Lemma sql_limit_split {A : Type} (limit : Z) (l : list A) :
  exists rest,
    l = sql_limit limit l ++ rest /\
    (limit < 0 \/ Z.of_nat (length l) <= limit -> rest = []) /\
    (0 <= limit -> Z.of_nat (length (sql_limit limit l)) <= limit).
Proof.
  unfold sql_limit. destruct (Z.ltb_spec limit 0).
  - exists []. rewrite app_nil_r. repeat split; auto. lia.
  - exists (drop (Z.to_nat limit) l). split; [symmetry; apply take_drop|].
    split.
    + intros [Hn|Hle]; [lia|]. apply drop_ge. lia.
    + intros _. rewrite length_take. lia.
Qed.

Lemma StronglySorted_app_inv (l1 l2 : list command) :
  StronglySorted newer_or_same (l1 ++ l2) ->
  StronglySorted newer_or_same l1 /\
  forall k d, In k l1 -> In d l2 -> newer_or_same k d.
Proof.
  induction l1 as [|x l1 IH]; simpl; intros Hs.
  - split; [constructor|]. intros k d [].
  - inversion Hs as [|? ? Hl Hx]; subst.
    destruct (IH Hl) as [Hs1 Hcross]. split.
    + constructor; [exact Hs1|].
      rewrite List.Forall_forall in *. intros y Hy.
      apply Hx. apply in_or_app. left. exact Hy.
    + intros k d [<-|Hk] Hd.
      * rewrite List.Forall_forall in Hx. apply Hx.
        apply in_or_app. right. exact Hd.
      * apply Hcross; assumption.
Qed.

Lemma eval_conds_range (session_id since : option string) (with_errors : bool)
    (c : command) :
  eval_conds
    ((match Py.if_str session_id with
      | Some s => [SessionIdEq s]
      | None => []
      end
      ++ match Py.if_str since with
         | Some t => [TimestampGe t]
         | None => []
         end)
     ++ (if with_errors then [ExitCodeNonZero] else [])) c = true
  <-> in_range session_id since with_errors c.
Proof.
  unfold eval_conds, in_range. rewrite !forallb_app, !andb_true_iff.
  assert (H1 : forallb (fun c0 => eval_cond c0 c)
                 match Py.if_str session_id with
                 | Some s => [SessionIdEq s]
                 | None => []
                 end = true
               <-> (forall s, session_id = Some s -> s <> "" ->
                              cmd_session_id c = s)).
  { destruct (Py.if_str session_id) as [s|] eqn:E.
    - apply if_str_Some in E as [-> Hs]. simpl. rewrite andb_true_r.
      rewrite String.eqb_eq. split.
      + intros Heq s' [= <-] _. exact Heq.
      + intros Hall. apply Hall; auto.
    - simpl. split; [|reflexivity]. intros _ s Hs Hne.
      assert (Py.if_str session_id = Some s) by (apply if_str_Some; auto).
      congruence. }
  assert (H2 : forallb (fun c0 => eval_cond c0 c)
                 match Py.if_str since with
                 | Some t => [TimestampGe t]
                 | None => []
                 end = true
               <-> (forall t, since = Some t -> t <> "" ->
                              String.leb t (cmd_timestamp c) = true)).
  { destruct (Py.if_str since) as [t|] eqn:E.
    - apply if_str_Some in E as [-> Ht]. simpl. rewrite andb_true_r. split.
      + intros Heq t' [= <-] _. exact Heq.
      + intros Hall. apply Hall; auto.
    - simpl. split; [|reflexivity]. intros _ t Ht Hne.
      assert (Py.if_str since = Some t) by (apply if_str_Some; auto).
      congruence. }
  assert (H3 : forallb (fun c0 => eval_cond c0 c)
                 (if with_errors then [ExitCodeNonZero] else []) = true
               <-> (with_errors = true ->
                    exists code, cmd_exit_code c = Some code /\ code <> 0)).
  { destruct with_errors; simpl.
    - rewrite andb_true_r. destruct (cmd_exit_code c) as [code|]; simpl.
      + destruct (Z.eqb_spec code 0) as [->|Hne]; simpl; split.
        * discriminate.
        * intros Hx. destruct (Hx eq_refl) as (k & [= <-] & Hk). congruence.
        * intros _ _. exists code. auto.
        * reflexivity.
      + split; [discriminate|].
        intros Hx. destruct (Hx eq_refl) as (k & Hk & _). discriminate.
    - split; [intros _ Hf; discriminate|reflexivity]. }
  rewrite H1, H2, H3. tauto.
Qed.

Section RangeMode.

Variable fts5 : string -> option (string -> string -> bool).

(** Without search text the statement is the plain SELECT with the
    conditions that were asked for. *)
Lemma get_commands_range (db : DB) (session_id : option string) (limit : Z)
    (since : option string) (with_errors : bool) (search : option string) :
  Py.truthy search = false ->
  get_commands fts5 db session_id limit since with_errors search
  = Py.Returns
      (sql_limit limit
         (order_by_timestamp_desc
            (List.filter
               (eval_conds
                  ((match Py.if_str session_id with
                    | Some s => [SessionIdEq s]
                    | None => []
                    end
                    ++ match Py.if_str since with
                       | Some t => [TimestampGe t]
                       | None => []
                       end)
                   ++ (if with_errors then [ExitCodeNonZero] else [])))
               (commands db)))).
Proof.
  intros Hs. apply falsy_if_str in Hs. unfold get_commands. rewrite Hs.
  destruct (Py.if_str session_id), (Py.if_str since), with_errors;
    reflexivity.
Qed.

(** X7.  Without a search text [get_commands] never fails.  Every row it
    returns is a row of the table that satisfies each filter that was
    asked for: the session id, the inclusive lower bound on the timestamp
    (compared as text), and for [with_errors] an exit code that is present
    and not 0.  When the limit is negative or at least the size of the
    table, the result is a rearrangement of exactly those rows. *)
Theorem get_commands_range_sound_complete (db : DB)
    (session_id : option string) (limit : Z) (since : option string)
    (with_errors : bool) (search : option string) :
  Py.truthy search = false ->
  exists rows,
    get_commands fts5 db session_id limit since with_errors search
    = Py.Returns rows /\
    (forall c, In c rows ->
       In c (commands db) /\ in_range session_id since with_errors c) /\
    (limit < 0 \/ Z.of_nat (length (commands db)) <= limit ->
     exists p : command -> bool,
       (forall c, p c = true <-> in_range session_id since with_errors c) /\
       Permutation rows (List.filter p (commands db))).
Proof.
  intros Hs. rewrite (get_commands_range db session_id limit since
                        with_errors search Hs).
  eexists. split; [reflexivity|]. split.
  - intros c Hc. apply sql_limit_In in Hc.
    apply -> order_by_timestamp_desc_In in Hc.
    apply filter_In in Hc as [Hin Hcond]. split; [exact Hin|].
    apply eval_conds_range, Hcond.
  - intros Hlim. eexists. split; [intros c; apply eval_conds_range|].
    destruct (sql_limit_split limit
                (order_by_timestamp_desc
                   (List.filter
                      (eval_conds
                         ((match Py.if_str session_id with
                           | Some s => [SessionIdEq s]
                           | None => []
                           end
                           ++ match Py.if_str since with
                              | Some t => [TimestampGe t]
                              | None => []
                              end)
                          ++ (if with_errors then [ExitCodeNonZero] else [])))
                      (commands db)))) as (rest & Heq & Hrest & _).
    assert (Hnil : rest = []).
    { apply Hrest. destruct Hlim as [Hn|Hle]; [left; exact Hn|right].
      rewrite (Permutation_length (order_by_timestamp_desc_Permutation _)).
      pose proof (List.filter_length_le
                    (eval_conds
                       ((match Py.if_str session_id with
                         | Some s => [SessionIdEq s]
                         | None => []
                         end
                         ++ match Py.if_str since with
                            | Some t => [TimestampGe t]
                            | None => []
                            end)
                        ++ (if with_errors then [ExitCodeNonZero] else [])))
                    (commands db)).
      lia. }
    rewrite Hnil, app_nil_r in Heq. rewrite <- Heq.
    apply order_by_timestamp_desc_Permutation.
Qed.

(** X8.  Whenever [get_commands] returns, in either mode, the rows come
    newest first, there are at most [limit] of them when the limit is not
    negative, and they are the first rows of what the same call returns
    without limit: no row that the limit cuts off is newer than a row that
    is kept. *)
Theorem get_commands_newest_first (db : DB) (session_id : option string)
    (limit : Z) (since : option string) (with_errors : bool)
    (search : option string) (rows : list command) :
  get_commands fts5 db session_id limit since with_errors search
  = Py.Returns rows ->
  StronglySorted newer_or_same rows /\
  (0 <= limit -> Z.of_nat (length rows) <= limit) /\
  exists rest,
    get_commands fts5 db session_id (-1) since with_errors search
    = Py.Returns (rows ++ rest) /\
    (limit < 0 -> rest = []) /\
    forall kept cut, In kept rows -> In cut rest -> newer_or_same kept cut.
Proof.
  unfold get_commands.
  set (q := match Py.if_str search with
            | Some pat => _
            | None => _
            end).
  destruct (select_rows fts5 db q) as [sel|e] eqn:Esel; [|discriminate].
  simpl. intros [= <-].
  destruct (sql_limit_split limit (order_by_timestamp_desc sel))
    as (rest & Heq & Hrest & Hlen).
  pose proof (order_by_timestamp_desc_sorted sel) as Hsorted.
  rewrite Heq in Hsorted.
  apply StronglySorted_app_inv in Hsorted as [Hs Hcross].
  split; [exact Hs|]. split; [exact Hlen|].
  exists rest. split.
  - unfold sql_limit at 1. simpl. f_equal. exact Heq.
  - split; [|exact Hcross]. intros Hn. apply Hrest. left. exact Hn.
Qed.

End RangeMode.

(** The theorem on the ledger with sessions "s" and "t": the failed
    commands of "t". *)
Lemma get_commands_range_sound_complete_witness :
  Py.truthy None = false /\
  exists rows,
    get_commands SimpleFTS.fts5 db_two_sessions (Some "t") 10 None true None
    = Py.Returns rows /\
    List.map cmd_command rows = ["build docs"] /\
    forall c, In c rows -> cmd_session_id c = "t".
Proof.
  assert (Hs : Py.truthy None = false) by reflexivity.
  split; [exact Hs|].
  destruct (get_commands_range_sound_complete SimpleFTS.fts5 db_two_sessions
              (Some "t") 10 None true None Hs) as (rows & Hr & Hsound & _).
  exists rows. split; [exact Hr|]. split.
  - assert (Hv : exists rows0,
      get_commands SimpleFTS.fts5 db_two_sessions (Some "t") 10 None true None
      = Py.Returns rows0 /\ List.map cmd_command rows0 = ["build docs"]).
    { eexists. split; vm_compute; reflexivity. }
    destruct Hv as (rows0 & Hr0 & Hm). rewrite Hr in Hr0.
    injection Hr0 as <-. exact Hm.
  - intros c Hc. destruct (Hsound c Hc) as [_ (Hsid & _ & _)].
    apply Hsid; [reflexivity|discriminate].
Defined.

(** The theorem on the ledger with two commands and limit 1: the newer
    command is kept. *)
Lemma get_commands_newest_first_witness :
  exists rows,
    get_commands SimpleFTS.fts5 db_build_test None 1 None false None
    = Py.Returns rows /\
    List.map cmd_command rows = ["test project"] /\
    Z.of_nat (length rows) <= 1.
Proof.
  eassert (Hr : get_commands SimpleFTS.fts5 db_build_test None 1 None false
                  None = Py.Returns _) by (vm_compute; reflexivity).
  eexists. split; [exact Hr|]. split; [reflexivity|].
  destruct (get_commands_newest_first SimpleFTS.fts5 db_build_test None 1
              None false None _ Hr) as (_ & Hlen & _).
  apply Hlen. lia.
Defined.

(** * Further properties of the file change tracker *)

Lemma flat_map_nil {A B : Type} (f : A -> list B) (l : list A) :
  (forall x, In x l -> f x = []) -> flat_map f l = [].
Proof.
  induction l as [|x l IH]; intros Hall; [reflexivity|].
  simpl. rewrite (Hall x) by (left; reflexivity).
  apply IH. intros y Hy. apply Hall. right. exact Hy.
Qed.

Lemma dict_set_In {V : Type} (k k0 : string) (v v0 : V) (d : dict V) :
  In (k0, v0) (dict_set k v d) -> (k0 = k /\ v0 = v) \/ In (k0, v0) d.
Proof.
  induction d as [|[k' v'] d IH]; simpl.
  - intros [[= <- <-]|[]]. auto.
  - destruct (String.eqb_spec k' k) as [->|Hne]; simpl.
    + intros [[= <- <-]|Hin]; auto.
    + intros [Heq|Hin]; auto. destruct (IH Hin); auto.
Qed.

Section TrackerMore.

Context {FS : Type} `{FileSystem FS}.

(** Each entry that [watch_files] keeps holds the digest and size of the
    path it is filed under. *)
Lemma watch_files_entries (fs : FS) (file_paths : list string) :
  Forall (fun p => path_str p = p) file_paths ->
  forall k v,
    In (k, v) (watch_files fs file_paths) ->
    v = (get_file_hash fs k, get_file_size fs k).
Proof.
  unfold watch_files. intros Hnorm.
  assert (Hgen : forall (acc : snapshot),
    (forall k v, In (k, v) acc ->
                 v = (get_file_hash fs k, get_file_size fs k)) ->
    forall k v,
      In (k, v)
        (foldl (fun watched file_path =>
                  dict_set (path_str file_path)
                    (get_file_hash fs file_path, get_file_size fs file_path)
                    watched) acc file_paths) ->
      v = (get_file_hash fs k, get_file_size fs k)).
  { induction Hnorm as [|p ps Hp Hps IH]; intros acc Hacc k v Hin.
    - apply Hacc, Hin.
    - simpl in Hin. refine (IH _ _ k v Hin).
      intros k0 v0 Hin0. apply dict_set_In in Hin0 as [[-> ->]|Hin0].
      + rewrite Hp. reflexivity.
      + apply Hacc, Hin0. }
  apply Hgen. intros k v [].
Qed.

Lemma check_individual_same (fs : FS) (k : string) :
  check_individual fs (k, (get_file_hash fs k, get_file_size fs k)) = [].
Proof.
  unfold check_individual.
  destruct (get_file_hash fs k) as [h|]; rewrite decide_True by reflexivity;
    reflexivity.
Qed.

Lemma detect_after_watch_directory (fs : FS) (d : string) :
  detect_changes fs (watch_directory fs d) (Some d) = [].
Proof.
  unfold detect_changes, watch_directory.
  pose proof (snapshot_directory_NoDup fs d) as Hnd.
  set (live := snapshot_directory fs d) in *.
  rewrite !flat_map_nil; [reflexivity| |].
  - intros [k [h s]] Hin. simpl. unfold dict_mem.
    rewrite (In_dict_get k (h, s) live Hnd Hin). reflexivity.
  - intros [k [h s]] Hin. simpl.
    rewrite (In_dict_get k (h, s) live Hnd Hin).
    rewrite decide_True by reflexivity. reflexivity.
Qed.

(** X9.  A directory that is watched and checked with nothing changed in
    between gives no change descriptor.  With an empty baseline, directory
    mode reports every file of the live snapshot as created and individual
    mode reports nothing. *)
Theorem detect_changes_no_false_positive (fs : FS) (d : string) :
  detect_changes fs (watch_directory fs d) (Some d) = [] /\
  detect_changes fs [] (Some d)
  = List.map (fun e => Created (path_join d (fst e)) (fst (snd e))
                         (snd (snd e)))
      (snapshot_directory fs d) /\
  detect_changes fs [] None = [].
Proof.
  split; [apply detect_after_watch_directory|]. split; [|reflexivity].
  unfold detect_changes. simpl.
  induction (snapshot_directory fs d) as [|[k [h s]] l IH]; [reflexivity|].
  simpl. rewrite IH. reflexivity.
Qed.

(** X10.  Files that are watched and checked with nothing changed in
    between give no change descriptor, whether they exist or not and
    however often a path is listed.  (The paths are given as [Path]
    objects, whose text [str(Path(p))] leaves unchanged.) *)
Theorem detect_changes_files_no_false_positive (fs : FS)
    (file_paths : list string) :
  Forall (fun p => path_str p = p) file_paths ->
  detect_changes fs (watch_files fs file_paths) None = [].
Proof.
  intros Hnorm. unfold detect_changes. apply flat_map_nil.
  intros [k v] Hin.
  rewrite (watch_files_entries fs file_paths Hnorm k v Hin).
  apply check_individual_same.
Qed.

Lemma count_changes_individual (fs : FS) (p : string) :
  forall watched : snapshot,
    NoDup (dict_keys watched) ->
    count_changes p (flat_map (check_individual fs) watched)
    = match dict_get p watched with
      | Some v => length (check_individual fs (p, v))
      | None => O
      end.
Proof.
  assert (Hpath : forall k v c,
            In c (check_individual fs (k, v)) -> change_path c = k).
  { intros k [h s] c. unfold check_individual.
    destruct h as [h|], (get_file_hash fs k) as [h'|];
      try (destruct (decide _)); simpl; intros Hin;
      repeat (destruct Hin as [<-|Hin]; [reflexivity|]);
      destruct Hin. }
  induction watched as [|[k v] l IH]; intros Hnd; [reflexivity|].
  simpl in Hnd. apply NoDup_cons in Hnd as [Hk Hnd].
  simpl. rewrite count_changes_app, (IH Hnd).
  destruct (String.eqb_spec k p) as [->|Hne].
  - rewrite count_changes_all by (intros c Hc; eapply Hpath, Hc).
    assert (Hnone : dict_get p l = None).
    { apply dict_get_None. intros Hin. apply Hk, list_elem_of_In, Hin. }
    rewrite Hnone. lia.
  - rewrite count_changes_none; [reflexivity|].
    intros c Hc Heq. apply Hpath in Hc. congruence.
Qed.

(** X11.  In individual-file mode, for a baseline with distinct keys, a
    watched path gets at most one descriptor: [Created] when it had no
    digest and has one now, [Deleted] when it had one and has none now,
    [Modified] with both sizes when both digests are there and differ, and
    none when the digest is the same, whatever the sizes are.  Nothing
    else is reported. *)
Theorem detect_changes_individual (fs : FS) (watched : snapshot) :
  NoDup (dict_keys watched) ->
  (forall p h s,
     dict_get p watched = Some (h, s) ->
     count_changes p (detect_changes fs watched None)
     = (if decide (h = get_file_hash fs p) then O else 1%nat) /\
     (h = None -> get_file_hash fs p <> None ->
      In (Created p (get_file_hash fs p) (get_file_size fs p))
        (detect_changes fs watched None)) /\
     (h <> None -> get_file_hash fs p = None ->
      In (Deleted p h s) (detect_changes fs watched None)) /\
     (h <> None -> get_file_hash fs p <> None -> h <> get_file_hash fs p ->
      In (Modified p h (get_file_hash fs p) s (get_file_size fs p))
        (detect_changes fs watched None))) /\
  (forall c,
     In c (detect_changes fs watched None) ->
     exists h s,
       dict_get (change_path c) watched = Some (h, s) /\
       h <> get_file_hash fs (change_path c)).
Proof.
  intros Hnd. unfold detect_changes. split.
  - intros p h s Hw.
    assert (Hin : In (p, (h, s)) watched) by (apply dict_get_In, Hw).
    split.
    { rewrite (count_changes_individual fs p watched Hnd), Hw.
      unfold check_individual.
      destruct h as [h|], (get_file_hash fs p) as [h'|];
        destruct (decide _) as [Heq|Hne]; try reflexivity;
        try congruence. }
    split; [|split].
    + intros -> Hnew. apply in_flat_map. exists (p, (None, s)).
      split; [exact Hin|]. unfold check_individual.
      destruct (get_file_hash fs p); [left; reflexivity|congruence].
    + intros Hold Hnew. apply in_flat_map. exists (p, (h, s)).
      split; [exact Hin|]. unfold check_individual. rewrite Hnew.
      destruct h; [left; reflexivity|congruence].
    + intros Hold Hnew Hne. apply in_flat_map. exists (p, (h, s)).
      split; [exact Hin|]. unfold check_individual.
      destruct h as [h|]; [|congruence].
      destruct (get_file_hash fs p) as [h'|]; [|congruence].
      rewrite decide_False by exact Hne. left. reflexivity.
  - intros c Hc. apply in_flat_map in Hc as ([p [h s]] & Hin & Hc).
    apply In_dict_get in Hin; [|exact Hnd].
    unfold check_individual in Hc.
    destruct h as [h|], (get_file_hash fs p) as [h'|] eqn:E;
      try (destruct (decide _) as [Heq|Hne]); simpl in Hc;
      try (destruct Hc as [<-|[]]); try destruct Hc;
      simpl; eexists; eexists; (split; [exact Hin|]); rewrite E; congruence.
Qed.

End TrackerMore.

(** X12.  When the directory does not exist any more, its snapshot is
    empty and directory mode reports every baseline entry as deleted, in
    baseline order, and nothing else. *)
Theorem detect_changes_directory_gone {FS : Type} `{FileSystem FS}
    (fs : FS) (watched : snapshot) (d : string) :
  path_exists fs d = false ->
  snapshot_directory fs d = [] /\
  detect_changes fs watched (Some d)
  = List.map (fun e => Deleted (path_join d (fst e)) (fst (snd e))
                         (snd (snd e))) watched.
Proof.
  intros Hgone.
  assert (Hsnap : snapshot_directory fs d = []).
  { unfold snapshot_directory. rewrite Hgone. reflexivity. }
  split; [exact Hsnap|].
  unfold detect_changes. rewrite Hsnap. simpl. rewrite app_nil_r.
  induction watched as [|[k [h s]] l IH]; [reflexivity|].
  simpl. rewrite IH. reflexivity.
Qed.

(** The theorem for a directory that is not there. *)
Lemma detect_changes_directory_gone_witness :
  path_exists fs_only_b "/gone" = false /\
  detect_changes fs_only_b baseline_two (Some "/gone")
  = [Deleted "/gone/a" (Some "md5:1") (Some 1);
     Deleted "/gone/sub/b" None None].
Proof.
  assert (Hg : path_exists fs_only_b "/gone" = false)
    by (vm_compute; reflexivity).
  split; [exact Hg|].
  destruct (detect_changes_directory_gone fs_only_b baseline_two "/gone" Hg)
    as [_ Hd].
  rewrite Hd. vm_compute. reflexivity.
Defined.

(** The theorem for a file and a missing path, the file listed twice. *)
Lemma detect_changes_files_no_false_positive_witness :
  Forall (fun p => path_str p = p) ["/w/b"; "/w/none"; "/w/b"] /\
  List.map fst (watch_files fs_only_b ["/w/b"; "/w/none"; "/w/b"])
  = ["/w/b"; "/w/none"] /\
  detect_changes fs_only_b
    (watch_files fs_only_b ["/w/b"; "/w/none"; "/w/b"]) None = [].
Proof.
  assert (Hn : Forall (fun p => path_str p = p) ["/w/b"; "/w/none"; "/w/b"])
    by (repeat constructor).
  split; [exact Hn|]. split; [vm_compute; reflexivity|].
  apply (detect_changes_files_no_false_positive fs_only_b _ Hn).
Defined.

(** The theorem for the baseline {a} in individual mode, with "/w/b"
    watched while it did not exist. *)
Lemma detect_changes_individual_witness :
  NoDup (dict_keys [("/w/b", (@None string, @None Z))]) /\
  count_changes "/w/b"
    (detect_changes fs_only_b [("/w/b", (None, None))] None) = 1%nat /\
  In (Created "/w/b" (Some "md5:new") (Some 3))
    (detect_changes fs_only_b [("/w/b", (None, None))] None).
Proof.
  assert (Hnd : NoDup (dict_keys [("/w/b", (@None string, @None Z))]))
    by apply NoDup_singleton.
  split; [exact Hnd|].
  destruct (detect_changes_individual fs_only_b
              [("/w/b", (None, None))] Hnd) as [Hper _].
  destruct (Hper "/w/b" None None eq_refl) as (Hcount & Hcre & _).
  split.
  - rewrite Hcount. vm_compute. reflexivity.
  - apply Hcre; [reflexivity|]. vm_compute. discriminate.
Defined.

(** * Further properties of the rollback engine *)

Section RollbackMore.

Context {FS : Type} `{FileSystem FS}.

Lemma rollback_command_dry (fs : FS) (db : DB) (command_id : Z) :
  exists r,
    rollback_command fs db command_id true = Py.Returns (r, fs) /\
    Forall (fun a => act_status a = "pending") (r_actions r).
Proof.
  destruct (can_rollback fs db command_id) as [[|] reason] eqn:Ec.
  - rewrite rollback_command_accepted by (rewrite Ec; reflexivity).
    destruct (rollback_loop_dry (get_file_changes db command_id) fs)
      as (actions & Hl & Hall & _).
    rewrite Hl. simpl. eexists. split; [reflexivity|]. exact Hall.
  - rewrite (rollback_command_refused fs db command_id true reason Ec).
    eexists. split; [reflexivity|]. constructor.
Qed.

Lemma rollback_first_skip (fs : FS) (db : DB) (dry_run : bool)
    (pre rest : list command) :
  Forall (fun c => get_file_changes db (cmd_id c) = []) pre ->
  rollback_first fs db dry_run (pre ++ rest)
  = rollback_first fs db dry_run rest.
Proof.
  induction 1 as [|c pre Hc Hpre IH]; [reflexivity|].
  simpl. rewrite Hc. exact IH.
Qed.

Variable fts5 : string -> option (string -> string -> bool).

(** X13.  A dry run of [rollback_last] returns, leaves the filesystem as
    it was whichever command it picks or when it finds none, and every
    action it lists is pending. *)
Theorem rollback_last_dry_run_pure (fs : FS) (db : DB) :
  exists r,
    rollback_last fts5 fs db true = Py.Returns (r, fs) /\
    Forall (fun a => act_status a = "pending") (r_actions r).
Proof.
  unfold rollback_last.
  rewrite (get_commands_range fts5 db None 20 None false None eq_refl).
  simpl Py.bind.
  induction (sql_limit 20 _) as [|c l IH]; simpl.
  - eexists. split; [reflexivity|]. constructor.
  - destruct (get_file_changes db (cmd_id c)) as [|x xs] eqn:E; [exact IH|].
    apply rollback_command_dry.
Qed.

Lemma sorted_newer (l : list command) :
  StronglySorted newer_or_same l ->
  NoDup (List.map cmd_timestamp l) ->
  StronglySorted newer l.
Proof.
  induction 1 as [|x l Hs IH Hall]; intros Hnd; [constructor|].
  simpl in Hnd. apply NoDup_cons in Hnd as [Hx Hnd].
  constructor; [apply IH, Hnd|].
  apply List.Forall_forall. intros y Hy. split.
  - apply (proj1 (List.Forall_forall _ _) Hall y Hy).
  - intros Heq. apply Hx. rewrite Heq.
    apply list_elem_of_In, in_map, Hy.
Qed.

(** X14.  Where no two commands have the same timestamp, [rollback_last]
    looks at the 20 newest commands only: the rows it gets are commands of
    the table, 20 of them or all when there are fewer, each newer than the
    next, and every command left out is older than each of them.  It rolls
    back the first of them, newest first, that has file change records: its
    result is the one of [rollback_command] on that command.  When none of
    them has records it refuses with "No recent commands with file changes
    found" and touches nothing, whatever older commands hold. *)
Theorem rollback_last_window (fs : FS) (db : DB) (dry_run : bool) :
  NoDup (List.map cmd_timestamp (commands db)) ->
  exists recent,
    get_commands fts5 db None 20 None false None = Py.Returns recent /\
    length recent = Nat.min 20 (length (commands db)) /\
    StronglySorted newer recent /\
    (forall c, In c recent -> In c (commands db)) /\
    (forall c k,
       In c (commands db) -> ~ In c recent -> In k recent -> newer k c) /\
    (Forall (fun c => get_file_changes db (cmd_id c) = []) recent ->
     rollback_last fts5 fs db dry_run
     = Py.Returns
         ({| r_success := false;
             r_error := Some "No recent commands with file changes found";
             r_dry_run := None; r_command_id := None; r_actions := [] |},
          fs)) /\
    (forall pre c post,
       recent = pre ++ c :: post ->
       Forall (fun x => get_file_changes db (cmd_id x) = []) pre ->
       get_file_changes db (cmd_id c) <> [] ->
       rollback_last fts5 fs db dry_run
       = rollback_command fs db (cmd_id c) dry_run).
Proof.
  intros Hnd. unfold rollback_last.
  rewrite (get_commands_range fts5 db None 20 None false None eq_refl).
  simpl Py.bind. simpl eval_conds.
  rewrite filter_no_conds.
  set (sorted := order_by_timestamp_desc (commands db)).
  pose proof (order_by_timestamp_desc_Permutation (commands db)) as Hperm.
  pose proof (order_by_timestamp_desc_sorted (commands db)) as Hsorted.
  fold sorted in Hperm, Hsorted.
  destruct (sql_limit_split 20 sorted) as (rest & Heq & _ & _).
  assert (Hnd' : NoDup (List.map cmd_timestamp (sql_limit 20 sorted ++ rest))).
  { rewrite <- Heq.
    rewrite (Permutation_map cmd_timestamp Hperm). exact Hnd. }
  rewrite Heq in Hsorted.
  apply StronglySorted_app_inv in Hsorted as [Hs Hcross].
  rewrite List.map_app in Hnd'.
  apply NoDup_app in Hnd' as (Hnd1 & Hdisj & _).
  eexists. split; [reflexivity|]. split.
  { unfold sql_limit. simpl. rewrite length_take.
    rewrite (Permutation_length Hperm). reflexivity. }
  split; [apply sorted_newer; assumption|]. split.
  { intros c Hc. apply sql_limit_In in Hc.
    apply (proj1 (order_by_timestamp_desc_In c (commands db))), Hc. }
  split.
  { intros c k Hc Hnot Hk.
    assert (Hin : In c (sql_limit 20 sorted ++ rest)).
    { rewrite <- Heq.
      apply (proj2 (order_by_timestamp_desc_In c (commands db))), Hc. }
    apply in_app_or in Hin as [Hin|Hin]; [contradiction|].
    split; [apply Hcross; assumption|].
    intros Ht. apply (Hdisj (cmd_timestamp k)).
    - apply list_elem_of_In, in_map, Hk.
    - rewrite Ht. apply list_elem_of_In, in_map, Hin. }
  split.
  - intros Hall.
    rewrite <- (app_nil_r (sql_limit 20 _)).
    rewrite (rollback_first_skip fs db dry_run _ [] Hall). reflexivity.
  - intros pre c post -> Hpre Hc.
    rewrite (rollback_first_skip fs db dry_run pre (c :: post) Hpre).
    simpl. destruct (get_file_changes db (cmd_id c)); [congruence|].
    reflexivity.
Qed.

(** X15.  A command whose records all have a change type other than
    created, modified and deleted passes [can_rollback], and applying its
    rollback does nothing: every action stays pending without an action
    kind, the filesystem is as it was, and the result is a success. *)
Theorem rollback_unknown_change_type (fs : FS) (db : DB) (command_id : Z) :
  get_file_changes db command_id <> [] ->
  Forall (fun fc => fc_change_type fc <> "created" /\
                    fc_change_type fc <> "modified" /\
                    fc_change_type fc <> "deleted")
    (get_file_changes db command_id) ->
  (can_rollback fs db command_id).1 = true /\
  rollback_command fs db command_id false
  = Py.Returns
      ({| r_success := true; r_error := None; r_dry_run := Some false;
          r_command_id := Some command_id;
          r_actions :=
            List.map (fun fc =>
                        {| act_file := fc_file_path fc;
                           act_type := fc_change_type fc;
                           act_status := "pending"; act_action := None;
                           act_backup := None; act_error := None |})
              (get_file_changes db command_id) |}, fs).
Proof.
  intros Hne Hall.
  assert (Hcan : (can_rollback fs db command_id).1 = true).
  { apply can_rollback_true. split; [exact Hne|].
    eapply Forall_impl; [exact Hall|]. simpl.
    intros fc (Hc & Hm & Hd). apply check_backup_other; assumption. }
  split; [exact Hcan|].
  rewrite rollback_command_accepted by exact Hcan.
  assert (Hloop : forall fcs,
    Forall (fun fc => fc_change_type fc <> "created" /\
                      fc_change_type fc <> "modified" /\
                      fc_change_type fc <> "deleted") fcs ->
    rollback_loop fs false fcs
    = Py.Returns
        (List.map (fun fc =>
                     {| act_file := fc_file_path fc;
                        act_type := fc_change_type fc;
                        act_status := "pending"; act_action := None;
                        act_backup := None; act_error := None |}) fcs, fs) /\
    none_failed
      (List.map (fun fc =>
                   {| act_file := fc_file_path fc;
                      act_type := fc_change_type fc;
                      act_status := "pending"; act_action := None;
                      act_backup := None; act_error := None |}) fcs) = true).
  { induction 1 as [|fc fcs (Hc & Hm & Hd) Hrest [IHl IHn]];
      [split; reflexivity|].
    simpl. unfold rollback_one, modified_or_deleted.
    apply String.eqb_neq in Hc, Hm, Hd. rewrite Hc, Hm, Hd. simpl.
    rewrite IHl. simpl. split; [reflexivity|exact IHn]. }
  destruct (Hloop _ Hall) as [Hl Hn]. rewrite Hl. simpl. rewrite Hn.
  reflexivity.
Qed.

End RollbackMore.

(** The theorem for a record of type "renamed". *)
Lemma rollback_unknown_change_type_witness :
  get_file_changes db_renamed 2 <> [] /\
  exists r,
    rollback_command (fs_backed true) db_renamed 2 false
    = Py.Returns (r, fs_backed true) /\
    r_success r = true /\
    List.map act_status (r_actions r) = ["pending"].
Proof.
  assert (Hne : get_file_changes db_renamed 2 <> [])
    by (vm_compute; discriminate).
  assert (Hall : Forall (fun fc => fc_change_type fc <> "created" /\
                                   fc_change_type fc <> "modified" /\
                                   fc_change_type fc <> "deleted")
                   (get_file_changes db_renamed 2)).
  { vm_compute. repeat constructor; discriminate. }
  split; [exact Hne|].
  destruct (rollback_unknown_change_type (fs_backed true) db_renamed 2
              Hne Hall) as [_ Hr].
  eexists. split; [exact Hr|]. split; [reflexivity|].
  vm_compute. reflexivity.
Defined.

(** The theorem on the ledger with two commands: the newer one has no
    records, so the older one is rolled back. *)
Lemma rollback_last_window_witness :
  NoDup (List.map cmd_timestamp (commands db_rollback)) /\
  rollback_last SimpleFTS.fts5 (fs_backed true) db_rollback false
  = rollback_command (fs_backed true) db_rollback 1 false.
Proof.
  assert (Hnd : NoDup (List.map cmd_timestamp (commands db_rollback))).
  { apply (bool_decide_unpack _). vm_compute. exact I. }
  split; [exact Hnd|].
  destruct (rollback_last_window SimpleFTS.fts5 (fs_backed true) db_rollback
              false Hnd)
    as (recent & Hget & _ & _ & _ & _ & _ & Hfirst).
  vm_compute in Hget. injection Hget as <-.
  refine (Hfirst [_] _ [] eq_refl _ _).
  - repeat constructor.
  - vm_compute. discriminate.
Defined.

(** Command 1 has records.  With two commands in the ledger
    [rollback_last] plans its rollback; after twenty later commands it
    finds nothing. *)
Example rollback_last_old_command :
  (exists r,
     rollback_last SimpleFTS.fts5 (fs_backed true) db_rollback true
     = Py.Returns (r, fs_backed true) /\
     r_command_id r = Some 1 /\
     List.map act_action (r_actions r) = [Some "restore"; Some "delete"]) /\
  get_file_changes db_rollback_old 1 <> [] /\
  (exists r,
     rollback_last SimpleFTS.fts5 (fs_backed true) db_rollback_old false
     = Py.Returns (r, fs_backed true) /\
     r_success r = false /\
     r_error r = Some "No recent commands with file changes found").
Proof.
  split; [|split].
  - eexists. split; [vm_compute; reflexivity|]. split; reflexivity.
  - vm_compute. discriminate.
  - eexists. split; [vm_compute; reflexivity|]. split; reflexivity.
Qed.

(** * Further properties of the command recorder *)

Lemma slice_to_length (n : Z) (s : string) :
  0 <= n -> Z.of_nat (String.length (PyStr.slice_to n s)) <= n.
Proof.
  unfold PyStr.slice_to. intros Hn.
  assert (Hlen : forall m s0,
            (String.length (String.substring 0 m s0) <= m)%nat).
  { induction m as [|m IH]; intros [|c s0]; simpl; try lia.
    specialize (IH s0). lia. }
  specialize (Hlen (Z.to_nat n) s). lia.
Qed.

Lemma slice_to_prefix (n : Z) (s : string) :
  String.prefix (PyStr.slice_to n s) s = true.
Proof.
  unfold PyStr.slice_to. generalize (Z.to_nat n) as m. intros m. revert s.
  induction m as [|m IH]; intros [|c s]; simpl; try reflexivity.
  destruct (ascii_dec c c); [apply IH|congruence].
Qed.

Lemma slice_to_empty (n : Z) (s : string) :
  PyStr.slice_to n s = "" -> n <= 0 \/ s = "".
Proof.
  unfold PyStr.slice_to. destruct (Z.to_nat n) as [|m] eqn:E.
  - intros _. left. lia.
  - destruct s; simpl; [auto|discriminate].
Qed.

Lemma ensure_session_current (ce : call_env) (db : DB) (r : recorder)
    (sid : string) :
  Py.if_str (current_session_id r) = Some sid ->
  ensure_session ce db r = (sid, db, r).
Proof.
  intros Hc. unfold ensure_session. rewrite Hc. reflexivity.
Qed.

Lemma ensure_session_start (ce : call_env) (db : DB) (r : recorder) :
  Py.truthy (current_session_id r) = false ->
  ensure_session ce db r
  = (ce_stamp ce,
     (start_session (ce_session ce) db (ce_stamp ce) None None None None).2,
     {| current_session_id := Some (ce_stamp ce);
        watched_files := watched_files r |}).
Proof.
  intros Hc. unfold ensure_session. rewrite (proj1 (falsy_if_str _) Hc).
  reflexivity.
Qed.

(** Whichever way the session is found, the tables of commands and file
    changes are as before. *)
Lemma ensure_session_frame (ce : call_env) (db : DB) (r : recorder) :
  commands (ensure_session ce db r).1.2 = commands db /\
  commands_seq (ensure_session ce db r).1.2 = commands_seq db /\
  file_changes (ensure_session ce db r).1.2 = file_changes db /\
  watched_files (ensure_session ce db r).2 = watched_files r.
Proof.
  unfold ensure_session.
  destruct (Py.if_str (current_session_id r)); simpl; auto.
Qed.

Section RecorderFacts.

Context {FS : Type} `{FileSystem FS}.

Variable backup_dir : string.
Variable path_name : string -> string.
Variable subprocess_run : FS -> string -> string -> run_outcome * FS.

Lemma backup_file_missing (fs : FS) (p : string) (id : Z) (stamp : string) :
  path_exists fs p = false ->
  backup_file backup_dir path_name fs p id stamp = (None, fs).
Proof.
  intros He. unfold backup_file. rewrite He. reflexivity.
Qed.

(** The loop over the changes touches the table of file changes only, and
    appends one row per change. *)
Lemma record_changes_spec (ce : call_env) (id : Z) (changes : list change) :
  forall (n : nat) (db : DB) (fs : FS),
    let res := record_changes backup_dir path_name ce n db fs id changes in
    commands res.1 = commands db /\
    commands_seq res.1 = commands_seq db /\
    commands_fts res.1 = commands_fts db /\
    sessions res.1 = sessions db /\
    exists rows,
      file_changes res.1 = file_changes db ++ rows /\
      Forall2 (describes id) changes rows.
Proof.
  induction changes as [|c rest IH]; intros n db fs; simpl.
  - repeat split; try reflexivity. exists []. rewrite app_nil_r. auto.
  - destruct (if needs_backup c
              then backup_file backup_dir path_name fs
                     (path_str (change_path c)) id (ce_backup_stamp ce n)
              else (None, fs)) as [backup_path fs1] eqn:Eb.
    match goal with
    | |- context [record_changes _ _ _ _ ?d ?f _ _] =>
        destruct (IH (S n) d f) as (Hc & Hs & Hf & Hss & rows & Hrows & Hall)
    end.
    simpl in *. rewrite Hc, Hs, Hf, Hss. repeat split; try reflexivity.
    eexists (_ :: rows). rewrite Hrows, <- app_assoc. split; [reflexivity|].
    constructor; [|exact Hall].
    unfold describes; simpl. repeat split; try reflexivity.
    intros Hnb. rewrite Hnb in Eb. congruence.
Qed.

(** [record] step by step. *)
Lemma recorder_record_eq (ce : call_env) (db : DB) (fs : FS) (r : recorder)
    (command : string) (cwd : option string)
    (track_files : option (list string)) (track_cwd execute : bool) :
  let es := ensure_session ce db r in
  let cwd' := Py.or_else cwd (env_cwd (ce_command ce)) in
  let watched :=
    match Py.nonempty track_files with
    | Some files => watch_files fs (List.map path_str files)
    | None =>
        if track_cwd then watch_directory fs (path_str cwd')
        else watched_files r
    end in
  let run := subprocess_run fs command cwd' in
  let fs1 := if execute then run.2 else fs in
  let so := stored_outcome run.1 in
  let a :=
    {| arg_command := command; arg_cwd := cwd';
       arg_exit_code := if execute then so.1.1 else None;
       arg_output := if execute then so.1.2 else None;
       arg_error_output := if execute then so.2 else None;
       arg_duration_ms := if execute then Some (ce_duration_ms ce) else None;
       arg_tags := None; arg_notes := None |} in
  let rc := record_command (ce_command ce) es.1.2 es.1.1 a in
  let changes :=
    match Py.nonempty track_files, track_cwd with
    | None, false => []
    | _, _ =>
        detect_changes fs1 watched
          (if track_cwd then Some (path_str cwd') else None)
    end in
  let rch := record_changes backup_dir path_name ce O rc.2 fs1 rc.1 changes in
  recorder_record backup_dir path_name subprocess_run ce db fs r command cwd
    track_files track_cwd execute
  = (rc.1, rch.1, rch.2,
     {| current_session_id := current_session_id es.2;
        watched_files := watched |}).
Proof.
  intros es cwd' watched run fs1 so a rc changes rch.
  pose proof (ensure_session_frame ce db r) as (_ & _ & _ & Hw).
  unfold recorder_record. fold cwd'. fold es in Hw |- *.
  subst rch changes rc a so fs1 run watched.
  destruct es as [[sid db1] r1]. simpl in Hw |- *.
  destruct execute.
  - destruct (subprocess_run fs command cwd') as [o fs']. cbn [fst snd].
    destruct (stored_outcome o) as [[e out] err]. simpl.
    destruct (Py.nonempty track_files) as [files|], track_cwd; simpl;
      try (destruct (record_changes _ _ _ _ _ _ _ _); reflexivity).
    destruct r1; simpl in *; subst; reflexivity.
  - simpl.
    destruct (Py.nonempty track_files) as [files|], track_cwd; simpl;
      try (destruct (record_changes _ _ _ _ _ _ _ _); reflexivity).
    destruct r1; simpl in *; subst; reflexivity.
Qed.

Lemma Forall2_In_l {A B : Type} (R : A -> B -> Prop) (l : list A)
    (l' : list B) (x : A) :
  Forall2 R l l' -> In x l -> exists y, In y l' /\ R x y.
Proof.
  induction 1 as [|a b l l' Hab Hrest IH]; simpl; [tauto|].
  intros [->|Hin].
  - exists b. auto.
  - destruct (IH Hin) as (y & Hy & Hr). exists y. auto.
Qed.

(** A record of a modification or deletion without backup pointer makes
    [can_rollback] refuse, wherever it stands among the records. *)
Lemma can_rollback_refuses (fs : FS) (db : DB) (command_id : Z)
    (fc : file_change) (reason : string) :
  In fc (get_file_changes db command_id) ->
  check_backup fs fc = Some reason ->
  (can_rollback fs db command_id).1 = false.
Proof.
  intros Hin Hc. unfold can_rollback.
  destruct (get_file_changes db command_id) as [|x l] eqn:E; [reflexivity|].
  rewrite <- E in *. clear E x l.
  induction (get_file_changes db command_id) as [|x l IH]; [destruct Hin|].
  simpl. destruct Hin as [->|Hin].
  - rewrite Hc. reflexivity.
  - destruct (check_backup fs x); [reflexivity|]. apply IH, Hin.
Qed.

(** X16. A command that [record] stores without running it has no exit
    code, output or duration, and [record] then raises the command counter
    of the current session by one and leaves its success and error counters
    as they are, whatever is tracked. *)
Theorem record_unexecuted_counts_neither (ce : call_env) (db : DB) (fs : FS)
    (r : recorder) (command : string) (cwd : option string)
    (track_files : option (list string)) (track_cwd : bool)
    (sid : string) (s : session) (id : Z) (db' : DB) (fs' : FS)
    (r' : recorder) :
  Py.if_str (current_session_id r) = Some sid ->
  sessions db !! sid = Some s ->
  recorder_record backup_dir path_name subprocess_run ce db fs r command cwd
    track_files track_cwd false = (id, db', fs', r') ->
  (exists row,
     commands db' = commands db ++ [row] /\
     cmd_id row = id /\ cmd_session_id row = sid /\
     cmd_exit_code row = None /\ cmd_output row = None /\
     cmd_error_output row = None /\ cmd_duration_ms row = None) /\
  exists s',
    get_session db' sid = Some s' /\
    s_command_count s' = s_command_count s + 1 /\
    s_success_count s' = s_success_count s /\
    s_error_count s' = s_error_count s.
Proof.
  intros Hcur Hs Hrec.
  rewrite recorder_record_eq in Hrec.
  rewrite (ensure_session_current ce db r sid Hcur) in Hrec.
  cbn [fst snd] in Hrec.
  match type of Hrec with
  | (_, (record_changes _ _ ?c ?n ?d ?f ?i ?l).1, _, _) = _ =>
      pose proof (record_changes_spec c i l n d f) as Hspec;
      cbv zeta in Hspec;
      remember (record_changes backup_dir path_name c n d f i l) as res
        eqn:Eres
  end.
  clear Eres. destruct Hspec as (Hc & _ & _ & Hss & _).
  injection Hrec as <- <- <- <-.
  split.
  - eexists. split; [rewrite Hc; reflexivity|].
    repeat split; reflexivity.
  - unfold get_session. rewrite Hss. simpl.
    rewrite lookup_alter_eq, Hs. simpl. eexists. split; [reflexivity|].
    simpl. unfold case_eq_zero, case_ne_zero. simpl. repeat split; lia.
Qed.

(** X17. [log] without a current session starts one named by the time
    stamp, without a name; afterwards that session is current, the command
    is filed under it, and its counters describe this one command alone,
    whatever the store held under that id before. *)
Theorem log_starts_session (ce : call_env) (db : DB) (r : recorder)
    (command : string) (exit_code : option Z)
    (output error_output cwd : option string) (duration_ms : option Z)
    (id : Z) (db' : DB) (r' : recorder) :
  Py.truthy (current_session_id r) = false ->
  recorder_log ce db r command exit_code output error_output cwd duration_ms
  = (id, db', r') ->
  current_session_id r' = Some (ce_stamp ce) /\
  (exists row,
     commands db' = commands db ++ [row] /\
     cmd_id row = id /\ cmd_session_id row = ce_stamp ce /\
     cmd_exit_code row = exit_code) /\
  exists s,
    get_session db' (ce_stamp ce) = Some s /\
    s_name s = None /\ s_ended_at s = None /\
    s_command_count s = 1 /\
    s_success_count s = (if decide (exit_code = Some 0) then 1 else 0) /\
    s_error_count s
    = (match exit_code with
       | Some code => if decide (code = 0) then 0 else 1
       | None => 0
       end).
Proof.
  intros Hcur Hlog. unfold recorder_log in Hlog.
  rewrite (ensure_session_start ce db r Hcur) in Hlog.
  simpl in Hlog. injection Hlog as <- <- <-.
  split; [reflexivity|]. split.
  - eexists. split; [reflexivity|]. repeat split; reflexivity.
  - unfold get_session. simpl.
    rewrite lookup_alter_eq, lookup_insert_eq. simpl.
    eexists. split; [reflexivity|]. simpl.
    repeat split; try reflexivity.
    + unfold case_eq_zero, sql_true, sql_eq.
      destruct exit_code as [code|]; cbv beta iota.
      * destruct (Z.eqb_spec code 0) as [->|Hne];
          destruct (decide _) as [Hd|Hd]; try reflexivity; congruence.
      * destruct (decide _) as [Hd|Hd]; [discriminate|reflexivity].
    + unfold case_ne_zero, sql_true, sql_ne.
      destruct exit_code as [code|]; cbv beta iota; [|reflexivity].
      destruct (Z.eqb_spec code 0) as [->|Hne];
        destruct (decide _) as [Hd|Hd]; try reflexivity; congruence.
Qed.

(** [record_changes] named once, and the facts about it kept. *)
Ltac name_record_changes Hrec res Hspec :=
  match type of Hrec with
  | (_, (record_changes ?b ?pn ?c ?n ?d ?f ?i ?l).1, _, _) = _ =>
      pose proof (record_changes_spec c i l n d f) as Hspec;
      cbv zeta in Hspec;
      let E := fresh "E" in
      remember (record_changes b pn c n d f i l) as res eqn:E;
      clear E
  end.

(** X18. A command that [record] runs always gets an exit code: the return
    code of the process, or -1 when it timed out or could not be started.
    The output kept is never the empty string and never longer than 100000
    characters, and is a prefix of what the process printed; the error
    output kept is at most 10000 characters of the error stream, or the
    message of the failure. *)
Theorem record_executed_outcome (ce : call_env) (db : DB) (fs : FS)
    (r : recorder) (command : string) (cwd : option string)
    (track_files : option (list string)) (track_cwd : bool)
    (id : Z) (db' : DB) (fs' : FS) (r' : recorder) :
  recorder_record backup_dir path_name subprocess_run ce db fs r command cwd
    track_files track_cwd true = (id, db', fs', r') ->
  let run :=
    (subprocess_run fs command (Py.or_else cwd (env_cwd (ce_command ce)))).1 in
  exists row,
    commands db' = commands db ++ [row] /\
    cmd_id row = id /\
    cmd_duration_ms row = Some (ce_duration_ms ce) /\
    (exists code,
       cmd_exit_code row = Some code /\
       match run with
       | Completed returncode _ _ => code = returncode
       | _ => code = -1
       end) /\
    (forall out,
       cmd_output row = Some out ->
       out <> "" /\ Z.of_nat (String.length out) <= 100000 /\
       exists returncode stdout stderr,
         run = Completed returncode stdout stderr /\
         String.prefix out stdout = true) /\
    (forall err,
       cmd_error_output row = Some err ->
       match run with
       | Completed _ _ stderr =>
           err <> "" /\ Z.of_nat (String.length err) <= 10000 /\
           String.prefix err stderr = true
       | TimeoutExpired => err = "Command timed out after 5 minutes"
       | RunError msg => err = msg
       end).
Proof.
  intros Hrec run.
  rewrite recorder_record_eq in Hrec. cbv zeta in Hrec.
  name_record_changes Hrec res Hspec.
  destruct Hspec as (Hc & _).
  pose proof (ensure_session_frame ce db r) as (Hec & _).
  injection Hrec as <- <- <- <-.
  eexists. split; [rewrite Hc; simpl; rewrite Hec; reflexivity|].
  simpl. fold run.
  split; [reflexivity|]. split; [reflexivity|].
  destruct run as [rc stdout stderr| |msg]; simpl.
  - split; [eauto|]. split.
    + intros out. destruct (String.eqb_spec stdout "") as [->|Hne];
        [discriminate|]. intros [= <-].
      split; [|split].
      * intros He. apply slice_to_empty in He as [He|He]; [lia|congruence].
      * apply slice_to_length. lia.
      * exists rc, stdout, stderr. split; [reflexivity|].
        apply slice_to_prefix.
    + intros err. destruct (String.eqb_spec stderr "") as [->|Hne];
        [discriminate|]. intros [= <-].
      split; [|split].
      * intros He. apply slice_to_empty in He as [He|He]; [lia|congruence].
      * apply slice_to_length. lia.
      * apply slice_to_prefix.
  - split; [eauto|]. split; [discriminate|]. intros err [= <-]. reflexivity.
  - split; [eauto|]. split; [discriminate|]. intros err [= <-]. reflexivity.
Qed.


Lemma get_file_hash_Some (fs : FS) (p h : string) :
  get_file_hash fs p = Some h ->
  path_exists fs p = true /\ file_md5 fs p = Some h.
Proof.
  unfold get_file_hash.
  destruct (path_exists fs p), (path_is_file fs p); simpl;
    try discriminate. auto.
Qed.

Lemma get_file_hash_missing (fs : FS) (p : string) :
  path_exists fs p = false -> get_file_hash fs p = None.
Proof.
  intros He. unfold get_file_hash. rewrite He. reflexivity.
Qed.

(** The parts of a call of [record]: the session found, the command
    stored, the changes recorded. *)
Lemma recorder_record_inv (ce : call_env) (db : DB) (fs : FS) (r : recorder)
    (command : string) (cwd : option string)
    (track_files : option (list string)) (track_cwd execute : bool)
    (id : Z) (db' : DB) (fs' : FS) (r' : recorder) :
  recorder_record backup_dir path_name subprocess_run ce db fs r command cwd
    track_files track_cwd execute = (id, db', fs', r') ->
  let cwd' := Py.or_else cwd (env_cwd (ce_command ce)) in
  let fs1 := if execute then (subprocess_run fs command cwd').2 else fs in
  let watched :=
    match Py.nonempty track_files with
    | Some files => watch_files fs (List.map path_str files)
    | None =>
        if track_cwd then watch_directory fs (path_str cwd')
        else watched_files r
    end in
  let changes :=
    match Py.nonempty track_files, track_cwd with
    | None, false => []
    | _, _ =>
        detect_changes fs1 watched
          (if track_cwd then Some (path_str cwd') else None)
    end in
  exists sid a db2,
    id = commands_seq db + 1 /\
    db2 = (record_command (ce_command ce) (ensure_session ce db r).1.2 sid
             a).2 /\
    file_changes db2 = file_changes db /\
    record_changes backup_dir path_name ce O db2 fs1 id changes = (db', fs').
Proof.
  intros Hrec cwd' fs1 watched changes.
  rewrite recorder_record_eq in Hrec. cbv zeta in Hrec.
  fold cwd' in Hrec. fold fs1 in Hrec. fold watched in Hrec.
  fold changes in Hrec.
  pose proof (ensure_session_frame ce db r) as (_ & Hseq & Hfc & _).
  match type of Hrec with
  | (_, (record_changes _ _ _ _ (record_command ?e ?d ?s ?a).2 _ _ _).1,
     _, _) = _ =>
      exists s, a, (record_command e d s a).2;
      remember (record_command e d s a) as rc eqn:Erc
  end.
  assert (Hid : rc.1 = commands_seq db + 1)
    by (rewrite Erc; simpl; rewrite Hseq; reflexivity).
  assert (Hfc2 : file_changes rc.2 = file_changes db)
    by (rewrite Erc; simpl; exact Hfc).
  clear Erc.
  destruct (record_changes backup_dir path_name ce 0 rc.2 fs1 rc.1 changes)
    as [db3 fs3] eqn:Erch.
  cbn [fst snd] in Hrec. injection Hrec as <- <- <- <-.
  repeat split; auto.
Qed.

(** X20. A file that [record] tracks by name and that the command removes
    is recorded as deleted without a backup, since the backup is attempted
    after the command has run.  The recorded command can then never be
    rolled back: [rollback_command] refuses on whatever filesystem it is
    later asked, dry run or not, and leaves that filesystem alone. *)
Theorem record_deletion_cannot_be_rolled_back (ce : call_env) (db : DB)
    (fs : FS) (r : recorder) (command : string) (cwd : option string)
    (p h : string) (id : Z) (db' : DB) (fs' : FS) (r' : recorder)
    (fs_later : FS) (dry_run : bool) :
  path_str p = p ->
  get_file_hash fs p = Some h ->
  path_exists
    (subprocess_run fs command
       (Py.or_else cwd (env_cwd (ce_command ce)))).2 p = false ->
  recorder_record backup_dir path_name subprocess_run ce db fs r command cwd
    (Some [p]) false true = (id, db', fs', r') ->
  (exists row,
     file_changes db' = file_changes db ++ [row] /\
     fc_command_id row = id /\ fc_file_path row = p /\
     fc_change_type row = "deleted" /\ fc_backup_path row = None) /\
  exists reason,
    rollback_command fs_later db' id dry_run
    = Py.Returns
        ({| r_success := false; r_error := Some reason; r_dry_run := None;
            r_command_id := None; r_actions := [] |}, fs_later).
Proof.
  intros Hp Hh Hgone Hrec.
  apply recorder_record_inv in Hrec. cbv zeta in Hrec.
  destruct Hrec as (sid & a & db2 & Hid & _ & Hfc & Hrch).
  set (fs1 := (subprocess_run fs command
                 (Py.or_else cwd (env_cwd (ce_command ce)))).2) in *.
  cbn [Py.nonempty List.map watch_files foldl dict_set detect_changes
       flat_map check_individual] in Hrch.
  rewrite !Hp, Hh, (get_file_hash_missing fs1 p Hgone) in Hrch.
  cbn [app record_changes needs_backup change_type change_path] in Hrch.
  change (String.eqb "deleted" "modified" || String.eqb "deleted" "deleted")
    with true in Hrch.
  cbv iota in Hrch.
  rewrite Hp, (backup_file_missing fs1 p _ _ Hgone) in Hrch.
  injection Hrch as <- <-.
  assert (Hrows : exists row,
            file_changes
              (record_file_change (ce_change ce 0) db2 id p "deleted"
                 (Some h) None (get_file_size fs p) None None)
            = file_changes db ++ [row] /\
            fc_command_id row = id /\ fc_file_path row = p /\
            fc_change_type row = "deleted" /\ fc_backup_path row = None).
  { eexists. split; [simpl; rewrite Hfc; reflexivity|].
    repeat split; reflexivity. }
  destruct Hrows as (row & Hrows & Hrid & Hrp & Hrt & Hrb).
  split; [exists row; auto|].
  assert (Hin : In row (get_file_changes
                          (record_file_change (ce_change ce 0) db2 id p
                             "deleted" (Some h) None (get_file_size fs p)
                             None None) id)).
  { unfold get_file_changes. apply list_elem_of_In, list_elem_of_filter.
    split; [exact Hrid|]. apply list_elem_of_In. rewrite Hrows.
    apply in_or_app. right. left. reflexivity. }
  assert (Hcb : check_backup fs_later row
                = Some ("No backup available for " +:+ fc_file_path row)).
  { unfold check_backup, modified_or_deleted. rewrite Hrt, Hrb. reflexivity. }
  pose proof (can_rollback_refuses fs_later _ _ row _ Hin Hcb) as Hno.
  match type of Hno with
  | (can_rollback ?f ?d ?i).1 = false =>
      destruct (can_rollback f d i) as [b reason] eqn:Ecan
  end.
  simpl in Hno. subst b. exists reason.
  apply rollback_command_refused. exact Ecan.
Qed.

(** X21. The backup that [record] takes of a tracked file which the
    command has modified is a copy of the file as the command left it:
    where copying reproduces the content at a free location, the digest of
    the backup is the new digest of the row, not the old one. *)
Theorem record_backup_holds_new_content (ce : call_env) (db : DB) (fs : FS)
    (r : recorder) (command : string) (cwd : option string)
    (p h_old h_new : string) (id : Z) (db' : DB) (fs' : FS)
    (r' : recorder) :
  let fs_after :=
    (subprocess_run fs command
       (Py.or_else cwd (env_cwd (ce_command ce)))).2 in
  (forall src dst fs2,
     path_exists fs_after dst = false ->
     copy2 fs_after src dst = Done fs2 ->
     file_md5 fs2 dst = file_md5 fs_after src) ->
  path_str p = p ->
  get_file_hash fs p = Some h_old ->
  get_file_hash fs_after p = Some h_new ->
  h_old <> h_new ->
  path_exists fs_after
    (backup_location backup_dir path_name p (commands_seq db + 1)
       (ce_backup_stamp ce O)) = false ->
  recorder_record backup_dir path_name subprocess_run ce db fs r command cwd
    (Some [p]) false true = (id, db', fs', r') ->
  exists row,
    file_changes db' = file_changes db ++ [row] /\
    fc_command_id row = id /\ fc_file_path row = p /\
    fc_change_type row = "modified" /\
    fc_old_hash row = Some h_old /\ fc_new_hash row = Some h_new /\
    forall b, fc_backup_path row = Some b -> file_md5 fs' b = Some h_new.
Proof.
  intros fs_after Hcopy Hp Hold Hnew Hne Hfree Hrec.
  apply recorder_record_inv in Hrec. cbv zeta in Hrec.
  destruct Hrec as (sid & a & db2 & Hid & _ & Hfc & Hrch).
  fold fs_after in Hrch.
  cbn [Py.nonempty List.map watch_files foldl dict_set detect_changes
       flat_map check_individual] in Hrch.
  rewrite !Hp, Hold, Hnew in Hrch.
  destruct (decide (Some h_old = Some h_new)) as [Heq|_]; [congruence|].
  cbn [app record_changes needs_backup change_type change_path] in Hrch.
  change (String.eqb "modified" "modified" || String.eqb "modified" "deleted")
    with true in Hrch.
  cbv iota in Hrch. rewrite Hp in Hrch.
  destruct (get_file_hash_Some fs_after p h_new Hnew) as [Hex Hmd5].
  unfold backup_file in Hrch. rewrite Hex in Hrch. cbn [negb] in Hrch.
  cbv iota zeta in Hrch.
  fold (backup_location backup_dir path_name p id (ce_backup_stamp ce 0))
    in Hrch.
  subst id.
  destruct (copy2 fs_after p
              (backup_location backup_dir path_name p (commands_seq db + 1)
                 (ce_backup_stamp ce 0))) as [fs2|msg fs2] eqn:Ecp;
    injection Hrch as <- <-.
  - eexists. split; [simpl; rewrite Hfc; reflexivity|].
    simpl. repeat split; try reflexivity.
    intros b [= <-]. rewrite (Hcopy _ _ _ Hfree Ecp). exact Hmd5.
  - eexists. split; [simpl; rewrite Hfc; reflexivity|].
    simpl. repeat split; try reflexivity. discriminate.
Qed.

Lemma watch_files_keys (fs : FS) (file_paths : list string) (k : string) :
  In k (dict_keys (watch_files fs file_paths)) ->
  In k (List.map path_str file_paths).
Proof.
  unfold watch_files.
  assert (Hgen : forall acc : snapshot,
    In k (dict_keys
            (foldl (fun watched file_path =>
                      dict_set (path_str file_path)
                        (get_file_hash fs file_path,
                         get_file_size fs file_path) watched)
               acc file_paths)) ->
    In k (dict_keys acc) \/ In k (List.map path_str file_paths)).
  { induction file_paths as [|f fl IH]; intros acc; simpl; [auto|].
    intros Hin. apply IH in Hin as [Hin|Hin]; [|auto].
    apply dict_set_keys_In in Hin as [->|Hin]; auto. }
  intros Hin. apply Hgen in Hin as [[]|Hin]. exact Hin.
Qed.

(** X22. With a list of files and the directory flag both given, [record]
    takes its baseline from the list and compares it with the directory:
    every file found under the working directory whose relative path is not
    one of the listed names is recorded as created by the command, also
    when the command is not run and nothing has changed. *)
Theorem record_both_flags_reports_created (ce : call_env) (db : DB) (fs : FS)
    (r : recorder) (command : string) (cwd : option string)
    (f : string) (fl : list string) (rel : string) (h : option string)
    (size : option Z) (id : Z) (db' : DB) (fs' : FS) (r' : recorder) :
  let d := path_str (Py.or_else cwd (env_cwd (ce_command ce))) in
  In (rel, (h, size)) (snapshot_directory fs d) ->
  ~ In rel (List.map (fun x => path_str (path_str x)) (f :: fl)) ->
  recorder_record backup_dir path_name subprocess_run ce db fs r command cwd
    (Some (f :: fl)) true false = (id, db', fs', r') ->
  exists row,
    In row (get_file_changes db' id) /\
    fc_change_type row = "created" /\
    fc_file_path row = path_join d rel /\
    fc_new_hash row = h /\ fc_backup_path row = None.
Proof.
  intros d Hin Hnot Hrec.
  apply recorder_record_inv in Hrec. cbv zeta in Hrec.
  destruct Hrec as (sid & a & db2 & Hid & _ & Hfc & Hrch).
  cbn [Py.nonempty] in Hrch. fold d in Hrch.
  match type of Hrch with
  | record_changes _ _ ?c ?n ?db0 ?fs0 ?i ?l = _ =>
      pose proof (record_changes_spec c i l n db0 fs0)
        as Hspec
  end.
  cbv zeta in Hspec. rewrite Hrch in Hspec. cbn [fst] in Hspec.
  destruct Hspec as (_ & _ & _ & _ & rows & Hrows & Hall).
  assert (Hc : In (Created (path_join d rel) h size)
                 (detect_changes fs
                    (watch_files fs (List.map path_str (f :: fl))) (Some d))).
  { unfold detect_changes. apply in_or_app. right.
    apply in_flat_map. exists (rel, (h, size)). split; [exact Hin|].
    unfold check_created, dict_mem.
    assert (Hg : dict_get rel (watch_files fs (List.map path_str (f :: fl)))
                 = None).
    { apply dict_get_None. intros Hk. apply watch_files_keys in Hk.
      apply Hnot. rewrite List.map_map in Hk. exact Hk. }
    rewrite Hg. left. reflexivity. }
  destruct (Forall2_In_l _ _ _ _ Hall Hc)
    as (row & Hrow & Hcid & Hpath & Hty & _ & Hnh & _ & _ & Hbk).
  exists row. split; [|repeat split; auto].
  unfold get_file_changes. apply list_elem_of_In, list_elem_of_filter.
  split; [exact Hcid|]. apply list_elem_of_In. rewrite Hrows.
  apply in_or_app. right. exact Hrow.
Qed.

End RecorderFacts.

(** Copying on the in-memory filesystem reproduces the content at a free
    location. *)
Lemma memfs_copy2_content (fs fs2 : MemFS.t) (src dst : string) :
  path_exists fs dst = false ->
  copy2 fs src dst = Done fs2 ->
  file_md5 fs2 dst = file_md5 fs src.
Proof.
  simpl. unfold MemFS.exists_, MemFS.copy2_, MemFS.md5, MemFS.is_dir.
  intros He Hc. apply orb_false_iff in He as [Hroot He].
  apply bool_decide_eq_false in He.
  assert (Hd : fs !! dst = None).
  { destruct (fs !! dst) eqn:E; [|reflexivity]. exfalso. apply He. eauto. }
  rewrite Hroot in Hc. cbn [orb] in Hc. rewrite Hd in Hc.
  cbv iota zeta in Hc. rewrite ?Hd in Hc.
  destruct (fs !! src) as [[c w|]|]; try discriminate Hc.
  destruct (String.eqb src dst); [discriminate Hc|].
  destruct (MemFS.is_root (MemFS.parent dst) ||
            match fs !! MemFS.parent dst with
            | Some MemFS.Dir => true
            | _ => false
            end); [|discriminate Hc].
  injection Hc as Hc. subst fs2.
  rewrite (lookup_insert_eq fs dst). reflexivity.
Qed.

(** The theorem for "make" recorded, not run, in session "s": the session
    had two commands, one of them successful. *)
Lemma record_unexecuted_counts_neither_witness :
  Py.if_str (current_session_id (recorder_in "s")) = Some "s" /\
  (exists s, sessions db_build_test !! "s" = Some s /\
             s_command_count s = 2 /\ s_success_count s = 1 /\
             s_error_count s = 0) /\
  exists s',
    get_session (record_sample "make" None false false).1.1.2 "s" = Some s' /\
    s_command_count s' = 3 /\ s_success_count s' = 1 /\ s_error_count s' = 0.
Proof.
  split; [reflexivity|].
  eassert (Hs : sessions db_build_test !! "s" = Some _)
    by (vm_compute; reflexivity).
  split; [eexists; split; [exact Hs|]; repeat split; reflexivity|].
  destruct (record_unexecuted_counts_neither "/b" MemFS.basename run_sample
              ce_sample db_build_test (fs_backed true) (recorder_in "s")
              "make" (Some "/w") None false "s" _
              (record_sample "make" None false false).1.1.1
              (record_sample "make" None false false).1.1.2
              (record_sample "make" None false false).1.2
              (record_sample "make" None false false).2
              eq_refl Hs eq_refl)
    as [_ (s' & Hs' & Hn & Hok & Herr)].
  exists s'. split; [exact Hs'|]. rewrite Hn, Hok, Herr.
  repeat split; reflexivity.
Defined.

(** The theorem for "ls" logged with exit code 0 on the empty store. *)
Lemma log_starts_session_witness :
  Py.truthy (current_session_id recorder_idle) = false /\
  current_session_id log_sample.2 = Some "20260131_100003" /\
  exists s,
    get_session log_sample.1.2 "20260131_100003" = Some s /\
    s_command_count s = 1 /\ s_success_count s = 1 /\ s_error_count s = 0.
Proof.
  split; [reflexivity|].
  destruct (log_starts_session ce_sample empty_db recorder_idle "ls" (Some 0)
              None None None None log_sample.1.1 log_sample.1.2 log_sample.2
              eq_refl eq_refl)
    as (Hcur & _ & s & Hs & _ & _ & Hn & Hok & Herr).
  split; [exact Hcur|]. exists s. split; [exact Hs|].
  rewrite Hn, Hok, Herr. repeat split; reflexivity.
Defined.

(** The theorem for a command that prints its own text. *)
Lemma record_executed_outcome_witness :
  exists row,
    commands (record_sample "echo hello" None false true).1.1.2
    = commands db_build_test ++ [row] /\
    cmd_exit_code row = Some 0 /\
    cmd_output row = Some "echo hello" /\
    cmd_error_output row = None.
Proof.
  destruct (record_executed_outcome "/b" MemFS.basename run_sample
              ce_sample db_build_test (fs_backed true) (recorder_in "s")
              "echo hello" (Some "/w") None false
              (record_sample "echo hello" None false true).1.1.1
              (record_sample "echo hello" None false true).1.1.2
              (record_sample "echo hello" None false true).1.2
              (record_sample "echo hello" None false true).2
              eq_refl)
    as (row & Hrow & _).
  exists row. split; [exact Hrow|].
  vm_compute in Hrow. injection Hrow as Hrow. subst row.
  repeat split; reflexivity.
Defined.


(** The theorem for "rm /w/a.txt" with that file tracked: the record of
    the deletion has no backup, and the rollback is refused. *)
Lemma record_deletion_cannot_be_rolled_back_witness :
  get_file_hash (fs_backed true) "/w/a.txt" = Some "md5:v2" /\
  path_exists (run_sample (fs_backed true) "rm /w/a.txt" "/w").2 "/w/a.txt"
  = false /\
  exists reason,
    rollback_command (fs_backed true)
      (record_sample "rm /w/a.txt" (Some ["/w/a.txt"]) false true).1.1.2
      (record_sample "rm /w/a.txt" (Some ["/w/a.txt"]) false true).1.1.1
      false
    = Py.Returns
        ({| r_success := false; r_error := Some reason; r_dry_run := None;
            r_command_id := None; r_actions := [] |}, fs_backed true).
Proof.
  set (res := record_sample "rm /w/a.txt" (Some ["/w/a.txt"]) false true).
  assert (Hh : get_file_hash (fs_backed true) "/w/a.txt" = Some "md5:v2")
    by (vm_compute; reflexivity).
  assert (Hgone : path_exists
                    (run_sample (fs_backed true) "rm /w/a.txt"
                       (Py.or_else (Some "/w")
                          (env_cwd (ce_command ce_sample)))).2 "/w/a.txt"
                  = false)
    by (vm_compute; reflexivity).
  assert (Hrec : recorder_record "/b" MemFS.basename run_sample ce_sample
                   db_build_test (fs_backed true) (recorder_in "s")
                   "rm /w/a.txt" (Some "/w") (Some ["/w/a.txt"]) false true
                 = (res.1.1.1, res.1.1.2, res.1.2, res.2))
    by (vm_compute; reflexivity).
  split; [exact Hh|]. split; [exact Hgone|].
  exact (proj2 (record_deletion_cannot_be_rolled_back "/b" MemFS.basename
                  run_sample ce_sample db_build_test (fs_backed true)
                  (recorder_in "s") "rm /w/a.txt" (Some "/w") "/w/a.txt"
                  "md5:v2" _ _ _ _ (fs_backed true) false eq_refl Hh Hgone
                  Hrec)).
Defined.

(** The theorem for "echo v3 > /w/a.txt" with that file tracked: the file
    held "v2" before the command, and its backup holds "v3". *)
Lemma record_backup_holds_new_content_witness :
  get_file_hash (fs_backed true) "/w/a.txt" = Some "md5:v2" /\
  exists row,
    file_changes
      (record_sample "echo v3 > /w/a.txt" (Some ["/w/a.txt"]) false true).1.1.2
    = file_changes db_build_test ++ [row] /\
    fc_old_hash row = Some "md5:v2" /\
    fc_backup_path row = Some "/b/cmd_3_20260131_100003_0_a.txt" /\
    file_md5
      (record_sample "echo v3 > /w/a.txt" (Some ["/w/a.txt"]) false true).1.2
      "/b/cmd_3_20260131_100003_0_a.txt" = Some "md5:v3".
Proof.
  set (res := record_sample "echo v3 > /w/a.txt" (Some ["/w/a.txt"])
                false true).
  assert (Hh : get_file_hash (fs_backed true) "/w/a.txt" = Some "md5:v2")
    by (vm_compute; reflexivity).
  assert (Hrec : recorder_record "/b" MemFS.basename run_sample ce_sample
                   db_build_test (fs_backed true) (recorder_in "s")
                   "echo v3 > /w/a.txt" (Some "/w") (Some ["/w/a.txt"])
                   false true
                 = (res.1.1.1, res.1.1.2, res.1.2, res.2))
    by (vm_compute; reflexivity).
  split; [exact Hh|].
  destruct (record_backup_holds_new_content "/b" MemFS.basename run_sample
              ce_sample db_build_test (fs_backed true) (recorder_in "s")
              "echo v3 > /w/a.txt" (Some "/w") "/w/a.txt" "md5:v2" "md5:v3"
              _ _ _ _
              (fun src dst fs2 => memfs_copy2_content _ fs2 src dst)
              eq_refl Hh ltac:(vm_compute; reflexivity)
              ltac:(discriminate) ltac:(vm_compute; reflexivity) Hrec)
    as (row & Hrows & _ & _ & _ & Hold & _ & Hbk).
  exists row. split; [exact Hrows|]. split; [exact Hold|].
  assert (Hb : fc_backup_path row = Some "/b/cmd_3_20260131_100003_0_a.txt").
  { vm_compute in Hrows. injection Hrows as Hrows. subst row. reflexivity. }
  split; [exact Hb|]. exact (Hbk _ Hb).
Defined.

(** The theorem for "/w/a.txt" listed and the directory "/w" tracked as
    well: the listed file itself, untouched, is recorded as created. *)
Lemma record_both_flags_reports_created_witness :
  In ("a.txt", (Some "md5:v2", Some 2))
    (snapshot_directory (fs_backed true) "/w") /\
  ~ In "a.txt" ["/w/a.txt"] /\
  exists row,
    In row
      (get_file_changes
         (record_sample "make" (Some ["/w/a.txt"]) true false).1.1.2
         (record_sample "make" (Some ["/w/a.txt"]) true false).1.1.1) /\
    fc_change_type row = "created" /\
    fc_file_path row = "/w/a.txt".
Proof.
  set (res := record_sample "make" (Some ["/w/a.txt"]) true false).
  assert (Hin : In ("a.txt", (Some "md5:v2", Some 2))
                  (snapshot_directory (fs_backed true)
                     (path_str (Py.or_else (Some "/w")
                                  (env_cwd (ce_command ce_sample)))))).
  { vm_compute. auto. }
  assert (Hnot : ~ In "a.txt"
                     (List.map (fun x => path_str (path_str x))
                        ["/w/a.txt"])).
  { simpl. intros [Heq|[]]. discriminate Heq. }
  assert (Hrec : recorder_record "/b" MemFS.basename run_sample ce_sample
                   db_build_test (fs_backed true) (recorder_in "s")
                   "make" (Some "/w") (Some ["/w/a.txt"]) true false
                 = (res.1.1.1, res.1.1.2, res.1.2, res.2))
    by (vm_compute; reflexivity).
  split; [exact Hin|]. split; [exact Hnot|].
  destruct (record_both_flags_reports_created "/b" MemFS.basename run_sample
              ce_sample db_build_test (fs_backed true) (recorder_in "s")
              "make" (Some "/w") "/w/a.txt" [] "a.txt" (Some "md5:v2")
              (Some 2) _ _ _ _ Hin Hnot Hrec)
    as (row & Hrow & Hty & Hpath & _).
  exists row. split; [exact Hrow|]. split; [exact Hty|]. exact Hpath.
Defined.
